(** * Schema resolution of azure-pipelines-vscode

    A shallow embedding of [src/schema-association-service.ts]:
    [locateSchemaFile], [getSchemaAssociation] and [autoDetectSchema],
    together with the detached prompt continuations that
    [autoDetectSchema] schedules, and the properties of the resolution
    engine proved (or refuted) on that embedding.

    Conventions.
    - JavaScript strings are modelled as [string], holding the UTF-8
      bytes of the text; [trim] strips the white space and the line
      terminators of ECMAScript, [toLowerCase] folds the ASCII letters.
    - [undefined] is [None]; a property access on [undefined] throws a
      [TypeError], as it does in JavaScript.
    - An [async] function is a computation in the monad [M]: it threads
      the mutable state of the extension host, may throw, and emits the
      externally visible events (log lines, messages, network calls) in
      program order.  A promise that is not awaited becomes a [Task]
      stored in the state and run later by [runTask].
    - The object kept under [azurePipelinesDetails] is a finite map from
      folder names to entries; only its own properties are modelled.
    - Node's [path] module is modelled for POSIX hosts; [vscode.Uri]
      follows the implementation of the [vscode-uri] package. *)

From Stdlib Require Import String Ascii List NArith Bool Lia.
From stdpp Require Import base option list strings gmap relations.

Local Open Scope string_scope.
Local Open Scope list_scope.

(** ** Exceptions *)

Inductive Error : Type :=
| TypeError (msg : string)
| UriError (msg : string)
| Failure (msg : string).

Inductive Result (A : Type) : Type :=
| Ok (a : A)
| Throw (e : Error).

Arguments Ok {A} a.
Arguments Throw {A} e.

Definition Error_toString (e : Error) : string :=
  match e with
  | TypeError m => "TypeError: " +:+ m
  | UriError m => "Error: [UriError]: " +:+ m
  | Failure m => "Error: " +:+ m
  end.

Definition isOk {A} (r : Result A) : bool :=
  match r with Ok _ => true | Throw _ => false end.

(** ** JavaScript string primitives *)

Module JS.

Definition code (c : ascii) : N := N_of_ascii c.

Definition isWhiteSpace (c : ascii) : bool :=
  let n := code c in (((9 <=? n) && (n <=? 13)) || (n =? 32))%N.

Definition lowerChar (c : ascii) : ascii :=
  let n := code c in
  if ((65 <=? n) && (n <=? 90))%N then ascii_of_N (n + 32) else c.

Fixpoint toLowerCase (s : string) : string :=
  match s with
  | EmptyString => EmptyString
  | String c s' => String (lowerChar c) (toLowerCase s')
  end.

(** A character that [trim] strips and that is not a single byte: the
    UTF-8 bytes of U+00A0 (two bytes) and of U+1680, U+2000 to U+200A,
    U+2028, U+2029, U+202F, U+205F, U+3000 and U+FEFF (three bytes). *)
Definition isWideSpace (c d e : N) : bool :=
  (((c =? 225) && (d =? 154) && (e =? 128))
   || ((c =? 226) && (d =? 128)
       && (((128 <=? e) && (e <=? 138)) || (e =? 168) || (e =? 169) || (e =? 175)))
   || ((c =? 226) && (d =? 129) && (e =? 159))
   || ((c =? 227) && (d =? 128) && (e =? 128))
   || ((c =? 239) && (d =? 187) && (e =? 191)))%N.

(** The number of bytes of the white space or line terminator that [s]
    starts with, 0 when it starts with none. *)
Definition whiteSpaceLength (s : string) : nat :=
  match s with
  | EmptyString => 0
  | String c s1 =>
      if isWhiteSpace c then 1
      else
        match s1 with
        | String d s2 =>
            if ((code c =? 194) && (code d =? 160))%N then 2
            else
              match s2 with
              | String e _ => if isWideSpace (code c) (code d) (code e) then 3 else 0
              | EmptyString => 0
              end
        | EmptyString => 0
        end
  end.

Fixpoint trimStart (s : string) : string :=
  match s with
  | EmptyString => EmptyString
  | String _ s1 =>
      match whiteSpaceLength s with
      | 0 => s
      | 1 => trimStart s1
      | 2 => match s1 with String _ s2 => trimStart s2 | EmptyString => s end
      | _ => match s1 with
             | String _ (String _ s3) => trimStart s3
             | _ => s
             end
      end
  end.

(** [s] is cut where what follows is white space up to the end. *)
Fixpoint trimEnd (s : string) : string :=
  match s with
  | EmptyString => EmptyString
  | String c s1 =>
      if trimStart s =? "" then EmptyString else String c (trimEnd s1)
  end.

Fixpoint rev_string (s acc : string) : string :=
  match s with
  | EmptyString => acc
  | String c s' => rev_string s' (String c acc)
  end.

Definition trim (s : string) : string := trimEnd (trimStart s).

Definition startsWith (s p : string) : bool := String.prefix p s.

(** [s.split(sep)] for a one-character separator. *)
Fixpoint split (sep : ascii) (s : string) : list string :=
  match s with
  | EmptyString => [""]
  | String c s' =>
      if Ascii.eqb c sep then "" :: split sep s'
      else match split sep s' with
           | seg :: rest => String c seg :: rest
           | [] => [String c ""]
           end
  end.

(** [parts.join(sep)]. *)
Fixpoint join (sep : string) (parts : list string) : string :=
  match parts with
  | [] => ""
  | [p] => p
  | p :: ps => p +:+ sep +:+ join sep ps
  end.

(** Longest prefix of [s] whose characters all fail [stop], and the rest. *)
Fixpoint span (stop : ascii -> bool) (s : string) : string * string :=
  match s with
  | EmptyString => ("", "")
  | String c s' =>
      if stop c then ("", s)
      else let '(a, b) := span stop s' in (String c a, b)
  end.

Definition lastChar (s : string) : option ascii :=
  match rev_string s "" with
  | EmptyString => None
  | String c _ => Some c
  end.

(** The template-literal rendering of a possibly undefined string. *)
Definition show (o : option string) : string :=
  match o with Some s => s | None => "undefined" end.

End JS.

(** ** Node's [path] module (POSIX flavour) *)

Module path.

Definition isAbsolute (p : string) : bool :=
  match p with
  | String "/" _ => true
  | _ => false
  end.

(** [normalizeString]: the segments kept so far are held in reverse. *)
Fixpoint normalizeSegments (allowAboveRoot : bool)
    (segs : list string) (res : list string) : list string :=
  match segs with
  | [] => res
  | seg :: segs' =>
      if (seg =? "") || (seg =? ".") then
        normalizeSegments allowAboveRoot segs' res
      else if seg =? ".." then
        match res with
        | top :: res' =>
            if top =? ".." then
              normalizeSegments allowAboveRoot segs'
                (if allowAboveRoot then ".." :: res else res)
            else normalizeSegments allowAboveRoot segs' res'
        | [] =>
            normalizeSegments allowAboveRoot segs'
              (if allowAboveRoot then [".."] else [])
        end
      else normalizeSegments allowAboveRoot segs' (seg :: res)
  end.

Definition normalizeString (p : string) (allowAboveRoot : bool) : string :=
  JS.join "/" (rev (normalizeSegments allowAboveRoot (JS.split "/" p) [])).

Definition normalize (p : string) : string :=
  if p =? "" then "."
  else
    let isAbs := isAbsolute p in
    let trailingSeparator :=
      match JS.lastChar p with Some "/"%char => true | _ => false end in
    let q := normalizeString p (negb isAbs) in
    if q =? "" then
      (if isAbs then "/" else if trailingSeparator then "./" else ".")
    else
      let q' := if trailingSeparator then q +:+ "/" else q in
      if isAbs then "/" +:+ q' else q'.

Definition join (args : list string) : string :=
  match List.filter (fun a => negb (a =? "")) args with
  | [] => "."
  | parts => normalize (JS.join "/" parts)
  end.

End path.


(** ** [vscode.Uri] *)

Module Uri.

Record t : Type := make {
  scheme : string;
  authority : string;
  path : string;
  query : string;
  fragment : string
}.

Definition isWordChar (c : ascii) : bool :=
  let n := JS.code c in
  (((48 <=? n) && (n <=? 57)) || ((65 <=? n) && (n <=? 90))
   || ((97 <=? n) && (n <=? 122)) || (n =? 95))%N.

Definition isSchemeChar (c : ascii) : bool :=
  isWordChar c || Ascii.eqb c "+" || Ascii.eqb c "." || Ascii.eqb c "-".

Fixpoint allChars (f : ascii -> bool) (s : string) : bool :=
  match s with
  | EmptyString => true
  | String c s' => f c && allChars f s'
  end.

(** [_schemePattern]: a word character followed by word characters,
    digits, plus signs, dots and hyphens. *)
Definition schemePattern (s : string) : bool :=
  match s with
  | EmptyString => false
  | String c s' => isWordChar c && allChars isSchemeChar s'
  end.

(** [_referenceResolution]: the path of an [https], [http] or [file]
    URI is made to start with a slash. *)
Definition referenceResolution (scheme path : string) : string :=
  if (scheme =? "https") || (scheme =? "http") || (scheme =? "file") then
    match path with
    | EmptyString => "/"
    | String "/" _ => path
    | _ => "/" +:+ path
    end
  else path.

(** [_validateUri]. *)
Definition validateUri (strict : bool) (u : t) : Result t :=
  if (scheme u =? "") && strict then
    Throw (UriError "Scheme is missing")
  else if negb (scheme u =? "") && negb (schemePattern (scheme u)) then
    Throw (UriError "Scheme contains illegal characters.")
  else if negb (path u =? "") then
    if negb (authority u =? "") then
      if JS.startsWith (path u) "/" then Ok u
      else Throw (UriError "If a URI contains an authority component, then the path component must either be empty or begin with a slash character")
    else
      if JS.startsWith (path u) "//" then
        Throw (UriError "If a URI does not contain an authority component, then the path cannot begin with two slash characters")
      else Ok u
  else Ok u.

(** The constructor: scheme fix-up, reference resolution, validation. *)
Definition new (strict : bool)
    (scheme authority path query fragment : string) : Result t :=
  let scheme' := if (scheme =? "") && negb strict then "file" else scheme in
  validateUri strict
    (make scheme' authority (referenceResolution scheme' path) query fragment).

Definition hexValue (c : ascii) : option N :=
  let n := JS.code c in
  if ((48 <=? n) && (n <=? 57))%N then Some (n - 48)%N
  else if ((65 <=? n) && (n <=? 70))%N then Some (n - 55)%N
  else if ((97 <=? n) && (n <=? 102))%N then Some (n - 87)%N
  else None.

Definition isAlphaNumeric (c : ascii) : bool :=
  let n := JS.code c in
  (((48 <=? n) && (n <=? 57)) || ((65 <=? n) && (n <=? 90))
   || ((97 <=? n) && (n <=? 122)))%N.

Definition isContinuation (b : N) : bool := ((128 <=? b) && (b <=? 191))%N.

(** The bytes are the UTF-8 encoding of a sequence of code points (no
    overlong form, no surrogate, nothing above U+10FFFF): what
    [decodeURIComponent] accepts. *)
Fixpoint validUtf8 (bytes : list N) : bool :=
  match bytes with
  | [] => true
  | b :: r =>
      if (b <? 128)%N then validUtf8 r
      else if ((194 <=? b) && (b <=? 223))%N then
        match r with
        | c1 :: r1 => isContinuation c1 && validUtf8 r1
        | _ => false
        end
      else if ((224 <=? b) && (b <=? 239))%N then
        match r with
        | c1 :: c2 :: r2 =>
            (if (b =? 224)%N then ((160 <=? c1) && (c1 <=? 191))%N
             else if (b =? 237)%N then ((128 <=? c1) && (c1 <=? 159))%N
             else isContinuation c1)
            && isContinuation c2 && validUtf8 r2
        | _ => false
        end
      else if ((240 <=? b) && (b <=? 244))%N then
        match r with
        | c1 :: c2 :: c3 :: r3 =>
            (if (b =? 240)%N then ((144 <=? c1) && (c1 <=? 191))%N
             else if (b =? 244)%N then ((128 <=? c1) && (c1 <=? 143))%N
             else isContinuation c1)
            && isContinuation c2 && isContinuation c3 && validUtf8 r3
        | _ => false
        end
      else false
  end.

(** The bytes that a run of escapes stands for, when every escape is
    hexadecimal. *)
Fixpoint escapedBytes (run : list (ascii * ascii)) : option (list N) :=
  match run with
  | [] => Some []
  | (h, l) :: rest =>
      match hexValue h, hexValue l, escapedBytes rest with
      | Some a, Some b, Some bytes => Some ((16 * a + b)%N :: bytes)
      | _, _, _ => None
      end
  end.

(** [decodeURIComponentGraceful] on a run of escapes: the run is decoded
    as a whole when [decodeURIComponent] accepts it; otherwise its first
    escape stays as text and the rest is tried again. *)
Fixpoint decodeGraceful (run : list (ascii * ascii)) : string :=
  match run with
  | [] => EmptyString
  | (h, l) :: rest =>
      match escapedBytes run with
      | Some bytes =>
          if validUtf8 bytes then string_of_list_ascii (map ascii_of_N bytes)
          else String "%" (String h (String l (decodeGraceful rest)))
      | None => String "%" (String h (String l (decodeGraceful rest)))
      end
  end.

(** [percentDecode]: every maximal run of escapes (a percent sign and
    two letters or digits) is replaced by its graceful decoding.  [run]
    holds the escapes of the current run, last first. *)
Fixpoint decodeFrom (s : string) (run : list (ascii * ascii)) : string :=
  match s with
  | String "%" (String h (String l rest) as tail) =>
      if isAlphaNumeric h && isAlphaNumeric l then decodeFrom rest ((h, l) :: run)
      else decodeGraceful (rev run) +:+ String "%" (decodeFrom tail [])
  | String c rest => decodeGraceful (rev run) +:+ String c (decodeFrom rest [])
  | EmptyString => decodeGraceful (rev run)
  end.

Definition percentDecode (s : string) : string := decodeFrom s [].

Definition isOneOf (cs : string) (c : ascii) : bool :=
  existsb (Ascii.eqb c) (list_ascii_of_string cs).

(** The capture groups of the URI regular expression of RFC 3986,
    appendix B, as [Uri.parse] uses it: an optional scheme before the
    first colon (when no slash, question mark or hash precedes it), an
    optional authority after a double slash, the path up to the query
    or fragment, the query, and the fragment up to the end of the line. *)
Definition components (value : string)
    : string * string * string * string * string :=
  let '(scheme, rest1) :=
    match JS.span (isOneOf ":/?#") value with
    | (String c s, String ":" rest) => (String c s, rest)
    | _ => ("", value)
    end in
  let '(authority, rest2) :=
    match rest1 with
    | String "/" (String "/" r) => JS.span (isOneOf "/?#") r
    | _ => ("", rest1)
    end in
  let '(path, rest3) := JS.span (isOneOf "?#") rest2 in
  let '(query, rest4) :=
    match rest3 with
    | String "?" r => JS.span (isOneOf "#") r
    | _ => ("", rest3)
    end in
  let fragment :=
    match rest4 with
    | String "#" r =>
        fst (JS.span (fun c => Ascii.eqb c "010" || Ascii.eqb c "013") r)
    | _ => ""
    end in
  (scheme, authority, path, query, fragment).

(** [Uri.parse(value, _strict)]. *)
Definition parse (value : string) (strict : bool) : Result t :=
  let '(scheme, authority, path, query, fragment) := components value in
  new strict scheme (percentDecode authority) (percentDecode path)
    (percentDecode query) (percentDecode fragment).

(** [Uri.file(path)] on a POSIX host (no backslash rewriting). *)
Definition file (p : string) : Result t :=
  match p with
  | String "/" (String "/" r) =>
      let '(authority, rest) := JS.span (isOneOf "/") r in
      new false "file" authority (if rest =? "" then "/" else rest) "" ""
  | _ => new false "file" "" p "" ""
  end.

Definition isLetter (c : ascii) : bool :=
  let n := JS.code c in
  (((65 <=? n) && (n <=? 90)) || ((97 <=? n) && (n <=? 122)))%N.

(** [uri.fsPath] on a POSIX host. *)
Definition fsPath (u : t) : string :=
  if negb (authority u =? "") && (1 <? String.length (path u))%nat
     && (scheme u =? "file") then
    "//" +:+ authority u +:+ path u
  else
    match path u with
    | String "/" (String d (String ":" rest)) =>
        if isLetter d then String (JS.lowerChar d) (String ":" rest)
        else path u
    | _ => path u
    end.

(** [uri.with({ path })]. *)
Definition with_path (u : t) (p : string) : Result t :=
  new false (scheme u) (authority u) p (query u) (fragment u).

End Uri.

Module Utils.

(** [Utils.joinPath(uri, name)] of [vscode-uri]. *)
Definition joinPath (u : Uri.t) (name : string) : Result Uri.t :=
  Uri.with_path u (path.join [Uri.path u; name]).

End Utils.


Global Instance Uri_eq_dec : EqDecision Uri.t.
Proof. solve_decision. Defined.

Global Instance Uri_countable : Countable Uri.t.
Proof.
  refine (inj_countable'
    (fun u => (Uri.scheme u, Uri.authority u, Uri.path u, Uri.query u, Uri.fragment u))
    (fun '(s, a, p, q, f) => Uri.make s a p q f) _).
  by intros [].
Defined.

(** ** Collaborators of the module *)

Module WorkspaceFolder.
Record t : Type := make { name : string; uri : Uri.t }.
End WorkspaceFolder.

Module ExtensionContext.
(** [workspaceState] is mutable and lives in [State]. *)
Record t : Type := make { extensionPath : string; globalStorageUri : Uri.t }.
End ExtensionContext.

Module AzureSession.
(** [credentials2] is opaque: the session itself is handed to the
    oracles [listOrganizations] and [getToken]. *)
Record t : Type := make { userId : string; tenantId : string }.
End AzureSession.

Module Organization.
Record t : Type := make { accountName : string }.
End Organization.

Module Git.
Record Remote : Type := { name : string; fetchUrl : option string }.
Record UpstreamRef : Type := { remote : string }.
Record Branch : Type := { upstream : option UpstreamRef }.
Record RepositoryState : Type := { HEAD : option Branch; remotes : list Remote }.
(** [status] is the outcome of [repo.status()], [state] is [repo.state]
    once the status has been refreshed. *)
Record Repository : Type := { status : Result unit; state : RepositoryState }.
End Git.

(** An entry of the [azurePipelinesDetails] object kept in
    [context.workspaceState]. *)
Record Details : Type := { organization : string; tenant : string }.

Global Instance AzureSession_eq_dec : EqDecision AzureSession.t.
Proof. solve_decision. Defined.

Global Instance Details_eq_dec : EqDecision Details.
Proof. solve_decision. Defined.

(** [QuickPickItemWithData<AzureSession>]. *)
Record QuickPickItemWithData : Type := { label : string; data : AzureSession.t }.

(** The texts of [./messages], with the argument [format] fills in. *)
Module Messages.
Inductive Label : Type := signInLabel | selectOrganizationLabel.
Inductive t : Type :=
| signInForEnhancedIntelliSense
| waitForAzureSignIn
| selectOrganizationForEnhancedIntelliSense (folder : string)
| selectOrganizationPlaceholder (folder : string)
| unableToAccessOrganization (organizationName : string).
End Messages.

Global Instance Label_eq_dec : EqDecision Messages.Label.
Proof. solve_decision. Defined.

(** ** Observable events, in program order *)

Inductive Event : Type :=
| Log (message : string)
| ShowInformationMessage (message : Messages.t) (item : Messages.Label)
| ShowErrorMessage (message : Messages.t)
| ShowQuickPick (placeHolder : Messages.t)
| ExecuteCommand (command : string)
| ListOrganizations (session : AzureSession.t)
| GetToken (session : AzureSession.t)
| GetTaskAgentApi (organizationName : string)
| GetYamlSchema (organizationName : string)
| CreateDirectory (uri : Uri.t)
| WriteFile (uri : Uri.t) (content : string)
| UpdateWorkspaceState (key : string)
| FireSelectOrganization (workspaceFolder : WorkspaceFolder.t).

(** The calls that leave the machine. *)
Definition isNetworkCall (e : Event) : bool :=
  match e with
  | ListOrganizations _ | GetToken _ | GetTaskAgentApi _ | GetYamlSchema _ => true
  | _ => false
  end.

(** Token retrieval, the two calls of the schema request, and the write. *)
Definition isSchemaFetch (e : Event) : bool :=
  match e with
  | GetToken _ | GetTaskAgentApi _ | GetYamlSchema _ | WriteFile _ _ => true
  | _ => false
  end.

Definition isListOrganizations (e : Event) : bool :=
  match e with ListOrganizations _ => true | _ => false end.

Definition isPrompt (e : Event) : bool :=
  match e with
  | ShowInformationMessage _ _ | ShowQuickPick _ => true
  | _ => false
  end.

Definition isErrorMessage (e : Event) : bool :=
  match e with ShowErrorMessage _ => true | _ => false end.

Definition isFire (e : Event) : bool :=
  match e with FireSelectOrganization _ => true | _ => false end.

Definition count (f : Event -> bool) (events : list Event) : nat :=
  length (List.filter f events).

(** ** The world outside the module

    One [Env] fixes what every collaborator answers during one
    resolution (or one run of a detached prompt): configuration, the
    account and Git extensions, the Azure DevOps clients, the file
    system and the user. *)

Record Env : Type := {
  (** [getConfiguration('azure-pipelines').get('customSchemaFile', '')] *)
  customSchemaFile : string;
  getAzureAccountExtensionApi : Result unit;
  waitForSubscriptions : Result bool;
  (** [azureAccountApi.sessions] *)
  sessions : list AzureSession.t;
  getGitExtensionApi : Result unit;
  openRepository : Uri.t -> Result (option Git.Repository);
  (** [AzureDevOpsHelper], whose source is not part of this module. *)
  isAzureReposUrl : string -> bool;
  getRepositoryDetailsFromRemoteUrl : string -> Result string;
  (** [new OrganizationsClient(session.credentials2).listOrganizations()] *)
  listOrganizations : AzureSession.t -> Result (list Organization.t);
  (** [session.credentials2.getToken()], giving [token.accessToken] *)
  getToken : AzureSession.t -> Result string;
  (** [azureDevOpsClient.getTaskAgentApi()] for an organization and a token *)
  getTaskAgentApi : string -> string -> Result unit;
  (** [JSON.stringify(await taskAgentApi.getYamlSchema())] *)
  getYamlSchema : string -> string -> Result string;
  createDirectory : Uri.t -> Result unit;
  writeFile : Uri.t -> string -> Result unit;
  (** whether [context.workspaceState.update] resolves *)
  updateWorkspaceState : Result unit;
  (** what the user clicks on an information message ([None]: dismissed) *)
  informationMessageAction : option Messages.Label;
  (** the index of the entry picked in the quick pick ([None]: cancelled) *)
  quickPickChoice : option nat;
  executeCommand : string -> Result unit
}.

(** ** The state of the extension host *)

(** A promise chain that was started and not awaited. *)
Inductive Task : Type :=
| SignInPrompt
| SelectOrganizationPrompt
    (workspaceFolder : WorkspaceFolder.t)
    (azurePipelinesDetails : option (gmap string Details)).

Record State : Type := {
  (** the module-level [seenOrganizations] set *)
  seenOrganizations : gset string;
  (** [context.workspaceState], key ['azurePipelinesDetails'] *)
  azurePipelinesDetails : option (gmap string Details);
  (** the documents under durable storage *)
  files : gmap Uri.t string;
  (** the prompts that are still open *)
  detached : list Task
}.

Definition initialState : State :=
  {| seenOrganizations := ∅; azurePipelinesDetails := None;
     files := ∅; detached := [] |}.

(** ** The monad of asynchronous computations *)

Definition M (A : Type) : Type := State -> Result A * State * list Event.

Definition ret {A} (a : A) : M A := fun s => (Ok a, s, []).

Definition bind {A B} (m : M A) (k : A -> M B) : M B :=
  fun s =>
    match m s with
    | (Ok a, s1, ev1) => let '(r, s2, ev2) := k a s1 in (r, s2, ev1 ++ ev2)
    | (Throw e, s1, ev1) => (Throw e, s1, ev1)
    end.

Notation "'let*' x ':=' m 'in' k" := (bind m (fun x => k))
  (at level 10, x pattern, m at level 100, k at level 200,
   format "'[v' 'let*'  x  ':='  m  'in' '/' k ']'").

Definition lift {A} (r : Result A) : M A := fun s => (r, s, []).

Definition emit (e : Event) : M unit := fun s => (Ok tt, s, [e]).

(** A call of a collaborator: the event, then its outcome. *)
Definition call {A} (e : Event) (r : Result A) : M A :=
  let* _ := emit e in lift r.

Definition gets {A} (f : State -> A) : M A := fun s => (Ok (f s), s, []).

Definition modify (f : State -> State) : M unit := fun s => (Ok tt, f s, []).

(** [try { m } catch (error) { handler error }]. *)
Definition tryCatch {A} (m : M A) (handler : Error -> M A) : M A :=
  fun s =>
    match m s with
    | (Ok a, s1, ev1) => (Ok a, s1, ev1)
    | (Throw e, s1, ev1) =>
        let '(r, s2, ev2) := handler e s1 in (r, s2, ev1 ++ ev2)
    end.

Definition result {A} (o : Result A * State * list Event) : Result A := o.1.1.
Definition final {A} (o : Result A * State * list Event) : State := o.1.2.
Definition events {A} (o : Result A * State * list Event) : list Event := o.2.

(** [logger.log(message, 'SchemaDetection')]. *)
Definition log (message : string) : M unit := emit (Log message).

(** [o.field] where [o] may be [undefined]. *)
Definition property {A B} (field : string) (f : A -> B) (o : option A) : Result B :=
  match o with
  | Some a => Ok (f a)
  | None =>
      Throw (TypeError
        ("Cannot read properties of undefined (reading '" +:+ field +:+ "')"))
  end.

(** Starting a promise chain without awaiting it. *)
Definition spawn (t : Task) : M unit :=
  modify (fun s =>
    {| seenOrganizations := seenOrganizations s;
       azurePipelinesDetails := azurePipelinesDetails s;
       files := files s;
       detached := detached s ++ [t] |}).

(** ** [schema-association-service.ts] *)

(** The three writes to the state: [seenOrganizations.add],
    [workspaceState.update] and [fs.writeFile]. *)
Definition setSeenOrganizations (f : gset string -> gset string) (s : State) : State :=
  {| seenOrganizations := f (seenOrganizations s);
     azurePipelinesDetails := azurePipelinesDetails s;
     files := files s;
     detached := detached s |}.

Definition setAzurePipelinesDetails (v : gmap string Details) (s : State) : State :=
  {| seenOrganizations := seenOrganizations s;
     azurePipelinesDetails := Some v;
     files := files s;
     detached := detached s |}.

Definition setFile (u : Uri.t) (content : string) (s : State) : State :=
  {| seenOrganizations := seenOrganizations s;
     azurePipelinesDetails := azurePipelinesDetails s;
     files := <[u := content]> (files s);
     detached := detached s |}.

(** [getSchemaAssociation]: the universal pattern, one location. *)
Definition getSchemaAssociation (schemaFilePath : string) : list (string * list string) :=
  [("*", [schemaFilePath])].

(** Lines 123 to 144 of [autoDetectSchema]: the fetch URL of the remote
    that the checked-out branch tracks, if any. *)
Definition getRemoteUrl (env : Env) (workspaceFolder : WorkspaceFolder.t)
    : M (option string) :=
  tryCatch
    (let* _ := lift (getGitExtensionApi env) in
     let* repo := lift (openRepository env (WorkspaceFolder.uri workspaceFolder)) in
     match repo with
     | Some repo =>
         let* _ := lift (Git.status repo) in
         match Git.HEAD (Git.state repo) ≫= Git.upstream with
         | Some upstream =>
             let remoteName := Git.remote upstream in
             let remoteUrl :=
               List.find (fun remote => Git.name remote =? remoteName)
                 (Git.remotes (Git.state repo)) ≫= Git.fetchUrl in
             let* _ := log ("Found remote URL for "
                            +:+ WorkspaceFolder.name workspaceFolder
                            +:+ ": " +:+ JS.show remoteUrl) in
             ret remoteUrl
         | None => ret None
         end
     | None => ret None
     end)
    (fun error =>
       let* _ := log (WorkspaceFolder.name workspaceFolder
                      +:+ " has no remote URLs: " +:+ Error_toString error) in
       ret None).

(** Lines 153 to 160: the first session whose organizations contain
    [organizationName]. *)
Fixpoint findSession (env : Env) (organizationName : string)
    (sessions : list AzureSession.t) : M (option AzureSession.t) :=
  match sessions with
  | [] => ret None
  | azureSession :: rest =>
      let* organizations :=
        call (ListOrganizations azureSession) (listOrganizations env azureSession) in
      match List.find
              (fun org => JS.toLowerCase (Organization.accountName org)
                          =? JS.toLowerCase organizationName)
              organizations with
      | Some _ => ret (Some azureSession)
      | None => findSession env organizationName rest
      end
  end.

(** The test [remoteUrl !== undefined && isAzureReposUrl(remoteUrl)]:
    the URL when the test succeeds. *)
Definition azureReposUrl (env : Env) (remoteUrl : option string) : option string :=
  match remoteUrl with
  | Some url => if isAzureReposUrl env url then Some url else None
  | None => None
  end.

(** The names that every plain object answers to without holding them:
    the properties of [Object.prototype]. *)
Definition objectPrototype : list string :=
  [ "constructor"; "hasOwnProperty"; "isPrototypeOf"; "propertyIsEnumerable";
    "toLocaleString"; "toString"; "valueOf"; "__defineGetter__";
    "__defineSetter__"; "__lookupGetter__"; "__lookupSetter__"; "__proto__" ].

(** [azurePipelinesDetails?.[name]] is defined although the stored
    object holds no entry of its own under [name]: the stored object
    exists and the name is one that it inherits. *)
Definition inheritedProperty (azurePipelinesDetails : option (gmap string Details))
    (name : string) : bool :=
  match azurePipelinesDetails with
  | Some _ => existsb (String.eqb name) objectPrototype
  | None => false
  end.

(** Lines 146 to 234: the organization and the session to use.  [None]
    is the early [return undefined] once the prompt has been started.
    An inherited property passes the test of line 167 as an entry does,
    but has neither [organization] nor [tenant]: no session has the
    tenant [undefined], and line 174 reads [tenantId] of no session. *)
Definition determineOrganization (env : Env)
    (workspaceFolder : WorkspaceFolder.t) (remoteUrl : option string)
    : M (option (string * option AzureSession.t)) :=
  match azureReposUrl env remoteUrl with
  | Some url =>
      let* _ := log (WorkspaceFolder.name workspaceFolder +:+ " is an Azure repo") in
      let* organizationName := lift (getRepositoryDetailsFromRemoteUrl env url) in
      let* session := findSession env organizationName (sessions env) in
      ret (Some (organizationName, session))
  | None =>
      let* _ := log (WorkspaceFolder.name workspaceFolder
                     +:+ " has no remote URL or is not an Azure repo") in
      let* azurePipelinesDetails := gets azurePipelinesDetails in
      match azurePipelinesDetails ≫= (fun d => d !! WorkspaceFolder.name workspaceFolder) with
      | Some details =>
          let organizationName := organization details in
          let session :=
            List.find (fun session => AzureSession.tenantId session =? tenant details)
              (sessions env) in
          let* tenantId := lift (property "tenantId" AzureSession.tenantId session) in
          let* _ := log ("Using cached information for "
                         +:+ WorkspaceFolder.name workspaceFolder +:+ ": "
                         +:+ organizationName +:+ ", " +:+ tenantId) in
          ret (Some (organizationName, session))
      | None =>
          if inheritedProperty azurePipelinesDetails (WorkspaceFolder.name workspaceFolder)
          then
            let session : option AzureSession.t := None in
            let* tenantId := lift (property "tenantId" AzureSession.tenantId session) in
            let* _ := log ("Using cached information for "
                           +:+ WorkspaceFolder.name workspaceFolder +:+ ": "
                           +:+ "undefined" +:+ ", " +:+ tenantId) in
            ret (Some ("undefined", session))
          else
          let* _ := log ("Prompting for organization for "
                         +:+ WorkspaceFolder.name workspaceFolder) in
          let* _ := emit (ShowInformationMessage
                            (Messages.selectOrganizationForEnhancedIntelliSense
                               (WorkspaceFolder.name workspaceFolder))
                            Messages.selectOrganizationLabel) in
          let* _ := spawn (SelectOrganizationPrompt workspaceFolder azurePipelinesDetails) in
          ret None
      end
  end.

(** The deterministic location of the schema of an organization. *)
Definition schemaLocation (context : ExtensionContext.t) (organizationName : string)
    : Result Uri.t :=
  Utils.joinPath (ExtensionContext.globalStorageUri context)
    (organizationName +:+ "-schema.json").

(** Lines 236 to 270: the schema of [organizationName], fetched with
    [session] unless the organization was seen before. *)
Definition fetchSchema (env : Env) (context : ExtensionContext.t)
    (workspaceFolder : WorkspaceFolder.t)
    (organizationName : string) (session : option AzureSession.t)
    : M (option Uri.t) :=
  match session with
  | None =>
      let* _ := log ("No organization found for "
                     +:+ WorkspaceFolder.name workspaceFolder) in
      let* _ := emit (ShowErrorMessage
                        (Messages.unableToAccessOrganization organizationName)) in
      ret None
  | Some session =>
      let* _ := call (CreateDirectory (ExtensionContext.globalStorageUri context))
                  (createDirectory env (ExtensionContext.globalStorageUri context)) in
      let* schemaUri := lift (schemaLocation context organizationName) in
      let* seen := gets seenOrganizations in
      if bool_decide (organizationName ∈ seen) then
        let* _ := log ("Returning cached schema for "
                       +:+ WorkspaceFolder.name workspaceFolder) in
        ret (Some schemaUri)
      else
        let* _ := log ("Retrieving schema for "
                       +:+ WorkspaceFolder.name workspaceFolder) in
        let* token := call (GetToken session) (getToken env session) in
        let* _ := call (GetTaskAgentApi organizationName)
                    (getTaskAgentApi env organizationName token) in
        let* schema := call (GetYamlSchema organizationName)
                         (getYamlSchema env organizationName token) in
        let* _ := call (WriteFile schemaUri schema) (writeFile env schemaUri schema) in
        let* _ := modify (setFile schemaUri schema) in
        let* _ := modify (setSeenOrganizations (fun seen => {[organizationName]} ∪ seen)) in
        ret (Some schemaUri)
  end.

Definition autoDetectSchema (env : Env) (context : ExtensionContext.t)
    (workspaceFolder : WorkspaceFolder.t) : M (option Uri.t) :=
  let* _ := lift (getAzureAccountExtensionApi env) in
  let* loggedIn := lift (waitForSubscriptions env) in
  if negb loggedIn then
    let* _ := log "Waiting for login" in
    let* _ := emit (ShowInformationMessage Messages.signInForEnhancedIntelliSense
                      Messages.signInLabel) in
    let* _ := spawn SignInPrompt in
    ret None
  else
    let* remoteUrl := getRemoteUrl env workspaceFolder in
    let* found := determineOrganization env workspaceFolder remoteUrl in
    match found with
    | Some (organizationName, session) =>
        fetchSchema env context workspaceFolder organizationName session
    | None => ret None
    end.

(** Lines 53 to 67 of [locateSchemaFile]: the URI of the static schema. *)
Definition alternateSchemaUri (env : Env) (context : ExtensionContext.t)
    (workspaceFolder : option WorkspaceFolder.t) : Result Uri.t :=
  let alternateSchema := customSchemaFile env in
  let alternateSchema :=
    if (String.length (JS.trim alternateSchema) =? 0)%nat then
      path.join [ExtensionContext.extensionPath context; "service-schema.json"]
    else alternateSchema in
  if JS.startsWith (JS.toLowerCase alternateSchema) "http://"
     || JS.startsWith (JS.toLowerCase alternateSchema) "https://" then
    Uri.parse alternateSchema true
  else if path.isAbsolute alternateSchema then
    Uri.file alternateSchema
  else
    match workspaceFolder with
    | Some workspaceFolder =>
        Uri.file (path.join [Uri.fsPath (WorkspaceFolder.uri workspaceFolder);
                             alternateSchema])
    | None =>
        Uri.file (path.join [ExtensionContext.extensionPath context;
                             "service-schema.json"])
    end.

(** Lines 32 to 51: the detected location, or [None] when detection was
    skipped, gave nothing, or threw. *)
Definition detectSchema (env : Env) (context : ExtensionContext.t)
    (workspaceFolder : option WorkspaceFolder.t) : M (option string) :=
  match workspaceFolder with
  | Some workspaceFolder =>
      tryCatch
        (let* _ := log ("Detecting schema for workspace folder "
                        +:+ WorkspaceFolder.name workspaceFolder) in
         let* schemaUri := autoDetectSchema env context workspaceFolder in
         match schemaUri with
         | Some schemaUri =>
             let* _ := log ("Detected schema for workspace folder "
                            +:+ WorkspaceFolder.name workspaceFolder +:+ ": "
                            +:+ Uri.path schemaUri) in
             ret (Some (Uri.path schemaUri))
         | None => ret None
         end)
        (fun error =>
           let* _ := log ("Error auto-detecting schema for workspace folder "
                          +:+ WorkspaceFolder.name workspaceFolder +:+ ": "
                          +:+ Error_toString error) in
           ret None)
  | None => ret None
  end.

Definition locateSchemaFile (env : Env) (context : ExtensionContext.t)
    (workspaceFolder : option WorkspaceFolder.t) : M string :=
  let* detected := detectSchema env context workspaceFolder in
  match detected with
  | Some schemaPath => ret schemaPath
  | None =>
      let* schemaUri := lift (alternateSchemaUri env context workspaceFolder) in
      let* name := lift (property "name" WorkspaceFolder.name workspaceFolder) in
      let* _ := log ("Using hardcoded schema for workspace folder " +:+ name
                     +:+ ": " +:+ Uri.path schemaUri) in
      ret (Uri.path schemaUri)
  end.

(** ** The detached prompts *)

(** Lines 194 to 205: one quick-pick entry per organization of every
    session. *)
Fixpoint organizationAndSessions (env : Env) (sessions : list AzureSession.t)
    : M (list QuickPickItemWithData) :=
  match sessions with
  | [] => ret []
  | azureSession :: rest =>
      let* organizations :=
        call (ListOrganizations azureSession) (listOrganizations env azureSession) in
      let* more := organizationAndSessions env rest in
      ret (map (fun organization =>
                  {| label := Organization.accountName organization;
                     data := azureSession |}) organizations ++ more)
  end.

(** [showQuickPick] over a list that is still being built: the user
    picks one of the entries or cancels.  When building the list threw,
    the list never arrives and nothing can be picked.  (The quick pick
    is on screen while the list is built; the events of the queries are
    recorded before it.) *)
Definition showQuickPick (env : Env) (placeHolder : Messages.t)
    (items : option (list QuickPickItemWithData))
    : M (option QuickPickItemWithData) :=
  let* _ := emit (ShowQuickPick placeHolder) in
  ret (match items, quickPickChoice env with
       | Some items, Some i => items !! i
       | _, _ => None
       end).

(** Lines 187 to 231: the continuation of the organization prompt.
    [azurePipelinesDetails] is the value read when the prompt was started. *)
Definition selectOrganization (env : Env) (workspaceFolder : WorkspaceFolder.t)
    (azurePipelinesDetails : option (gmap string Details)) : M unit :=
  match informationMessageAction env with
  | Some Messages.selectOrganizationLabel =>
      let* items :=
        tryCatch
          (let* items := organizationAndSessions env (sessions env) in ret (Some items))
          (fun _ => ret None) in
      let* selectedOrganizationAndSession :=
        showQuickPick env
          (Messages.selectOrganizationPlaceholder (WorkspaceFolder.name workspaceFolder))
          items in
      match selectedOrganizationAndSession with
      | None => ret tt
      | Some selected =>
          let organizationName := label selected in
          let session := data selected in
          let* _ := call (UpdateWorkspaceState "azurePipelinesDetails")
                      (updateWorkspaceState env) in
          let* _ := modify (setAzurePipelinesDetails
                      (<[WorkspaceFolder.name workspaceFolder :=
                           {| organization := organizationName;
                              tenant := AzureSession.tenantId session |}]>
                         (default ∅ azurePipelinesDetails))) in
          emit (FireSelectOrganization workspaceFolder)
      end
  | _ => ret tt
  end.

(** Lines 109 to 118: the continuation of the sign-in prompt. *)
Definition signIn (env : Env) : M unit :=
  match informationMessageAction env with
  | Some Messages.signInLabel =>
      call (ExecuteCommand "azure-account.login")
        (executeCommand env "azure-account.login")
  | _ => ret tt
  end.

Definition runTask (env : Env) (task : Task) : M unit :=
  match task with
  | SignInPrompt => signIn env
  | SelectOrganizationPrompt workspaceFolder azurePipelinesDetails =>
      selectOrganization env workspaceFolder azurePipelinesDetails
  end.

(** ** The process: resolutions and answered prompts, in any order *)

Definition removeTask (i : nat) (s : State) : State :=
  {| seenOrganizations := seenOrganizations s;
     azurePipelinesDetails := azurePipelinesDetails s;
     files := files s;
     detached := delete i (detached s) |}.

(** The user answers the [i]-th open prompt; a rejection of the detached
    chain is not observed by anyone. *)
Definition respond (env : Env) (i : nat) (s : State) : Result unit * State * list Event :=
  match detached s !! i with
  | Some task => runTask env task (removeTask i s)
  | None => (Ok tt, s, [])
  end.

Inductive step (context : ExtensionContext.t) : State -> State -> Prop :=
| step_resolve env workspaceFolder s :
    step context s (final (locateSchemaFile env context workspaceFolder s))
| step_respond env i s :
    step context s (final (respond env i s)).

(** ** Sample worlds *)

Module Sample.

Definition context : ExtensionContext.t :=
  ExtensionContext.make "/ext" (Uri.make "file" "" "/storage" "" "").

Definition folder (name : string) : WorkspaceFolder.t :=
  WorkspaceFolder.make name (Uri.make "file" "" ("/work/" +:+ name) "" "").

Definition alice : AzureSession.t := AzureSession.make "alice" "tenant-1".
Definition bob : AzureSession.t := AzureSession.make "bob" "tenant-2".

(** Modelled from the spec: [AzureDevOpsHelper] is not among the
    sources; section 4.2 only asks that a remote URL of the recognized
    organization-hosting shape yields the identity deterministically.
    This instance recognizes [https://dev.azure.com/<organization>/...]. *)
Definition isDevAzureUrl (url : string) : bool :=
  JS.startsWith url "https://dev.azure.com/".

(** Modelled from the spec: the organization is the first segment
    after the host of such a URL. *)
Definition organizationOfDevAzureUrl (url : string) : Result string :=
  match JS.split "/" url !! 3%nat with
  | Some organizationName => Ok organizationName
  | None => Throw (Failure "Failed to determine Azure Repo details from remote url.")
  end.

Definition repository (fetchUrl : string) : Git.Repository :=
  {| Git.status := Ok tt;
     Git.state :=
       {| Git.HEAD := Some {| Git.upstream := Some {| Git.remote := "origin" |} |};
          Git.remotes := [ {| Git.name := "origin"; Git.fetchUrl := Some fetchUrl |} ] |} |}.

(** A world where every collaborator answers: the user is signed in
    with [sessions], [alice] sees the organization Contoso and [bob]
    sees Fabrikam. *)
Definition env (customSchemaFile : string) (sessions : list AzureSession.t)
    (remote : option string)
    (action : option Messages.Label) (choice : option nat) : Env :=
  {| customSchemaFile := customSchemaFile;
     getAzureAccountExtensionApi := Ok tt;
     waitForSubscriptions := Ok true;
     sessions := sessions;
     getGitExtensionApi := Ok tt;
     openRepository := fun _ => Ok (repository <$> remote);
     isAzureReposUrl := isDevAzureUrl;
     getRepositoryDetailsFromRemoteUrl := organizationOfDevAzureUrl;
     listOrganizations := fun session =>
       Ok (if AzureSession.userId session =? "alice"
           then [Organization.make "Contoso"]
           else [Organization.make "Fabrikam"]);
     getToken := fun session => Ok ("token-of-" +:+ AzureSession.userId session);
     getTaskAgentApi := fun _ _ => Ok tt;
     getYamlSchema := fun organizationName _ => Ok ("{schema of " +:+ organizationName +:+ "}");
     createDirectory := fun _ => Ok tt;
     writeFile := fun _ _ => Ok tt;
     updateWorkspaceState := Ok tt;
     informationMessageAction := action;
     quickPickChoice := choice;
     executeCommand := fun _ => Ok tt |}.

(** The same world, except that no token can be obtained. *)
Definition withoutToken (e : Env) : Env :=
  {| customSchemaFile := customSchemaFile e;
     getAzureAccountExtensionApi := getAzureAccountExtensionApi e;
     waitForSubscriptions := waitForSubscriptions e;
     sessions := sessions e;
     getGitExtensionApi := getGitExtensionApi e;
     openRepository := openRepository e;
     isAzureReposUrl := isAzureReposUrl e;
     getRepositoryDetailsFromRemoteUrl := getRepositoryDetailsFromRemoteUrl e;
     listOrganizations := listOrganizations e;
     getToken := fun _ => Throw (Failure "Unable to acquire a token");
     getTaskAgentApi := getTaskAgentApi e;
     getYamlSchema := getYamlSchema e;
     createDirectory := createDirectory e;
     writeFile := writeFile e;
     updateWorkspaceState := updateWorkspaceState e;
     informationMessageAction := informationMessageAction e;
     quickPickChoice := quickPickChoice e;
     executeCommand := executeCommand e |}.

End Sample.


(** * Vocabulary of the properties *)

(** ** The static fallback (section 4.1) *)

(** [value.trim().length === 0]. *)
Definition isBlank (value : string) : bool :=
  (String.length (JS.trim value) =? 0)%nat.

(** The test of line 59: an [http://] or [https://] prefix, in any case. *)
Definition isHttpUrl (value : string) : bool :=
  JS.startsWith (JS.toLowerCase value) "http://"
  || JS.startsWith (JS.toLowerCase value) "https://".

(** The installation-bundled default location. *)
Definition bundledSchemaPath (context : ExtensionContext.t) : string :=
  path.join [ExtensionContext.extensionPath context; "service-schema.json"].

(** The fallback resolution order in the words of section 4.1: a
    relative value is resolved against the workspace root, or against
    the installation root if there is no workspace. *)
Definition spec_staticFallback (env : Env) (context : ExtensionContext.t)
    (workspaceFolder : option WorkspaceFolder.t) : Result Uri.t :=
  let configured := customSchemaFile env in
  if isBlank configured then Uri.file (bundledSchemaPath context)
  else if isHttpUrl configured then Uri.parse configured true
  else if path.isAbsolute configured then Uri.file configured
  else
    match workspaceFolder with
    | Some workspaceFolder =>
        Uri.file (path.join [Uri.fsPath (WorkspaceFolder.uri workspaceFolder); configured])
    | None =>
        Uri.file (path.join [ExtensionContext.extensionPath context; configured])
    end.

(** Lines 53 to 76 for a given folder: the path of the static URI and
    the log line that announces it. *)
Definition staticFallback (env : Env) (context : ExtensionContext.t)
    (workspaceFolder : WorkspaceFolder.t) : Result string * list Event :=
  match alternateSchemaUri env context (Some workspaceFolder) with
  | Ok schemaUri =>
      (Ok (Uri.path schemaUri),
       [Log ("Using hardcoded schema for workspace folder "
             +:+ WorkspaceFolder.name workspaceFolder +:+ ": "
             +:+ Uri.path schemaUri)])
  | Throw e => (Throw e, [])
  end.

(** ** The session matcher (section 4.3) *)

(** Two names of the same length whose characters agree up to the case
    of the letters. *)
Fixpoint equalIgnoringCase (a b : string) : bool :=
  match a, b with
  | EmptyString, EmptyString => true
  | String c a', String d b' =>
      Ascii.eqb (JS.lowerChar c) (JS.lowerChar d) && equalIgnoringCase a' b'
  | _, _ => false
  end.

(** The organization list contains the identity, names compared without
    regard to letter case. *)
Definition hasOrganization (organizationName : string)
    (organizations : list Organization.t) : bool :=
  existsb (fun org => equalIgnoringCase (Organization.accountName org) organizationName)
    organizations.

(** The query of [session] answers with a list that contains the identity. *)
Definition grants (env : Env) (organizationName : string)
    (session : AzureSession.t) : Prop :=
  exists organizations,
    listOrganizations env session = Ok organizations
    /\ hasOrganization organizationName organizations = true.

(** The query of [session] answers with a list that lacks the identity. *)
Definition lacks (env : Env) (organizationName : string)
    (session : AzureSession.t) : Prop :=
  exists organizations,
    listOrganizations env session = Ok organizations
    /\ hasOrganization organizationName organizations = false.

(** ** Computations *)

(** [m] never changes the part [f] of the state. *)
Definition keeps {A B} (f : State -> B) (m : M A) : Prop :=
  forall s, f (final (m s)) = f s.

(** Every event of [m] satisfies [P]. *)
Definition emits {A} (P : Event -> Prop) (m : M A) : Prop :=
  forall s, Forall P (events (m s)).

(** The event is a log line. *)
Definition isLog (e : Event) : Prop := exists m, e = Log m.

(** ** Resolutions and the session cache (sections 4.2 and 4.5) *)

(** The resolution is signed in, finds [remoteUrl], and the identity
    resolver names [organizationName] and (maybe) a session. *)
Definition resolvesTo (env : Env) (workspaceFolder : WorkspaceFolder.t) (s : State)
    (remoteUrl : option string) (organizationName : string)
    (session : option AzureSession.t) : Prop :=
  getAzureAccountExtensionApi env = Ok tt
  /\ waitForSubscriptions env = Ok true
  /\ result (getRemoteUrl env workspaceFolder s) = Ok remoteUrl
  /\ result (determineOrganization env workspaceFolder remoteUrl s)
     = Ok (Some (organizationName, session)).

(** The conditions under which a cache miss ends well. *)
Definition fetchSucceeds (env : Env) (context : ExtensionContext.t)
    (organizationName : string) (session : AzureSession.t)
    (u : Uri.t) (token schema : string) : Prop :=
  createDirectory env (ExtensionContext.globalStorageUri context) = Ok tt
  /\ schemaLocation context organizationName = Ok u
  /\ getToken env session = Ok token
  /\ getTaskAgentApi env organizationName token = Ok tt
  /\ getYamlSchema env organizationName token = Ok schema
  /\ writeFile env u schema = Ok tt.

(** The state after a successful fetch: the document is on disk and the
    organization is in the session cache. *)
Definition fetched (organizationName : string) (u : Uri.t) (schema : string)
    (s : State) : State :=
  setSeenOrganizations (fun seen => {[organizationName]} ∪ seen) (setFile u schema s).

(** What a resolution may do to the session cache: nothing, or add one
    organization whose schema it has just written to the deterministic
    location. *)
Definition cacheStep (env : Env) (context : ExtensionContext.t)
    (s s' : State) (evs : list Event) : Prop :=
  seenOrganizations s' = seenOrganizations s
  \/ exists organizationName u schema,
       (organizationName ∉ seenOrganizations s)
       /\ seenOrganizations s' = {[organizationName]} ∪ seenOrganizations s
       /\ schemaLocation context organizationName = Ok u
       /\ writeFile env u schema = Ok tt
       /\ files s' !! u = Some schema
       /\ WriteFile u schema ∈ evs.

(** ** The interactive disambiguator (section 4.4) *)

(** The user accepts the prompt, picks [selected] among the entries
    offered, and the workspace state can be written. *)
Definition persists (env : Env) (s : State) (selected : QuickPickItemWithData) : Prop :=
  informationMessageAction env = Some Messages.selectOrganizationLabel
  /\ updateWorkspaceState env = Ok tt
  /\ exists items i,
       result (organizationAndSessions env (sessions env) s) = Ok items
       /\ quickPickChoice env = Some i
       /\ items !! i = Some selected.

(** The object written by line 221: the value read when the prompt was
    started, with the entry of the folder set to the selection. *)
Definition persisted (workspaceFolder : WorkspaceFolder.t)
    (snapshot : option (gmap string Details))
    (selected : QuickPickItemWithData) : gmap string Details :=
  <[WorkspaceFolder.name workspaceFolder :=
      {| organization := label selected;
         tenant := AzureSession.tenantId (data selected) |}]>
    (default ∅ snapshot).

(** ** URLs and sample states *)

(** No character of [s] is among [cs]. *)
Definition avoids (cs : string) (s : string) : Prop :=
  Uri.allChars (fun c => negb (Uri.isOneOf cs c)) s = true.

(** A workspace whose folder [repo-c] has a persisted choice. *)
Definition revokedState : State :=
  {| seenOrganizations := ∅;
     azurePipelinesDetails :=
       Some {[ "repo-c" := {| organization := "contoso"; tenant := "tenant-revoked" |} ]};
     files := ∅;
     detached := [] |}.

(** ** Further vocabulary *)

(** The event is a message shown to the user. *)
Definition isMessage (e : Event) : bool :=
  match e with
  | ShowInformationMessage _ _ | ShowErrorMessage _ => true
  | _ => false
  end.

(** The events that only the continuation of a prompt may emit. *)
Definition isContinuationEvent (e : Event) : bool :=
  match e with
  | ShowQuickPick _ | UpdateWorkspaceState _ | FireSelectOrganization _
  | ExecuteCommand _ => true
  | _ => false
  end.

(** The state with one more open prompt. *)
Definition withTask (t : Task) (s : State) : State :=
  {| seenOrganizations := seenOrganizations s;
     azurePipelinesDetails := azurePipelinesDetails s;
     files := files s;
     detached := detached s ++ [t] |}.

(** The quick-pick entries of sessions whose queries all answer: the
    organizations of the first session, then those of the second, and
    so on. *)
Definition entries (env : Env) (sessions : list AzureSession.t)
    : list QuickPickItemWithData :=
  flat_map
    (fun session =>
       match listOrganizations env session with
       | Ok organizations =>
           map (fun organization =>
                  {| label := Organization.accountName organization;
                     data := session |}) organizations
       | Throw _ => []
       end)
    sessions.

(** Every organization in the session cache has a document at its
    deterministic location. *)
Definition cacheBacked (context : ExtensionContext.t) (s : State) : Prop :=
  forall organizationName,
    organizationName ∈ seenOrganizations s ->
    exists u schema,
      schemaLocation context organizationName = Ok u
      /\ files s !! u = Some schema.

(** A world like [e] where the sign-in state, the Git extension, the
    organization queries and the workspace state answer as given. *)
Definition override (e : Env)
    (login : Result bool) (git : Result unit)
    (organizations : AzureSession.t -> Result (list Organization.t))
    (update : Result unit) : Env :=
  {| customSchemaFile := customSchemaFile e;
     getAzureAccountExtensionApi := getAzureAccountExtensionApi e;
     waitForSubscriptions := login;
     sessions := sessions e;
     getGitExtensionApi := git;
     openRepository := openRepository e;
     isAzureReposUrl := isAzureReposUrl e;
     getRepositoryDetailsFromRemoteUrl := getRepositoryDetailsFromRemoteUrl e;
     listOrganizations := organizations;
     getToken := getToken e;
     getTaskAgentApi := getTaskAgentApi e;
     getYamlSchema := getYamlSchema e;
     createDirectory := createDirectory e;
     writeFile := writeFile e;
     updateWorkspaceState := update;
     informationMessageAction := informationMessageAction e;
     quickPickChoice := quickPickChoice e;
     executeCommand := executeCommand e |}.

(** A path segment: not empty, no slash. *)
Definition segment_ok (seg : string) : Prop := seg <> "" /\ avoids "/" seg.

(** * Properties *)

(** ** Strings and paths *)

Lemma append_assoc (a b c : string) : (a +:+ b) +:+ c = a +:+ (b +:+ c).
Proof.
  induction a as [|x a IH]; [done|].
  change (String x ((a +:+ b) +:+ c) = String x (a +:+ (b +:+ c))).
  by rewrite IH.
Qed.

Lemma rev_string_app s acc :
  JS.rev_string s acc = JS.rev_string s "" +:+ acc.
Proof.
  revert acc. induction s as [|c s IH]; intros acc; simpl; [done|].
  rewrite (IH (String c acc)), (IH (String c "")).
  by rewrite append_assoc.
Qed.

(** A string that starts with a visible ASCII character is not blank. *)
Lemma trim_not_empty c s :
  (JS.code c <? 128)%N = true ->
  JS.isWhiteSpace c = false ->
  (String.length (JS.trim (String c s)) =? 0)%nat = false.
Proof.
  intros Hascii Hc.
  assert (JS.whiteSpaceLength (String c s) = 0) as Hlen.
  { unfold JS.whiteSpaceLength. rewrite Hc.
    assert ((JS.code c =? 194)%N = false) as H194
      by (apply N.eqb_neq; apply N.ltb_lt in Hascii; lia).
    assert (forall d e, JS.isWideSpace (JS.code c) d e = false) as Hwide.
    { intros d e. unfold JS.isWideSpace.
      assert ((JS.code c =? 225)%N = false) as ->
        by (apply N.eqb_neq; apply N.ltb_lt in Hascii; lia).
      assert ((JS.code c =? 226)%N = false) as ->
        by (apply N.eqb_neq; apply N.ltb_lt in Hascii; lia).
      assert ((JS.code c =? 227)%N = false) as ->
        by (apply N.eqb_neq; apply N.ltb_lt in Hascii; lia).
      assert ((JS.code c =? 239)%N = false) as ->
        by (apply N.eqb_neq; apply N.ltb_lt in Hascii; lia).
      done. }
    destruct s as [|d [|e s]]; rewrite ?H194, ?Hwide; done. }
  assert (JS.trimStart (String c s) = String c s) as Hstart.
  { cbn [JS.trimStart]. by rewrite Hlen. }
  unfold JS.trim. rewrite Hstart. cbn [JS.trimEnd]. by rewrite Hstart.
Qed.

(** [trim] strips the no-break space, the line separator and the byte
    order mark as it strips the ASCII white space; a truncated sequence
    is no white space. *)
Example trim_examples :
  let text (bytes : list N) := string_of_list_ascii (map ascii_of_N bytes) in
  JS.trim (text [194; 160]%N) = ""
  /\ JS.trim (text [32; 226; 128; 168; 239; 187; 191; 9]%N) = ""
  /\ JS.trim (text [194; 160; 97; 32; 98; 226; 128; 137; 10]%N) = "a b"
  /\ JS.trim (text [160]%N) = text [160]%N
  /\ JS.trim (text [97; 226; 128]%N) = text [97; 226; 128]%N.
Proof. vm_compute. repeat split. Qed.

Lemma normalize_absolute p :
  path.isAbsolute p = true -> path.isAbsolute (path.normalize p) = true.
Proof.
  intros Habs. unfold path.normalize.
  destruct p as [|c p]; [done|]. simpl (_ =? _). rewrite Habs.
  cbv zeta. by destruct (_ =? _).
Qed.

Lemma join_absolute root name :
  path.isAbsolute root = true -> name <> "" ->
  path.isAbsolute (path.join [root; name]) = true.
Proof.
  intros Habs Hname. unfold path.join.
  destruct root as [|c root]; [done|].
  destruct name as [|d name]; [done|]. simpl.
  apply normalize_absolute. simpl in *. by destruct c as [[] [] [] [] [] [] [] []].
Qed.

Lemma isAbsolute_starts p :
  path.isAbsolute p = true -> exists q, p = String "/" q.
Proof.
  destruct p as [|c p]; [done|]. simpl.
  destruct c as [[] [] [] [] [] [] [] []]; try done. by exists p.
Qed.

(** ** The static fallback (section 4.1) *)

Lemma absolute_not_http p : path.isAbsolute p = true -> isHttpUrl p = false.
Proof. intros [q ->]%isAbsolute_starts. done. Qed.

Lemma bundledSchemaPath_absolute context :
  path.isAbsolute (ExtensionContext.extensionPath context) = true ->
  path.isAbsolute (bundledSchemaPath context) = true.
Proof. intros H. by apply join_absolute. Qed.

(** Without a workspace folder the entry point goes straight to the
    static URI and then to the log line that names the folder. *)
Lemma locateSchemaFile_undefined env context s :
  locateSchemaFile env context None s
  = (match alternateSchemaUri env context None with
     | Ok _ => Throw (TypeError "Cannot read properties of undefined (reading 'name')")
     | Throw e => Throw e
     end, s, []).
Proof.
  unfold locateSchemaFile, detectSchema, bind, ret, lift; simpl.
  by destruct (alternateSchemaUri env context None) as [u|e].
Qed.

(** C1, which the code does not meet.  When [locateSchemaFile] is
    called with an undefined workspace folder, auto-detection is skipped
    (no event is emitted and the state is untouched), but no
    SchemaLocation is returned: whatever the configuration and the
    extension context, the call throws.  Either the static URI cannot be
    built, or the last log line reads [workspaceFolder.name] on
    [undefined]. *)
Theorem locateSchemaFile_undefined_workspace_throws
    (env : Env) (context : ExtensionContext.t) (s : State) :
  events (locateSchemaFile env context None s) = []
  /\ final (locateSchemaFile env context None s) = s
  /\ exists e, result (locateSchemaFile env context None s) = Throw e.
Proof.
  rewrite locateSchemaFile_undefined.
  split; [done|]. split; [done|].
  destruct (alternateSchemaUri env context None) as [u|e]; simpl; eauto.
Qed.

(** At the default configuration the error is the [TypeError] of the log
    line. *)
Example locateSchemaFile_undefined_workspace_default :
  result (locateSchemaFile (Sample.env "" [Sample.alice] None None None)
            Sample.context None initialState)
  = Throw (TypeError "Cannot read properties of undefined (reading 'name')").
Proof. vm_compute. reflexivity. Qed.

(** C4, as stated, fails: a relative configured value without a
    workspace is not resolved against the installation root.  With the
    value [schemas/my.json] and the installation root [/ext], the code
    computes [/ext/service-schema.json], the spec's wording
    [/ext/schemas/my.json]. *)
Lemma alternateSchemaUri_relative_without_workspace :
  let env := Sample.env "schemas/my.json" [] None None None in
  alternateSchemaUri env Sample.context None
    = Uri.file "/ext/service-schema.json"
  /\ spec_staticFallback env Sample.context None
    = Uri.file "/ext/schemas/my.json"
  /\ alternateSchemaUri env Sample.context None
    <> spec_staticFallback env Sample.context None.
Proof. vm_compute. split; [done|]. split; [done|]. discriminate. Qed.

(** ** The static fallback on joined paths *)

Lemma isOneOf_slash c : Uri.isOneOf "/" c = Ascii.eqb c "/".
Proof. unfold Uri.isOneOf. cbn [list_ascii_of_string existsb]. apply orb_false_r. Qed.

Lemma avoids_cons cs c s :
  avoids cs (String c s) <-> Uri.isOneOf cs c = false /\ avoids cs s.
Proof.
  unfold avoids. cbn [Uri.allChars]. rewrite andb_true_iff, negb_true_iff. done.
Qed.

Lemma split_avoids p : Forall (avoids "/") (JS.split "/" p).
Proof.
  induction p as [|c p IH]; [by repeat constructor|].
  cbn [JS.split]. destruct (Ascii.eqb c "/") eqn:Hc.
  - constructor; [done|exact IH].
  - destruct (JS.split "/" p) as [|seg rest].
    { constructor; [|constructor]. apply avoids_cons. by rewrite isOneOf_slash. }
    inversion IH as [|? ? Hseg Hrest]; subst. constructor; [|done].
    apply avoids_cons. by rewrite isOneOf_slash.
Qed.

Lemma segment_ok_up : segment_ok "..".
Proof. split; [discriminate|reflexivity]. Qed.

Lemma normalizeSegments_ok allowAboveRoot segs res :
  Forall (avoids "/") segs -> Forall segment_ok res ->
  Forall segment_ok (path.normalizeSegments allowAboveRoot segs res).
Proof.
  intros Hsegs. revert res. induction Hsegs as [|seg segs Hseg _ IH]; intros res Hres;
    [done|].
  cbn [path.normalizeSegments].
  destruct ((seg =? "") || (seg =? ".")) eqn:Hskip; [by apply IH|].
  destruct (seg =? "..") eqn:Hup.
  - destruct res as [|top res'].
    { apply IH. destruct allowAboveRoot; [|done].
      constructor; [apply segment_ok_up|done]. }
    inversion Hres; subst.
    destruct (top =? ".."); [|by apply IH].
    apply IH. destruct allowAboveRoot; [|done].
    constructor; [apply segment_ok_up|done].
  - apply IH. constructor; [|done]. split; [|done].
    intros ->. done.
Qed.

Lemma join_segments segs :
  Forall segment_ok segs ->
  JS.join "/" segs = ""
  \/ exists c t, JS.join "/" segs = String c t /\ c <> "/"%char.
Proof.
  intros [|seg rest [Hne Hav] _]; [by left|]. right.
  destruct seg as [|c t]; [done|].
  exists c. apply avoids_cons in Hav as [Hc _]. rewrite isOneOf_slash in Hc.
  assert (c <> "/"%char) as Hslash.
  { intros ->. done. }
  destruct rest as [|seg' rest'].
  - by exists t.
  - exists (t +:+ "/" +:+ JS.join "/" (seg' :: rest')). done.
Qed.

(** [Uri.file] accepts every normalized absolute path as it is. *)
Lemma file_normalize p :
  path.isAbsolute p = true ->
  Uri.file (path.normalize p) = Ok (Uri.make "file" "" (path.normalize p) "" "").
Proof.
  intros Habs. unfold path.normalize.
  assert ((p =? "") = false) as -> by (by destruct p).
  rewrite Habs. cbv zeta. cbn [negb].
  unfold path.normalizeString.
  destruct (join_segments (rev (path.normalizeSegments false (JS.split "/" p) [])))
    as [->|(c & t & -> & Hc)].
  { apply Forall_rev, normalizeSegments_ok; [apply split_avoids|constructor]. }
  - done.
  - assert ((String c t =? "") = false) as -> by done.
    assert (forall rest,
              Uri.file ("/" +:+ String c rest)
              = Ok (Uri.make "file" "" ("/" +:+ String c rest) "" "")) as Hfile.
    { intros rest. change ("/" +:+ String c rest) with (String "/" (String c rest)).
      unfold Uri.file.
      destruct c as [[] [] [] [] [] [] [] []]; try done. }
    destruct (match JS.lastChar p with Some "/"%char => true | _ => false end).
    + change (String c t +:+ "/") with (String c (t +:+ "/")). apply Hfile.
    + apply Hfile.
Qed.

Lemma join_normalize root name :
  path.isAbsolute root = true -> name <> "" ->
  path.join [root; name] = path.normalize (root +:+ "/" +:+ name)
  /\ path.isAbsolute (root +:+ "/" +:+ name) = true.
Proof.
  intros Habs Hname. unfold path.join.
  destruct root as [|c root]; [done|].
  destruct name as [|d name]; [done|]. simpl. split; [done|].
  by destruct c as [[] [] [] [] [] [] [] []].
Qed.

Lemma join_file root name :
  path.isAbsolute root = true -> name <> "" ->
  Uri.file (path.join [root; name])
  = Ok (Uri.make "file" "" (path.join [root; name]) "" "").
Proof.
  intros Habs Hname. destruct (join_normalize root name Habs Hname) as [-> Habs'].
  by apply file_normalize.
Qed.

Lemma alternateSchemaUri_cases env context workspaceFolder :
  path.isAbsolute (ExtensionContext.extensionPath context) = true ->
  alternateSchemaUri env context workspaceFolder =
    let configured := customSchemaFile env in
    if isBlank configured then Uri.file (bundledSchemaPath context)
    else if isHttpUrl configured then Uri.parse configured true
    else if path.isAbsolute configured then Uri.file configured
    else
      match workspaceFolder with
      | Some workspaceFolder =>
          Uri.file (path.join [Uri.fsPath (WorkspaceFolder.uri workspaceFolder);
                               configured])
      | None => Uri.file (bundledSchemaPath context)
      end.
Proof.
  intros Habs. unfold alternateSchemaUri. cbv zeta.
  fold (isBlank (customSchemaFile env)). fold (bundledSchemaPath context).
  destruct (isBlank (customSchemaFile env)).
  - pose proof (bundledSchemaPath_absolute context Habs) as Hb.
    pose proof (absolute_not_http _ Hb) as Hh. unfold isHttpUrl in Hh.
    by rewrite Hh, Hb.
  - by fold (isHttpUrl (customSchemaFile env)).
Qed.

(** C4, amended.  For an extension installed at an absolute path: a
    value that is blank after trimming (the white space and the line
    terminators of ECMAScript) gives the bundled default location;
    otherwise a value with an [http://] or [https://] prefix (in any
    letter case) is parsed as a URL; otherwise an absolute path is used
    as a file path; otherwise the value is resolved against the
    workspace root, and when no workspace is given the value is not used
    and the bundled default location is computed.  The bundled default
    is the [file] URI of the normalized join of the installation root
    and [service-schema.json], whatever the workspace; a relative value
    under a workspace with an absolute root gives the [file] URI of the
    normalized join of that root and the value. *)
Theorem alternateSchemaUri_resolution_order
    (env : Env) (context : ExtensionContext.t)
    (workspaceFolder : option WorkspaceFolder.t) :
  path.isAbsolute (ExtensionContext.extensionPath context) = true ->
  let configured := customSchemaFile env in
  let bundled := Uri.make "file" "" (bundledSchemaPath context) "" "" in
  alternateSchemaUri env context workspaceFolder =
    (if isBlank configured then Uri.file (bundledSchemaPath context)
     else if isHttpUrl configured then Uri.parse configured true
     else if path.isAbsolute configured then Uri.file configured
     else
       match workspaceFolder with
       | Some workspaceFolder =>
           Uri.file (path.join [Uri.fsPath (WorkspaceFolder.uri workspaceFolder);
                                configured])
       | None => Uri.file (bundledSchemaPath context)
       end)
  /\ (isBlank configured = true ->
      alternateSchemaUri env context workspaceFolder = Ok bundled)
  /\ (isBlank configured = false -> isHttpUrl configured = false ->
      path.isAbsolute configured = false ->
      match workspaceFolder with
      | Some folder =>
          path.isAbsolute (Uri.fsPath (WorkspaceFolder.uri folder)) = true ->
          alternateSchemaUri env context workspaceFolder
          = Ok (Uri.make "file" ""
                  (path.join [Uri.fsPath (WorkspaceFolder.uri folder); configured])
                  "" "")
      | None => alternateSchemaUri env context workspaceFolder = Ok bundled
      end).
Proof.
  intros Habs configured bundled.
  pose proof (alternateSchemaUri_cases env context workspaceFolder Habs) as Heq.
  cbv zeta in Heq. fold configured in Heq.
  assert (Uri.file (bundledSchemaPath context) = Ok bundled) as Hbundled
    by (by apply join_file).
  split; [exact Heq|]. split.
  - intros Hblank. by rewrite Heq, Hblank.
  - intros Hblank Hhttp Hrel. rewrite Heq, Hblank, Hhttp, Hrel.
    destruct workspaceFolder as [folder|]; [|exact Hbundled].
    intros Hroot. apply join_file; [exact Hroot|].
    intros Hempty. by rewrite Hempty in Hblank.
Qed.

Lemma alternateSchemaUri_resolution_order_witness :
  alternateSchemaUri (Sample.env "schemas/my.json" [] None None None)
    Sample.context (Some (Sample.folder "repo-a"))
  = Ok (Uri.make "file" "" "/work/repo-a/schemas/my.json" "" "")
  /\ alternateSchemaUri (Sample.env "schemas/my.json" [] None None None)
       Sample.context (Some (Sample.folder "repo-a"))
     = Uri.file "/work/repo-a/schemas/my.json".
Proof.
  destruct (alternateSchemaUri_resolution_order
              (Sample.env "schemas/my.json" [] None None None) Sample.context
              (Some (Sample.folder "repo-a")) eq_refl)
    as (Horder & _ & Hrelative).
  split.
  - rewrite (Hrelative eq_refl eq_refl eq_refl eq_refl). vm_compute. reflexivity.
  - rewrite Horder. vm_compute. reflexivity.
Defined.

(** ** The session matcher (section 4.3) *)

(** The comparison of line 156 is the character-wise one. *)
Lemma toLowerCase_eqb a b :
  (JS.toLowerCase a =? JS.toLowerCase b) = equalIgnoringCase a b.
Proof.
  revert b. induction a as [|c a IH]; intros [|d b]; simpl; try done.
  by rewrite IH.
Qed.

Example equalIgnoringCase_examples :
  equalIgnoringCase "Contoso" "cONTOSO" = true
  /\ equalIgnoringCase "Contoso" "Contoso2" = false
  /\ equalIgnoringCase "contoso-dev" "contoso" = false.
Proof. done. Qed.

Lemma find_hasOrganization organizationName organizations :
  hasOrganization organizationName organizations
  = match List.find
            (fun org => JS.toLowerCase (Organization.accountName org)
                        =? JS.toLowerCase organizationName) organizations with
    | Some _ => true
    | None => false
    end.
Proof.
  unfold hasOrganization.
  induction organizations as [|org l IH]; simpl; [done|].
  rewrite toLowerCase_eqb. by destruct (equalIgnoringCase _ _).
Qed.

Lemma findSession_grants env organizationName session rest s :
  grants env organizationName session ->
  findSession env organizationName (session :: rest) s
  = (Ok (Some session), s, [ListOrganizations session]).
Proof.
  intros (orgs & Hq & Hhas). rewrite find_hasOrganization in Hhas.
  simpl. unfold bind, call, bind, emit, lift. rewrite Hq.
  by destruct (List.find _ orgs).
Qed.

Lemma findSession_lacks env organizationName session rest s :
  lacks env organizationName session ->
  findSession env organizationName (session :: rest) s
  = (result (findSession env organizationName rest s),
     final (findSession env organizationName rest s),
     ListOrganizations session :: events (findSession env organizationName rest s)).
Proof.
  intros (orgs & Hq & Hhas). rewrite find_hasOrganization in Hhas.
  simpl. unfold bind at 1. unfold call, bind, emit, lift. rewrite Hq.
  destruct (List.find _ orgs); [done|].
  by destruct (findSession env organizationName rest s) as [[? ?] ?].
Qed.

Lemma findSession_none env organizationName sessions s :
  Forall (lacks env organizationName) sessions ->
  findSession env organizationName sessions s
  = (Ok None, s, ListOrganizations <$> sessions).
Proof.
  induction 1 as [|session rest Hl _ IH]; [done|].
  rewrite (findSession_lacks _ _ _ _ _ Hl), IH. done.
Qed.

Lemma findSession_some env organizationName before session after s :
  Forall (lacks env organizationName) before ->
  grants env organizationName session ->
  findSession env organizationName (before ++ session :: after) s
  = (Ok (Some session), s, ListOrganizations <$> (before ++ [session])).
Proof.
  intros Hbefore Hg. induction Hbefore as [|x before Hl _ IH]; simpl app.
  - by apply findSession_grants.
  - rewrite (findSession_lacks _ _ _ _ _ Hl), IH. done.
Qed.

(** C5.  The session matcher walks the sessions in the order of the
    provider and queries each one once.  It returns the first session
    whose organization list contains the identity, names compared
    without regard to letter case, having queried exactly the sessions
    up to that one; it returns [undefined] when every list lacks the
    identity.  It never changes the state. *)
Theorem findSession_first_match
    (env : Env) (organizationName : string)
    (sessions : list AzureSession.t) (s : State) :
  (forall before session after,
      sessions = before ++ session :: after ->
      Forall (lacks env organizationName) before ->
      grants env organizationName session ->
      findSession env organizationName sessions s
      = (Ok (Some session), s, ListOrganizations <$> (before ++ [session])))
  /\ (Forall (lacks env organizationName) sessions ->
      findSession env organizationName sessions s
      = (Ok None, s, ListOrganizations <$> sessions)).
Proof.
  split.
  - intros before session after -> Hb Hg. by apply findSession_some.
  - apply findSession_none.
Qed.

Lemma findSession_first_match_witness :
  let env := Sample.env "" [Sample.bob; Sample.alice; Sample.alice] None None None in
  findSession env "CONTOSO" [Sample.bob; Sample.alice; Sample.alice] initialState
  = (Ok (Some Sample.alice), initialState,
     [ListOrganizations Sample.bob; ListOrganizations Sample.alice])
  /\ findSession env "contoso" [Sample.bob; Sample.bob] initialState
  = (Ok None, initialState,
     [ListOrganizations Sample.bob; ListOrganizations Sample.bob]).
Proof.
  intros env.
  destruct (findSession_first_match env "CONTOSO"
              [Sample.bob; Sample.alice; Sample.alice] initialState) as [Hfirst _].
  destruct (findSession_first_match env "contoso"
              [Sample.bob; Sample.bob] initialState) as [_ Hnone].
  split.
  - apply (Hfirst [Sample.bob] Sample.alice [Sample.alice]); [reflexivity| |].
    + repeat constructor. eexists. split; reflexivity.
    + eexists. split; reflexivity.
  - apply Hnone. repeat constructor; eexists; split; reflexivity.
Defined.

(** ** Reasoning about computations

    Two families of facts are proved by walking over a computation:
    that it leaves a part of the state alone, and that all the events it
    emits are of some kind. *)

Section Rules.
Context {B : Type} (f : State -> B) (P : Event -> Prop).

Lemma keeps_ret {A} (a : A) : keeps f (ret a).
Proof. done. Qed.
Lemma keeps_lift {A} (r : Result A) : keeps f (lift r).
Proof. done. Qed.
Lemma keeps_emit e : keeps f (emit e).
Proof. done. Qed.
Lemma keeps_gets {A} (g : State -> A) : keeps f (gets g).
Proof. done. Qed.
Lemma keeps_modify g : (forall s, f (g s) = f s) -> keeps f (modify g).
Proof. intros H s. apply H. Qed.

Lemma keeps_bind {A C} (m : M A) (k : A -> M C) :
  keeps f m -> (forall a, keeps f (k a)) -> keeps f (bind m k).
Proof.
  intros Hm Hk s. specialize (Hm s). unfold keeps, bind, final in *.
  destruct (m s) as [[[a|e] s1] ev1]; [|done].
  specialize (Hk a s1). destruct (k a s1) as [[r s2] ev2].
  simpl in *. congruence.
Qed.

Lemma keeps_tryCatch {A} (m : M A) (h : Error -> M A) :
  keeps f m -> (forall e, keeps f (h e)) -> keeps f (tryCatch m h).
Proof.
  intros Hm Hh s. specialize (Hm s). unfold keeps, tryCatch, final in *.
  destruct (m s) as [[[a|e] s1] ev1]; [done|].
  specialize (Hh e s1). destruct (h e s1) as [[r s2] ev2].
  simpl in *. congruence.
Qed.

Lemma emits_ret {A} (a : A) : emits P (ret a).
Proof. intros s. constructor. Qed.
Lemma emits_lift {A} (r : Result A) : emits P (lift r).
Proof. intros s. constructor. Qed.
Lemma emits_emit e : P e -> emits P (emit e).
Proof. intros H s. by repeat constructor. Qed.
Lemma emits_gets {A} (g : State -> A) : emits P (gets g).
Proof. intros s. constructor. Qed.
Lemma emits_modify g : emits P (modify g).
Proof. intros s. constructor. Qed.

Lemma emits_bind {A C} (m : M A) (k : A -> M C) :
  emits P m -> (forall a, emits P (k a)) -> emits P (bind m k).
Proof.
  intros Hm Hk s. specialize (Hm s). unfold emits, bind, events in *.
  destruct (m s) as [[[a|e] s1] ev1]; [|done].
  specialize (Hk a s1). destruct (k a s1) as [[r s2] ev2].
  simpl in *. by apply Forall_app.
Qed.

Lemma emits_tryCatch {A} (m : M A) (h : Error -> M A) :
  emits P m -> (forall e, emits P (h e)) -> emits P (tryCatch m h).
Proof.
  intros Hm Hh s. specialize (Hm s). unfold emits, tryCatch, events in *.
  destruct (m s) as [[[a|e] s1] ev1]; [done|].
  specialize (Hh e s1). destruct (h e s1) as [[r s2] ev2].
  simpl in *. by apply Forall_app.
Qed.
End Rules.

(** Walks over a computation, one construct at a time; the leaves that
    remain are the state updates and the events that matter. *)
Ltac walk :=
  repeat match goal with
    | |- keeps _ (ret _) => apply keeps_ret
    | |- keeps _ (lift _) => apply keeps_lift
    | |- keeps _ (emit _) => apply keeps_emit
    | |- keeps _ (gets _) => apply keeps_gets
    | |- keeps _ (modify _) => apply keeps_modify; intros ?
    | |- keeps _ (bind _ _) => apply keeps_bind; [|intros ?]
    | |- keeps _ (tryCatch _ _) => apply keeps_tryCatch; [|intros ?]
    | |- emits _ (ret _) => apply emits_ret
    | |- emits _ (lift _) => apply emits_lift
    | |- emits _ (emit _) => apply emits_emit
    | |- emits _ (gets _) => apply emits_gets
    | |- emits _ (modify _) => apply emits_modify
    | |- emits _ (bind _ _) => apply emits_bind; [|intros ?]
    | |- emits _ (tryCatch _ _) => apply emits_tryCatch; [|intros ?]
    | |- _ _ (log _) => unfold log
    | |- _ _ (call _ _) => unfold call
    | |- _ _ (spawn _) => unfold spawn
    | |- _ _ (match ?x with _ => _ end) => destruct x
    end.

Lemma count_zero (f : Event -> bool) (evs : list Event) :
  Forall (fun e => f e = false) evs -> count f evs = 0.
Proof.
  unfold count. induction 1 as [|e evs He _ IH]; simpl; [done|]. by rewrite He.
Qed.

(** *** What each stage leaves alone *)

Lemma findSession_keeps {B} (f : State -> B) env organizationName sessions :
  keeps f (findSession env organizationName sessions).
Proof. induction sessions; simpl; walk; done. Qed.

Lemma organizationAndSessions_keeps {B} (f : State -> B) env sessions :
  keeps f (organizationAndSessions env sessions).
Proof. induction sessions; simpl; walk; done. Qed.

(** *** The identity resolver, case by case *)

Ltac run := unfold bind, call, log, emit, lift, gets, modify, ret, tryCatch, spawn.

Lemma findSession_final env organizationName sessions s :
  final (findSession env organizationName sessions s) = s.
Proof. apply (findSession_keeps id). Qed.

(** A recognized remote URL: the organization is read off the URL and
    the session matcher runs. *)
Lemma determineOrganization_azure env workspaceFolder remoteUrl url organizationName s :
  azureReposUrl env remoteUrl = Some url ->
  getRepositoryDetailsFromRemoteUrl env url = Ok organizationName ->
  determineOrganization env workspaceFolder remoteUrl s
  = (match result (findSession env organizationName (sessions env) s) with
     | Ok session => Ok (Some (organizationName, session))
     | Throw e => Throw e
     end, s,
     Log (WorkspaceFolder.name workspaceFolder +:+ " is an Azure repo")
       :: events (findSession env organizationName (sessions env) s)).
Proof.
  intros Hurl Horg. unfold determineOrganization. rewrite Hurl. run.
  rewrite Horg.
  pose proof (findSession_final env organizationName (sessions env) s) as Hs.
  destruct (findSession env organizationName (sessions env) s) as [[[session|e] s1] evs];
    unfold final in Hs; simpl in Hs; subst s1; simpl; by rewrite ?app_nil_r.
Qed.

(** No recognized remote URL, and a persisted choice for the folder. *)
Lemma determineOrganization_persisted env workspaceFolder remoteUrl details s :
  azureReposUrl env remoteUrl = None ->
  azurePipelinesDetails s ≫= (fun d => d !! WorkspaceFolder.name workspaceFolder)
    = Some details ->
  determineOrganization env workspaceFolder remoteUrl s
  = match List.find (fun session => AzureSession.tenantId session =? tenant details)
            (sessions env) with
    | Some session =>
        (Ok (Some (organization details, Some session)), s,
         [Log (WorkspaceFolder.name workspaceFolder
               +:+ " has no remote URL or is not an Azure repo");
          Log ("Using cached information for "
               +:+ WorkspaceFolder.name workspaceFolder +:+ ": "
               +:+ organization details +:+ ", " +:+ AzureSession.tenantId session)])
    | None =>
        (Throw (TypeError "Cannot read properties of undefined (reading 'tenantId')"), s,
         [Log (WorkspaceFolder.name workspaceFolder
               +:+ " has no remote URL or is not an Azure repo")])
    end.
Proof.
  intros Hurl Hd. unfold determineOrganization. rewrite Hurl. run.
  rewrite Hd. by destruct (List.find _ (sessions env)).
Qed.

(** No recognized remote URL and no persisted choice: the prompt is
    started and not awaited. *)
Lemma determineOrganization_prompt env workspaceFolder remoteUrl s :
  azureReposUrl env remoteUrl = None ->
  azurePipelinesDetails s ≫= (fun d => d !! WorkspaceFolder.name workspaceFolder)
    = None ->
  inheritedProperty (azurePipelinesDetails s) (WorkspaceFolder.name workspaceFolder)
    = false ->
  determineOrganization env workspaceFolder remoteUrl s
  = (Ok None,
     {| seenOrganizations := seenOrganizations s;
        azurePipelinesDetails := azurePipelinesDetails s;
        files := files s;
        detached := detached s
          ++ [SelectOrganizationPrompt workspaceFolder (azurePipelinesDetails s)] |},
     [Log (WorkspaceFolder.name workspaceFolder
           +:+ " has no remote URL or is not an Azure repo");
      Log ("Prompting for organization for " +:+ WorkspaceFolder.name workspaceFolder);
      ShowInformationMessage
        (Messages.selectOrganizationForEnhancedIntelliSense
           (WorkspaceFolder.name workspaceFolder))
        Messages.selectOrganizationLabel]).
Proof.
  intros Hurl Hd Hin. unfold determineOrganization. rewrite Hurl. run.
  by rewrite Hd, Hin.
Qed.

(** No recognized remote URL, a stored object without an entry of its
    own for the folder, and a folder named as a property that every
    object inherits: the test of line 167 succeeds and line 174 throws. *)
Lemma determineOrganization_inherited env workspaceFolder remoteUrl s :
  azureReposUrl env remoteUrl = None ->
  azurePipelinesDetails s ≫= (fun d => d !! WorkspaceFolder.name workspaceFolder)
    = None ->
  inheritedProperty (azurePipelinesDetails s) (WorkspaceFolder.name workspaceFolder)
    = true ->
  determineOrganization env workspaceFolder remoteUrl s
  = (Throw (TypeError "Cannot read properties of undefined (reading 'tenantId')"), s,
     [Log (WorkspaceFolder.name workspaceFolder
           +:+ " has no remote URL or is not an Azure repo")]).
Proof.
  intros Hurl Hd Hin. unfold determineOrganization. rewrite Hurl. run.
  by rewrite Hd, Hin.
Qed.

(** Whenever the identity resolver names an organization, it has left
    the state as it was. *)
Lemma determineOrganization_some env workspaceFolder remoteUrl s found :
  result (determineOrganization env workspaceFolder remoteUrl s) = Ok (Some found) ->
  final (determineOrganization env workspaceFolder remoteUrl s) = s.
Proof.
  destruct (azureReposUrl env remoteUrl) as [url|] eqn:Hurl.
  - unfold determineOrganization. rewrite Hurl. intros _.
    apply (keeps_bind id); [walk|intros ?].
    apply (keeps_bind id); [walk|intros ?].
    apply (keeps_bind id); [apply findSession_keeps|intros ?]. walk.
  - destruct (azurePipelinesDetails s
              ≫= (fun d => d !! WorkspaceFolder.name workspaceFolder))
      as [details|] eqn:Hd.
    + rewrite (determineOrganization_persisted _ _ _ _ _ Hurl Hd).
      by destruct (List.find _ _).
    + destruct (inheritedProperty (azurePipelinesDetails s)
                  (WorkspaceFolder.name workspaceFolder)) eqn:Hin.
      * by rewrite (determineOrganization_inherited _ _ _ _ Hurl Hd Hin).
      * by rewrite (determineOrganization_prompt _ _ _ _ Hurl Hd Hin).
Qed.

(** *** The schema fetcher, case by case *)

Lemma fetchSchema_no_session env context workspaceFolder organizationName s :
  fetchSchema env context workspaceFolder organizationName None s
  = (Ok None, s,
     [Log ("No organization found for " +:+ WorkspaceFolder.name workspaceFolder);
      ShowErrorMessage (Messages.unableToAccessOrganization organizationName)]).
Proof. done. Qed.

(** A cache hit: the location is returned after the directory has been
    made sure of; nothing else happens. *)
Lemma fetchSchema_hit env context workspaceFolder organizationName session s u :
  organizationName ∈ seenOrganizations s ->
  createDirectory env (ExtensionContext.globalStorageUri context) = Ok tt ->
  schemaLocation context organizationName = Ok u ->
  fetchSchema env context workspaceFolder organizationName (Some session) s
  = (Ok (Some u), s,
     [CreateDirectory (ExtensionContext.globalStorageUri context);
      Log ("Returning cached schema for " +:+ WorkspaceFolder.name workspaceFolder)]).
Proof.
  intros Hseen Hdir Hloc. unfold fetchSchema. run. rewrite Hdir. simpl.
  rewrite Hloc. simpl. by rewrite bool_decide_eq_true_2.
Qed.

(** A cache hit never reaches the token, the schema request or the write,
    and changes nothing, whatever the file system answers. *)
Lemma fetchSchema_hit_quiet env context workspaceFolder organizationName session s :
  organizationName ∈ seenOrganizations s ->
  final (fetchSchema env context workspaceFolder organizationName session s) = s
  /\ Forall (fun e => isNetworkCall e = false /\ isSchemaFetch e = false
                      /\ isPrompt e = false)
       (events (fetchSchema env context workspaceFolder organizationName session s)).
Proof.
  intros Hseen. destruct session as [session|].
  - unfold fetchSchema. run.
    destruct (createDirectory env _) as [[]|e]; simpl; [|by repeat constructor].
    destruct (schemaLocation context organizationName) as [u|e]; simpl;
      [|by repeat constructor].
    rewrite bool_decide_eq_true_2 by done. simpl. by repeat constructor.
  - rewrite fetchSchema_no_session. simpl. by repeat constructor.
Qed.

Lemma fetchSchema_miss env context workspaceFolder organizationName session s u token schema :
  organizationName ∉ seenOrganizations s ->
  fetchSucceeds env context organizationName session u token schema ->
  fetchSchema env context workspaceFolder organizationName (Some session) s
  = (Ok (Some u), fetched organizationName u schema s,
     [CreateDirectory (ExtensionContext.globalStorageUri context);
      Log ("Retrieving schema for " +:+ WorkspaceFolder.name workspaceFolder);
      GetToken session; GetTaskAgentApi organizationName;
      GetYamlSchema organizationName; WriteFile u schema]).
Proof.
  intros Hseen (Hdir & Hloc & Htok & Hapi & Hschema & Hwrite).
  unfold fetchSchema. run. rewrite Hdir. simpl. rewrite Hloc. simpl.
  rewrite bool_decide_eq_false_2 by done. simpl.
  rewrite Htok. simpl. rewrite Hapi. simpl. rewrite Hschema. simpl.
  by rewrite Hwrite.
Qed.

(** The fetcher either leaves the state as it was, or it went through a
    complete fetch of an organization that was not in the cache. *)
Lemma fetchSchema_cases env context workspaceFolder organizationName session s :
  final (fetchSchema env context workspaceFolder organizationName session s) = s
  \/ exists azureSession u token schema,
       session = Some azureSession
       /\ (organizationName ∉ seenOrganizations s)
       /\ fetchSucceeds env context organizationName azureSession u token schema.
Proof.
  destruct session as [session|]; [|by left].
  unfold fetchSchema. run.
  destruct (createDirectory env _) as [[]|e] eqn:Hdir; simpl; [|by left].
  destruct (schemaLocation context organizationName) as [u|e] eqn:Hloc; simpl;
    [|by left].
  destruct (bool_decide (organizationName ∈ seenOrganizations s)) eqn:Hseen; simpl;
    [by left|].
  apply bool_decide_eq_false in Hseen.
  destruct (getToken env session) as [token|e] eqn:Htok; simpl; [|by left].
  destruct (getTaskAgentApi env organizationName token) as [[]|e] eqn:Hapi; simpl;
    [|by left].
  destruct (getYamlSchema env organizationName token) as [schema|e] eqn:Hschema; simpl;
    [|by left].
  destruct (writeFile env u schema) as [[]|e] eqn:Hwrite; simpl; [|by left].
  right. by exists session, u, token, schema.
Qed.

(** A fetch that throws has changed nothing. *)
Lemma fetchSchema_throw env context workspaceFolder organizationName session s e :
  result (fetchSchema env context workspaceFolder organizationName session s) = Throw e ->
  final (fetchSchema env context workspaceFolder organizationName session s) = s.
Proof.
  destruct (fetchSchema_cases env context workspaceFolder organizationName session s)
    as [H|(azureSession & u & token & schema & -> & Hseen & Hok)]; [done|].
  by rewrite (fetchSchema_miss _ _ _ _ _ _ _ _ _ Hseen Hok).
Qed.

(** *** The stages put together *)

(** Looking up the remote never throws and never touches the state. *)
Lemma getRemoteUrl_total env workspaceFolder s :
  exists remoteUrl logs,
    getRemoteUrl env workspaceFolder s = (Ok remoteUrl, s, logs)
    /\ Forall (fun e => exists m, e = Log m) logs.
Proof.
  unfold getRemoteUrl. run.
  destruct (getGitExtensionApi env) as [[]|e]; simpl; [|by repeat econstructor].
  destruct (openRepository env _) as [[repo|]|e]; simpl;
    [| by repeat econstructor | by repeat econstructor].
  destruct (Git.status repo) as [[]|e]; simpl; [|by repeat econstructor].
  destruct (Git.HEAD (Git.state repo) ≫= Git.upstream); simpl;
    by repeat econstructor.
Qed.

(** Then auto-detection is the fetcher, run on the unchanged state, after
    the events of the first two stages. *)
Lemma autoDetectSchema_resolved env context workspaceFolder s remoteUrl organizationName session :
  resolvesTo env workspaceFolder s remoteUrl organizationName session ->
  autoDetectSchema env context workspaceFolder s
  = (result (fetchSchema env context workspaceFolder organizationName session s),
     final (fetchSchema env context workspaceFolder organizationName session s),
     events (getRemoteUrl env workspaceFolder s)
     ++ events (determineOrganization env workspaceFolder remoteUrl s)
     ++ events (fetchSchema env context workspaceFolder organizationName session s)).
Proof.
  intros (Hapi & Hlogin & Hremote & Hfound).
  pose proof (determineOrganization_some _ _ _ _ _ Hfound) as Hfinal.
  destruct (getRemoteUrl_total env workspaceFolder s) as (r & logs & Hr & _).
  rewrite Hr in Hremote |- *. injection Hremote as ->.
  unfold autoDetectSchema, bind, lift. rewrite Hapi, Hlogin. simpl. rewrite Hr.
  destruct (determineOrganization env workspaceFolder remoteUrl s)
    as [[found s1] evs].
  unfold result, final, events in *. simpl in *. subst found s1.
  by destruct (fetchSchema env context workspaceFolder organizationName session s)
    as [[? ?] ?].
Qed.

(** ** The entry point *)

(** The entry point in terms of what auto-detection did. *)
Lemma locateSchemaFile_unfold env context workspaceFolder s :
  locateSchemaFile env context (Some workspaceFolder) s
  = let detection := autoDetectSchema env context workspaceFolder s in
    let detecting :=
      Log ("Detecting schema for workspace folder "
           +:+ WorkspaceFolder.name workspaceFolder) in
    match result detection with
    | Ok (Some schemaUri) =>
        (Ok (Uri.path schemaUri), final detection,
         detecting :: events detection
         ++ [Log ("Detected schema for workspace folder "
                  +:+ WorkspaceFolder.name workspaceFolder +:+ ": "
                  +:+ Uri.path schemaUri)])
    | Ok None =>
        ((staticFallback env context workspaceFolder).1, final detection,
         detecting :: events detection
         ++ (staticFallback env context workspaceFolder).2)
    | Throw e =>
        ((staticFallback env context workspaceFolder).1, final detection,
         detecting :: events detection
         ++ Log ("Error auto-detecting schema for workspace folder "
                 +:+ WorkspaceFolder.name workspaceFolder +:+ ": "
                 +:+ Error_toString e)
            :: (staticFallback env context workspaceFolder).2)
    end.
Proof.
  unfold locateSchemaFile, detectSchema, staticFallback. run.
  destruct (autoDetectSchema env context workspaceFolder s)
    as [[[[schemaUri|]|e] s1] evs]; simpl.
  - by rewrite app_nil_r.
  - destruct (alternateSchemaUri env context (Some workspaceFolder)); simpl;
      by rewrite ?app_nil_r.
  - destruct (alternateSchemaUri env context (Some workspaceFolder)); simpl;
      by rewrite <- ?app_assoc, ?app_nil_r.
Qed.

Lemma locateSchemaFile_final env context workspaceFolder s :
  final (locateSchemaFile env context (Some workspaceFolder) s)
  = final (autoDetectSchema env context workspaceFolder s).
Proof.
  rewrite locateSchemaFile_unfold. cbv zeta.
  by destruct (result (autoDetectSchema env context workspaceFolder s)) as [[?|]|?].
Qed.

(** *** URLs of the form [https://host/path] *)

Lemma span_avoids cs a c b :
  avoids cs a -> Uri.isOneOf cs c = true ->
  JS.span (Uri.isOneOf cs) (a +:+ String c b) = (a, String c b).
Proof.
  unfold avoids. intros Ha Hc. induction a as [|x a IH].
  - change (JS.span (Uri.isOneOf cs) (String c b) = ("", String c b)).
    simpl. by rewrite Hc.
  - simpl in Ha. apply andb_prop in Ha as [Hx Ha].
    change (JS.span (Uri.isOneOf cs) (String x (a +:+ String c b))
            = (String x a, String c b)).
    simpl. apply negb_true_iff in Hx. rewrite Hx. by rewrite (IH Ha).
Qed.

Lemma span_avoids_all cs a :
  avoids cs a -> JS.span (Uri.isOneOf cs) a = (a, "").
Proof.
  unfold avoids. induction a as [|x a IH]; [done|]. simpl.
  intros [Hx Ha]%andb_prop. apply negb_true_iff in Hx. rewrite Hx.
  by rewrite (IH Ha).
Qed.

Lemma avoids_weaken cs cs' s :
  (forall c, Uri.isOneOf cs' c = true -> Uri.isOneOf cs c = true) ->
  avoids cs s -> avoids cs' s.
Proof.
  unfold avoids. intros Hsub. induction s as [|x s IH]; [done|]. simpl.
  intros [Hx Hs]%andb_prop. rewrite (IH Hs), andb_true_r.
  apply negb_true_iff. apply negb_true_iff in Hx.
  destruct (Uri.isOneOf cs' x) eqn:E; [|done]. by rewrite (Hsub _ E) in Hx.
Qed.

Lemma percentDecode_plain s : avoids "%" s -> Uri.percentDecode s = s.
Proof.
  unfold avoids, Uri.percentDecode.
  induction s as [|c s IH]; [done|]. simpl Uri.allChars.
  intros [Hc Hs]%andb_prop. specialize (IH Hs).
  assert (c <> "%"%char) as Hne.
  { intros ->. done. }
  assert (Uri.decodeFrom (String c s) [] = String c (Uri.decodeFrom s [])) as ->.
  { destruct c as [[] [] [] [] [] [] [] []]; try done. }
  by rewrite IH.
Qed.

(** An escape that stands for valid UTF-8 is decoded; one that does not
    stays as text, and the escapes after it are still decoded. *)
Example percentDecode_examples :
  Uri.percentDecode "/a%20b" = "/a b"
  /\ Uri.percentDecode "/%C3%A9"
     = string_of_list_ascii (map ascii_of_N [47; 195; 169]%N)
  /\ Uri.percentDecode "/%C3" = "/%C3"
  /\ Uri.percentDecode "/%C3%41x" = "/%C3Ax"
  /\ Uri.percentDecode "/%zz%41" = "/%zzA"
  /\ Uri.percentDecode "/%E0%80%80" = "/%E0%80%80"
  /\ Uri.percentDecode "100%" = "100%".
Proof. vm_compute. repeat split. Qed.

Lemma isOneOf_sub (cs cs' : string) :
  (forall c, In c (list_ascii_of_string cs') -> In c (list_ascii_of_string cs)) ->
  forall c, Uri.isOneOf cs' c = true -> Uri.isOneOf cs c = true.
Proof.
  intros Hsub c. unfold Uri.isOneOf. rewrite !existsb_exists.
  intros (x & Hx & E). exists x. split; [by apply Hsub|done].
Qed.

Lemma eqb_empty_false (s : string) : s <> "" -> (s =? "") = false.
Proof. intros H. by apply String.eqb_neq. Qed.

Lemma https_not_blank rest :
  (String.length (JS.trim ("https://" +:+ rest)) =? 0)%nat = false.
Proof. exact (trim_not_empty "h" ("ttps://" +:+ rest) eq_refl eq_refl). Qed.

Lemma https_is_url rest : isHttpUrl ("https://" +:+ rest) = true.
Proof.
  unfold isHttpUrl, JS.startsWith.
  change ("https://" +:+ rest)
    with (String "h" (String "t" (String "t" (String "p" (String "s"
           (String ":" (String "/" (String "/" rest)))))))).
  simpl. by destruct (JS.toLowerCase rest).
Qed.

(** [Uri.parse] on [https://host/path], neither part holding a
    delimiter or an escape. *)
Lemma parse_https host p :
  host <> "" -> avoids "/?#%" host -> avoids "?#%" p ->
  Uri.parse ("https://" +:+ host +:+ "/" +:+ p) true
  = Ok (Uri.make "https" host ("/" +:+ p) "" "").
Proof.
  intros Hhost Hh Hp.
  assert (avoids "/?#" host) as Hh1.
  { revert Hh. apply avoids_weaken, isOneOf_sub. simpl. tauto. }
  assert (avoids "%" host) as Hh2.
  { revert Hh. apply avoids_weaken, isOneOf_sub. simpl. tauto. }
  assert (avoids "?#" (String "/" p)) as Hp1.
  { unfold avoids. simpl. revert Hp. apply avoids_weaken, isOneOf_sub. simpl. tauto. }
  assert (avoids "%" (String "/" p)) as Hp2.
  { unfold avoids. simpl. revert Hp. apply avoids_weaken, isOneOf_sub. simpl. tauto. }
  unfold Uri.parse, Uri.components.
  change ("https://" +:+ host +:+ "/" +:+ p)
    with (String "h" (String "t" (String "t" (String "p" (String "s"
           (String ":" (String "/" (String "/" (host +:+ String "/" p))))))))).
  simpl JS.span at 1. cbv beta iota zeta.
  rewrite (span_avoids "/?#" host "/" p Hh1 eq_refl). cbv beta iota zeta.
  rewrite (span_avoids_all _ _ Hp1). cbv beta iota zeta.
  rewrite (percentDecode_plain _ Hh2), (percentDecode_plain _ Hp2).
  unfold Uri.new, Uri.validateUri. simpl.
  rewrite (eqb_empty_false _ Hhost). unfold JS.startsWith. simpl.
  by destruct p.
Qed.

Lemma locateSchemaFile_result env context workspaceFolder s :
  result (locateSchemaFile env context (Some workspaceFolder) s)
  = match result (autoDetectSchema env context workspaceFolder s) with
    | Ok (Some schemaUri) => Ok (Uri.path schemaUri)
    | _ => (staticFallback env context workspaceFolder).1
    end.
Proof.
  rewrite locateSchemaFile_unfold. cbv zeta.
  by destruct (result (autoDetectSchema env context workspaceFolder s)) as [[?|]|?].
Qed.

(** C10.  [locateSchemaFile] returns the [path] component of the URI it
    settled on, never the URI in full: the path of the detected URI when
    auto-detection produced one, the path of the static URI otherwise.
    In particular, when the static fallback is used and the configured
    value is [https://host/p/q], the result is [/p/q]: scheme and host
    are dropped. *)
Theorem locateSchemaFile_returns_path
    (env : Env) (context : ExtensionContext.t)
    (workspaceFolder : WorkspaceFolder.t) (s : State) :
  let detection := result (autoDetectSchema env context workspaceFolder s) in
  let located := result (locateSchemaFile env context (Some workspaceFolder) s) in
  (forall schemaUri,
      detection = Ok (Some schemaUri) -> located = Ok (Uri.path schemaUri))
  /\ (forall schemaUri,
      (forall detected, detection <> Ok (Some detected)) ->
      alternateSchemaUri env context (Some workspaceFolder) = Ok schemaUri ->
      located = Ok (Uri.path schemaUri))
  /\ (forall host p,
      (forall detected, detection <> Ok (Some detected)) ->
      host <> "" -> avoids "/?#%" host -> avoids "?#%" p ->
      customSchemaFile env = "https://" +:+ host +:+ "/" +:+ p ->
      alternateSchemaUri env context (Some workspaceFolder)
        = Ok (Uri.make "https" host ("/" +:+ p) "" "")
      /\ located = Ok ("/" +:+ p)).
Proof.
  cbv zeta. rewrite locateSchemaFile_result.
  assert (forall schemaUri,
    (forall detected,
        result (autoDetectSchema env context workspaceFolder s) <> Ok (Some detected)) ->
    alternateSchemaUri env context (Some workspaceFolder) = Ok schemaUri ->
    match result (autoDetectSchema env context workspaceFolder s) with
    | Ok (Some detected) => Ok (Uri.path detected)
    | _ => (staticFallback env context workspaceFolder).1
    end = Ok (Uri.path schemaUri)) as Hstatic.
  { intros schemaUri Hnone Halt. unfold staticFallback. rewrite Halt.
    destruct (result (autoDetectSchema env context workspaceFolder s))
      as [[detected|]|e]; [by destruct (Hnone detected)|done|done]. }
  split; [|split].
  - by intros schemaUri ->.
  - done.
  - intros host p Hnone Hhost Hh Hp Hcfg.
    assert (alternateSchemaUri env context (Some workspaceFolder)
            = Ok (Uri.make "https" host ("/" +:+ p) "" "")) as Halt.
    { unfold alternateSchemaUri. rewrite Hcfg. cbv zeta.
      rewrite https_not_blank.
      fold (isHttpUrl ("https://" +:+ host +:+ "/" +:+ p)).
      rewrite https_is_url. by apply parse_https. }
    split; [done|]. by rewrite (Hstatic _ Hnone Halt).
Qed.


Lemma locateSchemaFile_returns_path_witness :
  result (locateSchemaFile
            (Sample.env "https://example.com/schemas/pipeline.json"
               [Sample.alice] None None None)
            Sample.context (Some (Sample.folder "repo-b")) initialState)
  = Ok "/schemas/pipeline.json".
Proof.
  destruct (locateSchemaFile_returns_path
              (Sample.env "https://example.com/schemas/pipeline.json"
                 [Sample.alice] None None None)
              Sample.context (Sample.folder "repo-b") initialState)
    as (_ & _ & Hhttps).
  destruct (Hhttps "example.com" "schemas/pipeline.json") as [_ Hlocated].
  - intros detected. vm_compute. discriminate.
  - discriminate.
  - reflexivity.
  - reflexivity.
  - reflexivity.
  - exact Hlocated.
Defined.

(** ** Resolutions that end in the static fallback *)

Lemma count_logs (f : Event -> bool) (evs : list Event) :
  (forall m, f (Log m) = false) -> Forall isLog evs -> count f evs = 0.
Proof.
  intros Hf Hlogs. apply count_zero.
  eapply Forall_impl; [exact Hlogs|]. by intros e [m ->].
Qed.

Lemma staticFallback_logs env context workspaceFolder :
  Forall isLog (staticFallback env context workspaceFolder).2.
Proof.
  unfold staticFallback. destruct (alternateSchemaUri _ _ _); simpl;
    by repeat econstructor.
Qed.

(** Auto-detection when the identity resolver names no organization:
    nothing is fetched. *)
Lemma autoDetectSchema_unresolved env context workspaceFolder s remoteUrl :
  getAzureAccountExtensionApi env = Ok tt ->
  waitForSubscriptions env = Ok true ->
  result (getRemoteUrl env workspaceFolder s) = Ok remoteUrl ->
  (forall found,
      result (determineOrganization env workspaceFolder remoteUrl s) <> Ok (Some found)) ->
  autoDetectSchema env context workspaceFolder s
  = (match result (determineOrganization env workspaceFolder remoteUrl s) with
     | Ok _ => Ok None
     | Throw e => Throw e
     end,
     final (determineOrganization env workspaceFolder remoteUrl s),
     events (getRemoteUrl env workspaceFolder s)
     ++ events (determineOrganization env workspaceFolder remoteUrl s)).
Proof.
  intros Hapi Hlogin Hremote Hnone.
  destruct (getRemoteUrl_total env workspaceFolder s) as (r & logs & Hr & _).
  rewrite Hr in Hremote |- *. injection Hremote as ->.
  unfold autoDetectSchema, bind, lift. rewrite Hapi, Hlogin. simpl. rewrite Hr.
  destruct (determineOrganization env workspaceFolder remoteUrl s)
    as [[[[found|]|e] s1] evs]; simpl in *.
  - by destruct (Hnone found).
  - by rewrite app_nil_r.
  - done.
Qed.

Lemma find_all_false {A} (f : A -> bool) (l : list A) :
  Forall (fun x => f x = false) l -> List.find f l = None.
Proof. induction 1 as [|x l Hx _ IH]; simpl; [done|]. by rewrite Hx. Qed.

(** C3, which the code does not meet.  The folder has a persisted
    choice, there is no recognized remote URL, the user is signed in,
    and no session has the persisted tenant.  The resolution does return
    the static fallback and does not prompt, but it surfaces no error
    message at all: the log line after the session lookup reads
    [session.tenantId] on [undefined], the [TypeError] is caught by the
    entry point and only logged, and the error message of lines 237 to
    241 is never reached. *)
Theorem revoked_session_shows_no_error
    (env : Env) (context : ExtensionContext.t)
    (workspaceFolder : WorkspaceFolder.t) (s : State)
    (remoteUrl : option string) (details : Details) :
  getAzureAccountExtensionApi env = Ok tt ->
  waitForSubscriptions env = Ok true ->
  result (getRemoteUrl env workspaceFolder s) = Ok remoteUrl ->
  azureReposUrl env remoteUrl = None ->
  azurePipelinesDetails s ≫= (fun d => d !! WorkspaceFolder.name workspaceFolder)
    = Some details ->
  Forall (fun session => AzureSession.tenantId session <> tenant details)
    (sessions env) ->
  let located := locateSchemaFile env context (Some workspaceFolder) s in
  result located = (staticFallback env context workspaceFolder).1
  /\ final located = s
  /\ count isPrompt (events located) = 0
  /\ count isErrorMessage (events located) = 0
  /\ Log ("Error auto-detecting schema for workspace folder "
          +:+ WorkspaceFolder.name workspaceFolder +:+ ": "
          +:+ "TypeError: Cannot read properties of undefined (reading 'tenantId')")
     ∈ events located.
Proof.
  intros Hapi Hlogin Hremote Hurl Hd Hsessions located.
  assert (List.find (fun session => AzureSession.tenantId session =? tenant details)
            (sessions env) = None) as Hfind.
  { apply find_all_false. eapply Forall_impl; [exact Hsessions|].
    intros session Hne. by apply String.eqb_neq. }
  pose proof (determineOrganization_persisted _ _ _ _ _ Hurl Hd) as Hdet.
  rewrite Hfind in Hdet.
  assert (autoDetectSchema env context workspaceFolder s
          = (Throw (TypeError "Cannot read properties of undefined (reading 'tenantId')"),
             s,
             events (getRemoteUrl env workspaceFolder s)
             ++ [Log (WorkspaceFolder.name workspaceFolder
                      +:+ " has no remote URL or is not an Azure repo")])) as Hauto.
  { rewrite (autoDetectSchema_unresolved _ _ _ _ _ Hapi Hlogin Hremote);
      by rewrite Hdet. }
  subst located. rewrite locateSchemaFile_unfold. cbv zeta. rewrite Hauto.
  cbn [result final events fst snd].
  destruct (getRemoteUrl_total env workspaceFolder s) as (r & logs & -> & Hlogs).
  cbn [events snd].
  assert (Forall isLog
    (Log ("Detecting schema for workspace folder "
          +:+ WorkspaceFolder.name workspaceFolder)
     :: (logs ++ [Log (WorkspaceFolder.name workspaceFolder
                       +:+ " has no remote URL or is not an Azure repo")])
     ++ Log ("Error auto-detecting schema for workspace folder "
             +:+ WorkspaceFolder.name workspaceFolder +:+ ": "
             +:+ Error_toString
                   (TypeError "Cannot read properties of undefined (reading 'tenantId')"))
        :: (staticFallback env context workspaceFolder).2)) as Hall.
  { constructor; [by eexists|]. apply Forall_app. split.
    - apply Forall_app. split; [done|]. by repeat econstructor.
    - constructor; [by eexists|]. apply staticFallback_logs. }
  split; [done|]. split; [done|].
  split; [by apply count_logs|]. split; [by apply count_logs|].
  apply elem_of_cons. right. apply elem_of_app. right. by left.
Qed.

Lemma revoked_session_shows_no_error_witness :
  let located :=
    locateSchemaFile (Sample.env "" [Sample.alice] None None None)
      Sample.context (Some (Sample.folder "repo-c")) revokedState in
  result located = Ok "/ext/service-schema.json"
  /\ count isErrorMessage (events located) = 0.
Proof.
  destruct (revoked_session_shows_no_error
              (Sample.env "" [Sample.alice] None None None)
              Sample.context (Sample.folder "repo-c") revokedState None
              {| organization := "contoso"; tenant := "tenant-revoked" |})
    as (Hresult & _ & _ & Herror & _).
  - reflexivity.
  - reflexivity.
  - reflexivity.
  - reflexivity.
  - vm_compute. reflexivity.
  - repeat constructor. discriminate.
  - split; [|exact Herror]. rewrite Hresult. vm_compute. reflexivity.
Defined.

(** ** The session cache (section 4.5) *)

Lemma determineOrganization_keeps_seen env workspaceFolder remoteUrl :
  keeps seenOrganizations (determineOrganization env workspaceFolder remoteUrl).
Proof.
  unfold determineOrganization. walk; try done. apply findSession_keeps.
Qed.

Lemma fetchSchema_cacheStep env context workspaceFolder organizationName session s :
  cacheStep env context s
    (final (fetchSchema env context workspaceFolder organizationName session s))
    (events (fetchSchema env context workspaceFolder organizationName session s)).
Proof.
  destruct (fetchSchema_cases env context workspaceFolder organizationName session s)
    as [->|(azureSession & u & token & schema & -> & Hseen & Hok)]; [by left|].
  rewrite (fetchSchema_miss _ _ _ _ _ _ _ _ _ Hseen Hok).
  right. exists organizationName, u, schema.
  destruct Hok as (_ & Hloc & _ & _ & _ & Hwrite).
  repeat split; try done.
  - simpl. apply lookup_insert_eq.
  - simpl. set_solver.
Qed.

Lemma autoDetectSchema_cacheStep env context workspaceFolder s :
  cacheStep env context s
    (final (autoDetectSchema env context workspaceFolder s))
    (events (autoDetectSchema env context workspaceFolder s)).
Proof.
  destruct (getAzureAccountExtensionApi env) as [[]|e] eqn:Hapi;
    [|left; unfold autoDetectSchema, bind, lift; by rewrite Hapi].
  destruct (waitForSubscriptions env) as [[|]|e] eqn:Hlogin;
    [| left; unfold autoDetectSchema, bind, lift; by rewrite Hapi, Hlogin
     | left; unfold autoDetectSchema, bind, lift; by rewrite Hapi, Hlogin ].
  destruct (getRemoteUrl_total env workspaceFolder s) as (r & logs & Hr & _).
  assert (result (getRemoteUrl env workspaceFolder s) = Ok r) as Hremote
    by (by rewrite Hr).
  destruct (result (determineOrganization env workspaceFolder r s))
    as [[[organizationName session]|]|e] eqn:Hfound.
  - rewrite (autoDetectSchema_resolved env context workspaceFolder s r
               organizationName session) by done.
    destruct (fetchSchema_cacheStep env context workspaceFolder organizationName session s)
      as [Hsame|(o & u & schema & H1 & H2 & H3 & H4 & H5 & H6)]; [by left|].
    right. exists o, u, schema. repeat split; try done.
    cbn [events snd]. apply elem_of_app. right. apply elem_of_app. by right.
  - left. rewrite (autoDetectSchema_unresolved _ _ _ _ _ Hapi Hlogin Hremote)
      by (intros found; by rewrite Hfound).
    apply determineOrganization_keeps_seen.
  - left. rewrite (autoDetectSchema_unresolved _ _ _ _ _ Hapi Hlogin Hremote)
      by (intros found; by rewrite Hfound).
    apply determineOrganization_keeps_seen.
Qed.

Lemma locateSchemaFile_events env context workspaceFolder s :
  exists after,
    events (locateSchemaFile env context (Some workspaceFolder) s)
    = Log ("Detecting schema for workspace folder "
           +:+ WorkspaceFolder.name workspaceFolder)
      :: events (autoDetectSchema env context workspaceFolder s) ++ after
    /\ Forall isLog after.
Proof.
  rewrite locateSchemaFile_unfold. cbv zeta.
  destruct (result (autoDetectSchema env context workspaceFolder s)) as [[?|]|?];
    eexists; (split; [reflexivity|]).
  - by repeat econstructor.
  - apply staticFallback_logs.
  - constructor; [by eexists|]. apply staticFallback_logs.
Qed.

Lemma locateSchemaFile_cacheStep env context workspaceFolder s :
  cacheStep env context s
    (final (locateSchemaFile env context workspaceFolder s))
    (events (locateSchemaFile env context workspaceFolder s)).
Proof.
  destruct workspaceFolder as [workspaceFolder|].
  - rewrite locateSchemaFile_final.
    destruct (locateSchemaFile_events env context workspaceFolder s)
      as (after & -> & _).
    destruct (autoDetectSchema_cacheStep env context workspaceFolder s)
      as [Hsame|(o & u & schema & H1 & H2 & H3 & H4 & H5 & H6)]; [by left|].
    right. exists o, u, schema. repeat split; try done.
    apply elem_of_cons. right. apply elem_of_app. by left.
  - left. by rewrite locateSchemaFile_undefined.
Qed.

(** A cache miss goes to the network: the token is asked for. *)
Lemma fetchSchema_attempt env context workspaceFolder organizationName session s u :
  organizationName ∉ seenOrganizations s ->
  createDirectory env (ExtensionContext.globalStorageUri context) = Ok tt ->
  schemaLocation context organizationName = Ok u ->
  GetToken session
  ∈ events (fetchSchema env context workspaceFolder organizationName (Some session) s).
Proof.
  intros Hseen Hdir Hloc. unfold fetchSchema. run. rewrite Hdir. simpl.
  rewrite Hloc. simpl. rewrite bool_decide_eq_false_2 by done. simpl.
  destruct (getToken env session) as [token|e]; simpl; [|set_solver].
  destruct (getTaskAgentApi env organizationName token) as [[]|e]; simpl; [|set_solver].
  destruct (getYamlSchema env organizationName token) as [schema|e]; simpl; [|set_solver].
  destruct (writeFile env u schema) as [[]|e]; simpl; set_solver.
Qed.

(** C9.  A resolution adds an organization to the session cache only
    after it has written the fetched schema to the deterministic
    location of that organization: the write was issued, it succeeded,
    and the document is on disk.  When a step of the fetch fails (the
    directory, the token, the schema request or the write), the
    resolution leaves the state, hence the cache, as it was; and a
    resolution for an organization that is not in the cache goes to the
    network again rather than returning the location. *)
Theorem seenOrganizations_only_after_write
    (env : Env) (context : ExtensionContext.t)
    (workspaceFolder : WorkspaceFolder.t) (s : State) :
  let resolution := locateSchemaFile env context (Some workspaceFolder) s in
  cacheStep env context s (final resolution) (events resolution)
  /\ (forall remoteUrl organizationName session,
        resolvesTo env workspaceFolder s remoteUrl organizationName (Some session) ->
        ~ (exists u token schema,
             fetchSucceeds env context organizationName session u token schema) ->
        final resolution = s)
  /\ (forall remoteUrl organizationName session u,
        resolvesTo env workspaceFolder s remoteUrl organizationName (Some session) ->
        organizationName ∉ seenOrganizations s ->
        createDirectory env (ExtensionContext.globalStorageUri context) = Ok tt ->
        schemaLocation context organizationName = Ok u ->
        GetToken session ∈ events resolution).
Proof.
  cbv zeta. split; [apply locateSchemaFile_cacheStep|]. split.
  - intros remoteUrl organizationName session Hres Hfail.
    rewrite locateSchemaFile_final.
    rewrite (autoDetectSchema_resolved _ _ _ _ _ _ _ Hres). cbn [final fst snd].
    destruct (fetchSchema_cases env context workspaceFolder organizationName
                (Some session) s)
      as [H|(azureSession & u & token & schema & [= <-] & _ & Hok)]; [done|].
    destruct Hfail. by exists u, token, schema.
  - intros remoteUrl organizationName session u Hres Hseen Hdir Hloc.
    destruct (locateSchemaFile_events env context workspaceFolder s)
      as (after & -> & _).
    rewrite (autoDetectSchema_resolved _ _ _ _ _ _ _ Hres). cbn [events snd].
    apply elem_of_cons. right. apply elem_of_app. left.
    apply elem_of_app. right. apply elem_of_app. right.
    by apply (fetchSchema_attempt _ _ _ _ _ _ u).
Qed.

Lemma seenOrganizations_only_after_write_witness :
  let env := Sample.withoutToken
               (Sample.env "" [Sample.alice]
                  (Some "https://dev.azure.com/contoso/project/_git/repo") None None) in
  let resolution :=
    locateSchemaFile env Sample.context (Some (Sample.folder "repo-a")) initialState in
  final resolution = initialState /\ GetToken Sample.alice ∈ events resolution.
Proof.
  intros env resolution.
  destruct (seenOrganizations_only_after_write env Sample.context
              (Sample.folder "repo-a") initialState) as (_ & Hfail & Hretry).
  assert (resolvesTo env (Sample.folder "repo-a") initialState
            (Some "https://dev.azure.com/contoso/project/_git/repo")
            "contoso" (Some Sample.alice)) as Hres.
  { repeat split; vm_compute; reflexivity. }
  split.
  - apply (Hfail _ _ _ Hres). intros (u & token & schema & _ & _ & Htoken & _).
    discriminate Htoken.
  - apply (Hretry _ _ _ (Uri.make "file" "" "/storage/contoso-schema.json" "" "") Hres).
    + set_solver.
    + reflexivity.
    + vm_compute. reflexivity.
Defined.

(** *** The cache over the life of the process *)

Lemma runTask_keeps_seen env task : keeps seenOrganizations (runTask env task).
Proof.
  destruct task; unfold runTask, signIn, selectOrganization, showQuickPick;
    walk; try done.
  apply organizationAndSessions_keeps.
Qed.

Lemma respond_seen env i s :
  seenOrganizations (final (respond env i s)) = seenOrganizations s.
Proof.
  unfold respond. destruct (detached s !! i) as [task|]; [|done].
  by rewrite runTask_keeps_seen.
Qed.

Lemma locateSchemaFile_seen_grows env context workspaceFolder s :
  seenOrganizations s
  ⊆ seenOrganizations (final (locateSchemaFile env context workspaceFolder s)).
Proof.
  destruct (locateSchemaFile_cacheStep env context workspaceFolder s)
    as [->|(o & u & schema & _ & -> & _)]; set_solver.
Qed.

(** The session cache never shrinks. *)
Lemma steps_seen context s s' :
  rtc (step context) s s' -> seenOrganizations s ⊆ seenOrganizations s'.
Proof.
  induction 1 as [|s1 s2 s3 Hstep _ IH]; [done|].
  etrans; [|exact IH]. inversion Hstep; subst.
  - apply locateSchemaFile_seen_grows.
  - by rewrite respond_seen.
Qed.

Lemma findSession_emits env organizationName sessions :
  emits (fun e => isSchemaFetch e = false /\ isPrompt e = false)
    (findSession env organizationName sessions).
Proof. induction sessions; simpl; walk; done. Qed.

(** The identity resolver never fetches a schema. *)
Lemma determineOrganization_no_fetch env workspaceFolder remoteUrl :
  emits (fun e => isSchemaFetch e = false)
    (determineOrganization env workspaceFolder remoteUrl).
Proof.
  unfold determineOrganization. walk; try done.
  intros st. eapply Forall_impl; [apply findSession_emits|]. by intros e [? _].
Qed.

(** Without a recognized remote URL it stays off the network. *)
Lemma determineOrganization_offline env workspaceFolder remoteUrl :
  azureReposUrl env remoteUrl = None ->
  emits (fun e => isNetworkCall e = false)
    (determineOrganization env workspaceFolder remoteUrl).
Proof. intros Hurl. unfold determineOrganization. rewrite Hurl. walk; done. Qed.

Lemma Forall_logs (P : Event -> Prop) (evs : list Event) :
  (forall m, P (Log m)) -> Forall isLog evs -> Forall P evs.
Proof. intros HP H. eapply Forall_impl; [exact H|]. by intros e [m ->]. Qed.

(** C2, as stated, fails.  The folder tracks a remote of the organization
    [contoso] and the user is signed in as [alice].  The first resolution
    fetches the schema (one token, one schema request, one write); the
    second returns the same location from the cache, and still performs
    a network call: the session matcher queries the organizations of
    [alice] before the cache is consulted. *)
Lemma cache_hit_queries_organizations :
  let env := Sample.env "" [Sample.alice]
               (Some "https://dev.azure.com/contoso/project/_git/repo") None None in
  let first :=
    locateSchemaFile env Sample.context (Some (Sample.folder "repo-a")) initialState in
  let second :=
    locateSchemaFile env Sample.context (Some (Sample.folder "repo-a")) (final first) in
  result first = Ok "/storage/contoso-schema.json"
  /\ List.filter isSchemaFetch (events first)
     = [GetToken Sample.alice; GetTaskAgentApi "contoso"; GetYamlSchema "contoso";
        WriteFile (Uri.make "file" "" "/storage/contoso-schema.json" "" "")
          "{schema of contoso}"]
  /\ result second = Ok "/storage/contoso-schema.json"
  /\ List.filter isNetworkCall (events second) = [ListOrganizations Sample.alice]
  /\ count isNetworkCall (events second) <> 0.
Proof. vm_compute. repeat split; discriminate. Qed.

(** C2, amended.  A resolution fetched the schema of an organization (the
    organization entered the session cache during it).  Then, whatever
    resolutions and prompt answers happen in between, a later resolution
    that resolves the same organization to a session asks for no token,
    sends no schema request and writes no file, changes nothing, and,
    the storage directory being available, returns the location of the
    first fetch.  It performs no network call at all when the
    organization comes from the persisted choice; when it comes from the
    remote URL the session matcher still queries organization lists. *)
Theorem cached_identity_skips_fetch
    (context : ExtensionContext.t)
    (env1 : Env) (workspaceFolder1 : option WorkspaceFolder.t) (s0 : State)
    (organizationName : string) (s : State)
    (env2 : Env) (workspaceFolder2 : WorkspaceFolder.t)
    (remoteUrl : option string) (session : AzureSession.t) :
  organizationName ∉ seenOrganizations s0 ->
  organizationName
  ∈ seenOrganizations (final (locateSchemaFile env1 context workspaceFolder1 s0)) ->
  rtc (step context) (final (locateSchemaFile env1 context workspaceFolder1 s0)) s ->
  resolvesTo env2 workspaceFolder2 s remoteUrl organizationName (Some session) ->
  let resolution := locateSchemaFile env2 context (Some workspaceFolder2) s in
  count isSchemaFetch (events resolution) = 0
  /\ final resolution = s
  /\ (exists u,
        schemaLocation context organizationName = Ok u
        /\ (createDirectory env2 (ExtensionContext.globalStorageUri context) = Ok tt ->
            result resolution = Ok (Uri.path u)))
  /\ (azureReposUrl env2 remoteUrl = None ->
      count isNetworkCall (events resolution) = 0).
Proof.
  intros Hfresh Hadded Hsteps Hres resolution.
  assert (exists u, schemaLocation context organizationName = Ok u) as [u Hloc].
  { destruct (locateSchemaFile_cacheStep env1 context workspaceFolder1 s0)
      as [Hsame|(o & u & schema & _ & Hseen & Hloc & _)].
    - rewrite Hsame in Hadded. by destruct Hfresh.
    - rewrite Hseen in Hadded. exists u.
      apply elem_of_union in Hadded as [Heq%elem_of_singleton|Hin];
        [by rewrite Heq|by destruct Hfresh]. }
  assert (organizationName ∈ seenOrganizations s) as Hseen.
  { by apply (steps_seen _ _ _ Hsteps). }
  destruct (fetchSchema_hit_quiet env2 context workspaceFolder2 organizationName
              (Some session) s Hseen) as [Hfinal Hquiet].
  pose proof (autoDetectSchema_resolved _ context _ _ _ _ _ Hres) as Hauto.
  destruct (getRemoteUrl_total env2 workspaceFolder2 s) as (r & logs & Hr & Hlogs).
  destruct (locateSchemaFile_events env2 context workspaceFolder2 s)
    as (after & Hevents & Hafter).
  subst resolution. rewrite Hevents, Hauto. cbn [events snd]. rewrite Hr.
  cbn [events snd].
  split; [|split; [|split]].
  - apply count_zero. constructor; [done|].
    repeat (apply Forall_app; split).
    + by apply Forall_logs.
    + apply determineOrganization_no_fetch.
    + eapply Forall_impl; [exact Hquiet|]. by intros e (? & ? & ?).
    + by apply Forall_logs.
  - by rewrite locateSchemaFile_final, Hauto.
  - exists u. split; [done|]. intros Hdir.
    rewrite locateSchemaFile_result, Hauto. cbn [result fst].
    by rewrite (fetchSchema_hit _ _ _ _ _ _ _ Hseen Hdir Hloc).
  - intros Hurl. apply count_zero. constructor; [done|].
    repeat (apply Forall_app; split).
    + by apply Forall_logs.
    + by apply determineOrganization_offline.
    + eapply Forall_impl; [exact Hquiet|]. by intros e (? & ? & ?).
    + by apply Forall_logs.
Qed.

Lemma cached_identity_skips_fetch_witness :
  let env := Sample.env "" [Sample.alice]
               (Some "https://dev.azure.com/contoso/project/_git/repo") None None in
  let first :=
    locateSchemaFile env Sample.context (Some (Sample.folder "repo-a")) initialState in
  let second :=
    locateSchemaFile env Sample.context (Some (Sample.folder "repo-a")) (final first) in
  count isSchemaFetch (events second) = 0 /\ final second = final first.
Proof.
  intros env first second.
  destruct (cached_identity_skips_fetch Sample.context
              env (Some (Sample.folder "repo-a")) initialState "contoso" (final first)
              env (Sample.folder "repo-a")
              (Some "https://dev.azure.com/contoso/project/_git/repo") Sample.alice)
    as (Hcount & Hfinal & _).
  - apply not_elem_of_empty.
  - apply (bool_decide_unpack _). vm_compute. exact I.
  - apply rtc_refl.
  - repeat split; vm_compute; reflexivity.
  - split; assumption.
Defined.

(** ** The interactive disambiguator (section 4.4) *)

(** A cancelled quick pick hands [undefined] to what follows. *)
Lemma showQuickPick_cancelled {B} env placeHolder items
    (k : option QuickPickItemWithData -> M B) :
  quickPickChoice env = None ->
  bind (showQuickPick env placeHolder items) k
  = bind (emit (ShowQuickPick placeHolder)) (fun _ => k None).
Proof. intros H. unfold showQuickPick. rewrite H. by destruct items. Qed.

Lemma organizationAndSessions_emits env sessions :
  emits (fun e => isFire e = false) (organizationAndSessions env sessions).
Proof. induction sessions; simpl; walk; done. Qed.

(** C7.  When the user dismisses the information message, or accepts it
    and then cancels the quick pick, the continuation of the prompt
    leaves the persisted choices as they were and does not fire the
    [onDidSelectOrganization] event. *)
Theorem declined_prompt_changes_nothing
    (env : Env) (task : Task) (s : State) :
  informationMessageAction env <> Some Messages.selectOrganizationLabel
  \/ quickPickChoice env = None ->
  azurePipelinesDetails (final (runTask env task s)) = azurePipelinesDetails s
  /\ count isFire (events (runTask env task s)) = 0.
Proof.
  intros Hdeclined.
  enough (keeps azurePipelinesDetails (runTask env task)
          /\ emits (fun e => isFire e = false) (runTask env task)) as [Hk He].
  { split; [apply Hk|]. apply count_zero, He. }
  destruct task as [|workspaceFolder snapshot]; simpl.
  - unfold signIn. split; walk; done.
  - unfold selectOrganization.
    destruct (informationMessageAction env) as [[|]|]; try (split; walk; done).
    destruct Hdeclined as [Hne|Hcancel]; [done|].
    split.
    + apply keeps_bind; [walk; apply organizationAndSessions_keeps|intros items].
      rewrite (showQuickPick_cancelled _ _ _ _ Hcancel). walk.
    + apply emits_bind; [walk; apply organizationAndSessions_emits|intros items].
      rewrite (showQuickPick_cancelled _ _ _ _ Hcancel). walk. done.
Qed.

Lemma declined_prompt_changes_nothing_witness :
  let env := Sample.env "" [Sample.alice] None
               (Some Messages.selectOrganizationLabel) None in
  let answered :=
    runTask env (SelectOrganizationPrompt (Sample.folder "repo-b") None) revokedState in
  azurePipelinesDetails (final answered) = azurePipelinesDetails revokedState
  /\ count isFire (events answered) = 0.
Proof.
  intros env answered.
  apply (declined_prompt_changes_nothing env
           (SelectOrganizationPrompt (Sample.folder "repo-b") None) revokedState).
  right. reflexivity.
Defined.

Lemma selectOrganization_persists env workspaceFolder snapshot s selected :
  persists env s selected ->
  selectOrganization env workspaceFolder snapshot s
  = (Ok tt,
     setAzurePipelinesDetails (persisted workspaceFolder snapshot selected) s,
     events (organizationAndSessions env (sessions env) s)
     ++ [ShowQuickPick
           (Messages.selectOrganizationPlaceholder (WorkspaceFolder.name workspaceFolder));
         UpdateWorkspaceState "azurePipelinesDetails";
         FireSelectOrganization workspaceFolder]).
Proof.
  intros (Haction & Hupdate & items & i & Hitems & Hchoice & Hpick).
  pose proof (organizationAndSessions_keeps id env (sessions env) s) as Hs.
  unfold selectOrganization, showQuickPick. rewrite Haction, Hchoice. run.
  rewrite Hupdate.
  destruct (organizationAndSessions env (sessions env) s) as [[r s1] evs].
  unfold result, final in *. simpl in *. subst r s1. simpl. rewrite Hpick.
  by rewrite app_nil_r.
Qed.

(** What the merge does keep: the entries of the snapshot.  Entries
    written by other prompts since the snapshot was taken are not in it. *)
Lemma selectOrganization_merges_snapshot env workspaceFolder snapshot s selected other :
  persists env s selected ->
  other <> WorkspaceFolder.name workspaceFolder ->
  azurePipelinesDetails (final (selectOrganization env workspaceFolder snapshot s))
    ≫= (fun d => d !! other)
  = snapshot ≫= (fun d => d !! other).
Proof.
  intros Hp Hne. rewrite (selectOrganization_persists _ _ _ _ _ Hp).
  cbn [final fst snd]. unfold setAzurePipelinesDetails, persisted. simpl.
  rewrite lookup_insert_ne by done. by destruct snapshot.
Qed.

Lemma fetchSchema_keeps_detached env context workspaceFolder organizationName session :
  keeps detached (fetchSchema env context workspaceFolder organizationName session).
Proof. unfold fetchSchema. walk; done. Qed.

Lemma fetchSchema_no_prompt env context workspaceFolder organizationName session :
  emits (fun e => isPrompt e = false)
    (fetchSchema env context workspaceFolder organizationName session).
Proof. unfold fetchSchema. walk; done. Qed.

Lemma find_tenant (sessions : list AzureSession.t) (session : AzureSession.t) tenant :
  session ∈ sessions -> AzureSession.tenantId session = tenant ->
  exists found,
    List.find (fun session => AzureSession.tenantId session =? tenant) sessions
    = Some found
    /\ AzureSession.tenantId found = tenant.
Proof.
  intros Hin Htenant.
  destruct (List.find _ sessions) as [found|] eqn:Hfind.
  - exists found. split; [done|].
    apply List.find_some in Hfind as [_ Heq]. by apply String.eqb_eq.
  - apply list_elem_of_In in Hin.
    pose proof (List.find_none _ _ Hfind _ Hin) as Hno. simpl in Hno.
    apply String.eqb_neq in Hno. by destruct Hno.
Qed.

(** C6.  Once the prompt has persisted the selection for a folder, a
    resolution of that folder that is signed in, finds no recognized
    remote URL and has a session of the persisted tenant resolves the
    persisted organization, with the first session of that tenant, and
    goes on to the schema of that organization.  It shows no prompt and
    starts none. *)
Theorem persisted_choice_round_trip
    (env1 : Env) (workspaceFolder : WorkspaceFolder.t)
    (snapshot : option (gmap string Details)) (s0 : State)
    (selected : QuickPickItemWithData)
    (env2 : Env) (context : ExtensionContext.t)
    (remoteUrl : option string) (session : AzureSession.t) :
  persists env1 s0 selected ->
  let s1 := final (selectOrganization env1 workspaceFolder snapshot s0) in
  getAzureAccountExtensionApi env2 = Ok tt ->
  waitForSubscriptions env2 = Ok true ->
  result (getRemoteUrl env2 workspaceFolder s1) = Ok remoteUrl ->
  azureReposUrl env2 remoteUrl = None ->
  session ∈ sessions env2 ->
  AzureSession.tenantId session = AzureSession.tenantId (data selected) ->
  let resolution := locateSchemaFile env2 context (Some workspaceFolder) s1 in
  exists found,
    AzureSession.tenantId found = AzureSession.tenantId (data selected)
    /\ resolvesTo env2 workspaceFolder s1 remoteUrl (label selected) (Some found)
    /\ result (autoDetectSchema env2 context workspaceFolder s1)
       = result (fetchSchema env2 context workspaceFolder (label selected) (Some found) s1)
    /\ count isPrompt (events resolution) = 0
    /\ detached (final resolution) = detached s1.
Proof.
  intros Hp s1 Hapi Hlogin Hremote Hurl Hin Htenant resolution.
  destruct (find_tenant _ _ _ Hin Htenant) as (found & Hfind & Hfound).
  assert (azurePipelinesDetails s1
            ≫= (fun d => d !! WorkspaceFolder.name workspaceFolder)
          = Some {| organization := label selected;
                    tenant := AzureSession.tenantId (data selected) |}) as Hd.
  { subst s1. rewrite (selectOrganization_persists _ _ _ _ _ Hp).
    cbn [final fst snd]. simpl. apply lookup_insert_eq. }
  pose proof (determineOrganization_persisted _ _ _ _ _ Hurl Hd) as Hdet.
  simpl in Hdet. rewrite Hfind in Hdet.
  assert (resolvesTo env2 workspaceFolder s1 remoteUrl (label selected) (Some found))
    as Hres.
  { repeat split; try done. by rewrite Hdet. }
  pose proof (autoDetectSchema_resolved _ context _ _ _ _ _ Hres) as Hauto.
  exists found. split; [done|]. split; [done|]. split; [by rewrite Hauto|].
  destruct (getRemoteUrl_total env2 workspaceFolder s1) as (r & logs & Hr & Hlogs).
  destruct (locateSchemaFile_events env2 context workspaceFolder s1)
    as (after & Hevents & Hafter).
  subst resolution. split.
  - rewrite Hevents, Hauto. cbn [events snd]. rewrite Hr, Hdet. cbn [events snd].
    apply count_zero. constructor; [done|].
    repeat (apply Forall_app; split).
    + by apply Forall_logs.
    + by repeat constructor.
    + apply fetchSchema_no_prompt.
    + by apply Forall_logs.
  - rewrite locateSchemaFile_final, Hauto. cbn [final fst snd].
    apply fetchSchema_keeps_detached.
Qed.

Lemma persisted_choice_round_trip_witness :
  let env1 := Sample.env "" [Sample.alice; Sample.bob] None
                (Some Messages.selectOrganizationLabel) (Some 0) in
  let env2 := Sample.env "" [Sample.bob; Sample.alice] None None None in
  let s1 := final (selectOrganization env1 (Sample.folder "repo-b") None initialState) in
  let resolution :=
    locateSchemaFile env2 Sample.context (Some (Sample.folder "repo-b")) s1 in
  count isPrompt (events resolution) = 0
  /\ detached (final resolution) = detached s1.
Proof.
  intros env1 env2 s1 resolution.
  destruct (persisted_choice_round_trip env1 (Sample.folder "repo-b") None initialState
              {| label := "Contoso"; data := Sample.alice |}
              env2 Sample.context None Sample.alice)
    as (found & _ & _ & _ & Hprompt & Hdetached).
  - split; [reflexivity|]. split; [reflexivity|].
    exists [ {| label := "Contoso"; data := Sample.alice |};
             {| label := "Fabrikam"; data := Sample.bob |} ], 0.
    repeat split; reflexivity.
  - reflexivity.
  - reflexivity.
  - reflexivity.
  - reflexivity.
  - apply elem_of_cons. right. apply elem_of_cons. by left.
  - reflexivity.
  - split; assumption.
Defined.

(** C8, which the code does not meet.  Two folders of one workspace
    are resolved while neither has a persisted choice, so both prompts
    are open and each continuation holds the [azurePipelinesDetails]
    value read at its own resolution (here: none).  The user answers the
    prompt of [repo-a], then the prompt of [repo-b].  The second update
    spreads its stale snapshot, and the entry that the first answer
    persisted for [repo-a] is gone; the event is fired after each
    update. *)
Theorem stale_snapshot_drops_other_folder :
  let ask := Sample.env "" [Sample.alice; Sample.bob] None None None in
  let pick i := Sample.env "" [Sample.alice; Sample.bob] None
                  (Some Messages.selectOrganizationLabel) (Some i) in
  let s1 := final (locateSchemaFile ask Sample.context
                     (Some (Sample.folder "repo-a")) initialState) in
  let s2 := final (locateSchemaFile ask Sample.context
                     (Some (Sample.folder "repo-b")) s1) in
  let first := respond (pick 0) 0 s2 in
  let second := respond (pick 1) 0 (final first) in
  detached s2 = [SelectOrganizationPrompt (Sample.folder "repo-a") None;
                 SelectOrganizationPrompt (Sample.folder "repo-b") None]
  /\ azurePipelinesDetails (final first) ≫= (fun d => d !! "repo-a")
     = Some {| organization := "Contoso"; tenant := "tenant-1" |}
  /\ azurePipelinesDetails (final second) ≫= (fun d => d !! "repo-b")
     = Some {| organization := "Fabrikam"; tenant := "tenant-2" |}
  /\ azurePipelinesDetails (final second) ≫= (fun d => d !! "repo-a") = None
  /\ List.filter isFire (events first) = [FireSelectOrganization (Sample.folder "repo-a")]
  /\ List.filter isFire (events second) = [FireSelectOrganization (Sample.folder "repo-b")].
Proof. vm_compute. repeat split. Qed.

(** * Further properties of the code *)

(** ** What each part never does *)

Lemma findSession_emits_queries (P : Event -> Prop) env organizationName sessions :
  (forall session, P (ListOrganizations session)) ->
  emits P (findSession env organizationName sessions).
Proof. intros HP. induction sessions; simpl; walk; done. Qed.

Lemma organizationAndSessions_emits_queries (P : Event -> Prop) env sessions :
  (forall session, P (ListOrganizations session)) ->
  emits P (organizationAndSessions env sessions).
Proof. intros HP. induction sessions; simpl; walk; done. Qed.

Lemma autoDetectSchema_keeps_details env context workspaceFolder :
  keeps azurePipelinesDetails (autoDetectSchema env context workspaceFolder).
Proof.
  unfold autoDetectSchema, getRemoteUrl, determineOrganization, fetchSchema.
  walk; try done. apply findSession_keeps.
Qed.

Lemma autoDetectSchema_no_continuation env context workspaceFolder :
  emits (fun e => isContinuationEvent e = false)
    (autoDetectSchema env context workspaceFolder).
Proof.
  unfold autoDetectSchema, getRemoteUrl, determineOrganization, fetchSchema.
  walk; try done. by apply findSession_emits_queries.
Qed.

(** X1.  A resolution, whatever the world answers, never writes the
    persisted choices, never shows the quick pick, never runs a command
    and never fires [onDidSelectOrganization]: those belong to the
    continuations of the prompts alone. *)
Theorem resolution_leaves_choices_alone
    (env : Env) (context : ExtensionContext.t)
    (workspaceFolder : option WorkspaceFolder.t) (s : State) :
  azurePipelinesDetails (final (locateSchemaFile env context workspaceFolder s))
  = azurePipelinesDetails s
  /\ count isContinuationEvent
       (events (locateSchemaFile env context workspaceFolder s)) = 0.
Proof.
  split.
  - revert s. change (keeps azurePipelinesDetails
                        (locateSchemaFile env context workspaceFolder)).
    unfold locateSchemaFile, detectSchema. walk; try done.
    apply autoDetectSchema_keeps_details.
  - apply count_zero. revert s.
    change (emits (fun e => isContinuationEvent e = false)
              (locateSchemaFile env context workspaceFolder)).
    unfold locateSchemaFile, detectSchema. walk; try done.
    apply autoDetectSchema_no_continuation.
Qed.

(** X2.  The continuation of a prompt, whatever the user answers, never
    touches the session cache or the stored documents, starts no further
    prompt, and never asks for a token, requests a schema or writes a
    file. *)
Theorem continuation_leaves_cache_alone (env : Env) (task : Task) (s : State) :
  seenOrganizations (final (runTask env task s)) = seenOrganizations s
  /\ files (final (runTask env task s)) = files s
  /\ detached (final (runTask env task s)) = detached s
  /\ count isSchemaFetch (events (runTask env task s)) = 0.
Proof.
  assert (forall B (f : State -> B),
            (forall v st, f (setAzurePipelinesDetails v st) = f st) ->
            keeps f (runTask env task)) as Hkeeps.
  { intros B f Hf.
    destruct task; unfold runTask, signIn, selectOrganization, showQuickPick;
      walk; try done. apply organizationAndSessions_keeps. }
  split; [by apply Hkeeps|]. split; [by apply Hkeeps|]. split; [by apply Hkeeps|].
  apply count_zero. revert s.
  change (emits (fun e => isSchemaFetch e = false) (runTask env task)).
  destruct task; unfold runTask, signIn, selectOrganization, showQuickPick;
    walk; try done. by apply organizationAndSessions_emits_queries.
Qed.

(** ** The remote URL (lines 123 to 144) *)

(** X3.  Looking up the remote URL never throws and never changes the
    state, whatever the Git extension does; it only logs.  A URL comes
    out only when the extension is there, the repository opens, its
    status refreshes, the checked-out branch has an upstream, and the
    URL is the fetch URL of the first remote that bears the name of the
    upstream's remote. *)
Theorem getRemoteUrl_tolerates_git
    (env : Env) (workspaceFolder : WorkspaceFolder.t) (s : State) :
  exists remoteUrl logs,
    getRemoteUrl env workspaceFolder s = (Ok remoteUrl, s, logs)
    /\ Forall isLog logs
    /\ forall url,
         remoteUrl = Some url ->
         exists repo upstream remote,
           getGitExtensionApi env = Ok tt
           /\ openRepository env (WorkspaceFolder.uri workspaceFolder) = Ok (Some repo)
           /\ Git.status repo = Ok tt
           /\ Git.HEAD (Git.state repo) ≫= Git.upstream = Some upstream
           /\ List.find (fun remote => Git.name remote =? Git.remote upstream)
                (Git.remotes (Git.state repo)) = Some remote
           /\ Git.fetchUrl remote = Some url.
Proof.
  assert (forall logs, Forall isLog logs ->
    exists (remoteUrl : option string) logs',
      (Ok (@None string), s, logs) = (Ok remoteUrl, s, logs')
      /\ Forall isLog logs'
      /\ forall url, remoteUrl = Some url ->
           exists repo upstream remote,
             getGitExtensionApi env = Ok tt
             /\ openRepository env (WorkspaceFolder.uri workspaceFolder) = Ok (Some repo)
             /\ Git.status repo = Ok tt
             /\ Git.HEAD (Git.state repo) ≫= Git.upstream = Some upstream
             /\ List.find (fun remote => Git.name remote =? Git.remote upstream)
                  (Git.remotes (Git.state repo)) = Some remote
             /\ Git.fetchUrl remote = Some url) as Hnone.
  { intros logs Hlogs. by exists None, logs. }
  unfold getRemoteUrl. run.
  destruct (getGitExtensionApi env) as [[]|e]; simpl;
    [|apply Hnone; by repeat econstructor].
  destruct (openRepository env _) as [[repo|]|e] eqn:Hopen; simpl;
    [| apply Hnone; by repeat econstructor | apply Hnone; by repeat econstructor].
  destruct (Git.status repo) as [[]|e] eqn:Hstatus; simpl;
    [|apply Hnone; by repeat econstructor].
  destruct (Git.HEAD (Git.state repo) ≫= Git.upstream) as [upstream|] eqn:Hup;
    simpl; [|apply Hnone; by repeat econstructor].
  eexists _, _. split; [reflexivity|]. split; [by repeat econstructor|].
  intros url Hurl.
  destruct (List.find _ (Git.remotes (Git.state repo))) as [remote|] eqn:Hfind;
    [|done].
  by exists repo, upstream, remote.
Qed.

Lemma getRemoteUrl_tolerates_git_witness :
  exists remoteUrl logs,
    getRemoteUrl
      (Sample.env "" [] (Some "https://dev.azure.com/contoso/project/_git/repo")
         None None)
      (Sample.folder "repo-a") initialState
    = (Ok remoteUrl, initialState, logs)
    /\ remoteUrl = Some "https://dev.azure.com/contoso/project/_git/repo".
Proof.
  destruct (getRemoteUrl_tolerates_git
              (Sample.env "" [] (Some "https://dev.azure.com/contoso/project/_git/repo")
                 None None)
              (Sample.folder "repo-a") initialState)
    as (remoteUrl & logs & Hrun & _ & _).
  exists remoteUrl, logs. split; [exact Hrun|].
  vm_compute in Hrun. by injection Hrun as <- _.
Defined.

(** ** Resolutions, path by path *)

Lemma filter_logs (f : Event -> bool) (evs : list Event) :
  (forall m, f (Log m) = false) -> Forall isLog evs -> List.filter f evs = [].
Proof.
  intros Hf. induction 1 as [|e evs [m ->] _ IH]; simpl; [done|].
  by rewrite Hf.
Qed.

Lemma filter_queries_kept (f : Event -> bool) (l : list AzureSession.t) :
  (forall session, f (ListOrganizations session) = true) ->
  List.filter f (ListOrganizations <$> l) = ListOrganizations <$> l.
Proof.
  intros Hf. induction l as [|x l IH]; [done|].
  rewrite fmap_cons. cbn [List.filter]. by rewrite Hf, IH.
Qed.

Lemma filter_queries_dropped (f : Event -> bool) (l : list AzureSession.t) :
  (forall session, f (ListOrganizations session) = false) ->
  List.filter f (ListOrganizations <$> l) = [].
Proof.
  intros Hf. induction l as [|x l IH]; [done|].
  rewrite fmap_cons. cbn [List.filter]. by rewrite Hf, IH.
Qed.

Lemma getRemoteUrl_logs env workspaceFolder s :
  Forall isLog (events (getRemoteUrl env workspaceFolder s)).
Proof.
  destruct (getRemoteUrl_total env workspaceFolder s) as (r & logs & -> & Hlogs).
  done.
Qed.

(** X4.  When the user is not signed in, the resolution shows the
    sign-in message once and leaves its prompt open, consults neither
    Git nor the network, and returns the static fallback. *)
Theorem not_signed_in_falls_back
    (env : Env) (context : ExtensionContext.t)
    (workspaceFolder : WorkspaceFolder.t) (s : State) :
  getAzureAccountExtensionApi env = Ok tt ->
  waitForSubscriptions env = Ok false ->
  locateSchemaFile env context (Some workspaceFolder) s
  = ((staticFallback env context workspaceFolder).1,
     withTask SignInPrompt s,
     [Log ("Detecting schema for workspace folder "
           +:+ WorkspaceFolder.name workspaceFolder);
      Log "Waiting for login";
      ShowInformationMessage Messages.signInForEnhancedIntelliSense
        Messages.signInLabel]
     ++ (staticFallback env context workspaceFolder).2).
Proof.
  intros Hapi Hlogin. rewrite locateSchemaFile_unfold. cbv zeta.
  assert (autoDetectSchema env context workspaceFolder s
          = (Ok None, withTask SignInPrompt s,
             [Log "Waiting for login";
              ShowInformationMessage Messages.signInForEnhancedIntelliSense
                Messages.signInLabel])) as ->.
  { unfold autoDetectSchema. run. by rewrite Hapi, Hlogin. }
  done.
Qed.

Lemma not_signed_in_falls_back_witness :
  let env := override (Sample.env "" [] None None None)
               (Ok false) (Ok tt) (fun _ => Ok []) (Ok tt) in
  let resolution :=
    locateSchemaFile env Sample.context (Some (Sample.folder "repo-a")) initialState in
  result resolution = Ok "/ext/service-schema.json"
  /\ detached (final resolution) = [SignInPrompt]
  /\ count isNetworkCall (events resolution) = 0.
Proof.
  intros env resolution. subst resolution.
  rewrite (not_signed_in_falls_back env Sample.context (Sample.folder "repo-a")
             initialState eq_refl eq_refl).
  vm_compute. done.
Defined.

(** X5.  Signed in, no recognized remote URL, no persisted choice for
    the folder, and either nothing stored at all or a folder name that is
    not a property every object inherits (such as [constructor]): the
    resolution shows the select-organization message once, leaves one
    prompt open that holds the persisted choices as they are at that
    moment, stays off the network, and returns the static fallback. *)
Theorem unknown_organization_prompts
    (env : Env) (context : ExtensionContext.t)
    (workspaceFolder : WorkspaceFolder.t) (s : State)
    (remoteUrl : option string) :
  getAzureAccountExtensionApi env = Ok tt ->
  waitForSubscriptions env = Ok true ->
  result (getRemoteUrl env workspaceFolder s) = Ok remoteUrl ->
  azureReposUrl env remoteUrl = None ->
  azurePipelinesDetails s ≫= (fun d => d !! WorkspaceFolder.name workspaceFolder)
    = None ->
  inheritedProperty (azurePipelinesDetails s) (WorkspaceFolder.name workspaceFolder)
    = false ->
  let resolution := locateSchemaFile env context (Some workspaceFolder) s in
  result resolution = (staticFallback env context workspaceFolder).1
  /\ final resolution
     = withTask (SelectOrganizationPrompt workspaceFolder (azurePipelinesDetails s)) s
  /\ List.filter isMessage (events resolution)
     = [ShowInformationMessage
          (Messages.selectOrganizationForEnhancedIntelliSense
             (WorkspaceFolder.name workspaceFolder))
          Messages.selectOrganizationLabel]
  /\ count isNetworkCall (events resolution) = 0.
Proof.
  intros Hapi Hlogin Hremote Hurl Hd Hin resolution. subst resolution.
  pose proof (determineOrganization_prompt _ workspaceFolder _ _ Hurl Hd Hin) as Hdet.
  rewrite locateSchemaFile_unfold. cbv zeta.
  rewrite (autoDetectSchema_unresolved _ _ _ _ _ Hapi Hlogin Hremote)
    by (by rewrite Hdet).
  rewrite Hdet. cbn [result final events fst snd].
  pose proof (getRemoteUrl_logs env workspaceFolder s) as Hlogs.
  pose proof (staticFallback_logs env context workspaceFolder) as Hafter.
  split; [done|]. split; [done|]. split.
  - cbn [List.filter isMessage]. rewrite !List.filter_app.
    rewrite (filter_logs isMessage _ (fun _ => eq_refl) Hlogs).
    rewrite (filter_logs isMessage _ (fun _ => eq_refl) Hafter).
    reflexivity.
  - apply count_zero. constructor; [done|].
    repeat (apply Forall_app; split).
    + by apply Forall_logs.
    + by repeat constructor.
    + by apply Forall_logs.
Qed.

Lemma unknown_organization_prompts_witness :
  let env := Sample.env "" [Sample.alice] None None None in
  let stored : gmap string Details :=
    {[ "repo-a" := {| organization := "contoso"; tenant := "tenant-1" |} ]} in
  let s := {| seenOrganizations := ∅; azurePipelinesDetails := Some stored;
              files := ∅; detached := [] |} in
  let resolution :=
    locateSchemaFile env Sample.context (Some (Sample.folder "repo-b")) s in
  result resolution = Ok "/ext/service-schema.json"
  /\ detached (final resolution)
     = [SelectOrganizationPrompt (Sample.folder "repo-b") (Some stored)]
  /\ count isNetworkCall (events resolution) = 0.
Proof.
  intros env stored s resolution.
  destruct (unknown_organization_prompts env Sample.context (Sample.folder "repo-b")
              s None eq_refl eq_refl eq_refl eq_refl eq_refl eq_refl)
    as (Hresult & Hfinal & _ & Hnet).
  split; [|split].
  - subst resolution. rewrite Hresult. vm_compute. reflexivity.
  - subst resolution. rewrite Hfinal. reflexivity.
  - exact Hnet.
Defined.

(** X6.  Signed in, a recognized remote URL, and every session answers
    with a list that lacks the organization: every session has been
    queried once, in order, the error message naming the organization is
    shown once, nothing is fetched or prompted, the state is untouched,
    and the static fallback is returned. *)
Theorem inaccessible_organization_reports_once
    (env : Env) (context : ExtensionContext.t)
    (workspaceFolder : WorkspaceFolder.t) (s : State)
    (remoteUrl : option string) (url organizationName : string) :
  getAzureAccountExtensionApi env = Ok tt ->
  waitForSubscriptions env = Ok true ->
  result (getRemoteUrl env workspaceFolder s) = Ok remoteUrl ->
  azureReposUrl env remoteUrl = Some url ->
  getRepositoryDetailsFromRemoteUrl env url = Ok organizationName ->
  Forall (lacks env organizationName) (sessions env) ->
  let resolution := locateSchemaFile env context (Some workspaceFolder) s in
  result resolution = (staticFallback env context workspaceFolder).1
  /\ final resolution = s
  /\ List.filter isMessage (events resolution)
     = [ShowErrorMessage (Messages.unableToAccessOrganization organizationName)]
  /\ List.filter isNetworkCall (events resolution)
     = ListOrganizations <$> sessions env.
Proof.
  intros Hapi Hlogin Hremote Hurl Horg Hlacks resolution. subst resolution.
  pose proof (determineOrganization_azure _ workspaceFolder _ _ _ s Hurl Horg) as Hdet.
  rewrite (findSession_none _ _ _ s Hlacks) in Hdet. cbn [result events fst snd] in Hdet.
  assert (resolvesTo env workspaceFolder s remoteUrl organizationName None) as Hres.
  { repeat split; try done. by rewrite Hdet. }
  rewrite locateSchemaFile_unfold. cbv zeta.
  rewrite (autoDetectSchema_resolved _ context _ _ _ _ _ Hres).
  rewrite Hdet, fetchSchema_no_session. cbn [result final events fst snd].
  pose proof (getRemoteUrl_logs env workspaceFolder s) as Hlogs.
  pose proof (staticFallback_logs env context workspaceFolder) as Hafter.
  split; [done|]. split; [done|]. split.
  - cbn [List.filter isMessage]. rewrite !List.filter_app.
    rewrite (filter_logs isMessage _ (fun _ => eq_refl) Hlogs).
    rewrite (filter_logs isMessage _ (fun _ => eq_refl) Hafter).
    cbn [List.filter isMessage app]. rewrite app_nil_r.
    by rewrite filter_queries_dropped.
  - cbn [List.filter isNetworkCall]. rewrite !List.filter_app.
    rewrite (filter_logs isNetworkCall _ (fun _ => eq_refl) Hlogs).
    rewrite (filter_logs isNetworkCall _ (fun _ => eq_refl) Hafter).
    cbn [List.filter isNetworkCall app]. rewrite !app_nil_r.
    by apply filter_queries_kept.
Qed.

Lemma inaccessible_organization_reports_once_witness :
  let env := Sample.env "" [Sample.bob]
               (Some "https://dev.azure.com/contoso/project/_git/repo") None None in
  let resolution :=
    locateSchemaFile env Sample.context (Some (Sample.folder "repo-a")) initialState in
  List.filter isMessage (events resolution)
  = [ShowErrorMessage (Messages.unableToAccessOrganization "contoso")]
  /\ final resolution = initialState.
Proof.
  intros env resolution.
  destruct (inaccessible_organization_reports_once env Sample.context
              (Sample.folder "repo-a") initialState
              (Some "https://dev.azure.com/contoso/project/_git/repo")
              "https://dev.azure.com/contoso/project/_git/repo" "contoso"
              eq_refl eq_refl eq_refl eq_refl eq_refl)
    as (_ & Hfinal & Hmessage & _).
  - repeat constructor. eexists. split; reflexivity.
  - split; assumption.
Defined.

(** X7.  Signed in, a recognized remote URL, a session whose list
    contains the organization after sessions whose lists lack it, the
    organization not yet in the cache, and every step of the fetch
    succeeding: the resolution returns the path of the organization's
    location, the document is on disk and the organization in the cache,
    no message is shown, and the network calls are the queries up to the
    matching session followed by the token and the two schema calls,
    all with that session and organization. *)
Theorem azure_repo_resolves_silently
    (env : Env) (context : ExtensionContext.t)
    (workspaceFolder : WorkspaceFolder.t) (s : State)
    (remoteUrl : option string) (url organizationName : string)
    (before after : list AzureSession.t) (session : AzureSession.t)
    (u : Uri.t) (token schema : string) :
  getAzureAccountExtensionApi env = Ok tt ->
  waitForSubscriptions env = Ok true ->
  result (getRemoteUrl env workspaceFolder s) = Ok remoteUrl ->
  azureReposUrl env remoteUrl = Some url ->
  getRepositoryDetailsFromRemoteUrl env url = Ok organizationName ->
  sessions env = before ++ session :: after ->
  Forall (lacks env organizationName) before ->
  grants env organizationName session ->
  organizationName ∉ seenOrganizations s ->
  fetchSucceeds env context organizationName session u token schema ->
  let resolution := locateSchemaFile env context (Some workspaceFolder) s in
  result resolution = Ok (Uri.path u)
  /\ final resolution = fetched organizationName u schema s
  /\ count isMessage (events resolution) = 0
  /\ List.filter isNetworkCall (events resolution)
     = (ListOrganizations <$> before)
       ++ [ListOrganizations session; GetToken session;
           GetTaskAgentApi organizationName; GetYamlSchema organizationName].
Proof.
  intros Hapi Hlogin Hremote Hurl Horg Hsessions Hlacks Hgrants Hfresh Hok resolution.
  subst resolution.
  pose proof (determineOrganization_azure _ workspaceFolder _ _ _ s Hurl Horg) as Hdet.
  rewrite Hsessions, (findSession_some _ _ _ _ after s Hlacks Hgrants) in Hdet.
  cbn [result events fst snd] in Hdet.
  assert (resolvesTo env workspaceFolder s remoteUrl organizationName (Some session))
    as Hres.
  { repeat split; try done. by rewrite Hdet. }
  rewrite locateSchemaFile_unfold. cbv zeta.
  rewrite (autoDetectSchema_resolved _ context _ _ _ _ _ Hres).
  rewrite Hdet, (fetchSchema_miss _ _ _ _ _ _ _ _ _ Hfresh Hok).
  cbn [result final events fst snd].
  pose proof (getRemoteUrl_logs env workspaceFolder s) as Hlogs.
  split; [done|]. split; [done|]. split.
  - unfold count. cbn [List.filter isMessage]. rewrite !List.filter_app.
    rewrite (filter_logs isMessage _ (fun _ => eq_refl) Hlogs).
    cbn [List.filter isMessage app]. by rewrite filter_queries_dropped.
  - cbn [List.filter isNetworkCall]. rewrite !List.filter_app.
    rewrite (filter_logs isNetworkCall _ (fun _ => eq_refl) Hlogs).
    cbn [List.filter isNetworkCall app].
    rewrite filter_queries_kept by done. rewrite fmap_app, app_nil_r.
    by rewrite <- app_assoc.
Qed.

Lemma azure_repo_resolves_silently_witness :
  let env := Sample.env "" [Sample.bob; Sample.alice]
               (Some "https://dev.azure.com/contoso/project/_git/repo") None None in
  let resolution :=
    locateSchemaFile env Sample.context (Some (Sample.folder "repo-a")) initialState in
  result resolution = Ok "/storage/contoso-schema.json"
  /\ count isMessage (events resolution) = 0.
Proof.
  intros env resolution.
  destruct (azure_repo_resolves_silently env Sample.context
              (Sample.folder "repo-a") initialState
              (Some "https://dev.azure.com/contoso/project/_git/repo")
              "https://dev.azure.com/contoso/project/_git/repo" "contoso"
              [Sample.bob] [] Sample.alice
              (Uri.make "file" "" "/storage/contoso-schema.json" "" "")
              "token-of-alice" "{schema of contoso}"
              eq_refl eq_refl eq_refl eq_refl eq_refl eq_refl)
    as (Hresult & _ & Hmessage & _).
  - repeat constructor. eexists. split; reflexivity.
  - eexists. split; reflexivity.
  - apply not_elem_of_empty.
  - repeat split; reflexivity.
  - split; assumption.
Defined.

Lemma findSession_throws env organizationName before session after e s :
  Forall (lacks env organizationName) before ->
  listOrganizations env session = Throw e ->
  findSession env organizationName (before ++ session :: after) s
  = (Throw e, s, ListOrganizations <$> (before ++ [session])).
Proof.
  intros Hbefore Hq. induction Hbefore as [|x before Hl _ IH]; simpl app.
  - simpl. run. by rewrite Hq.
  - rewrite (findSession_lacks _ _ _ _ _ Hl), IH. done.
Qed.

(** X8.  Signed in, a recognized remote URL, and the organization query
    of a session throws before any session matched: the sessions after
    it are not queried, the error is logged and goes no further, no
    message is shown to the user, the state is untouched, and the static
    fallback is returned. *)
Theorem failing_query_falls_back_silently
    (env : Env) (context : ExtensionContext.t)
    (workspaceFolder : WorkspaceFolder.t) (s : State)
    (remoteUrl : option string) (url organizationName : string)
    (before after : list AzureSession.t) (session : AzureSession.t) (e : Error) :
  getAzureAccountExtensionApi env = Ok tt ->
  waitForSubscriptions env = Ok true ->
  result (getRemoteUrl env workspaceFolder s) = Ok remoteUrl ->
  azureReposUrl env remoteUrl = Some url ->
  getRepositoryDetailsFromRemoteUrl env url = Ok organizationName ->
  sessions env = before ++ session :: after ->
  Forall (lacks env organizationName) before ->
  listOrganizations env session = Throw e ->
  let resolution := locateSchemaFile env context (Some workspaceFolder) s in
  result resolution = (staticFallback env context workspaceFolder).1
  /\ final resolution = s
  /\ count isMessage (events resolution) = 0
  /\ List.filter isNetworkCall (events resolution)
     = ListOrganizations <$> (before ++ [session])
  /\ Log ("Error auto-detecting schema for workspace folder "
          +:+ WorkspaceFolder.name workspaceFolder +:+ ": " +:+ Error_toString e)
     ∈ events resolution.
Proof.
  intros Hapi Hlogin Hremote Hurl Horg Hsessions Hlacks Hq resolution.
  subst resolution.
  pose proof (determineOrganization_azure _ workspaceFolder _ _ _ s Hurl Horg) as Hdet.
  rewrite Hsessions, (findSession_throws _ _ _ _ after _ s Hlacks Hq) in Hdet.
  cbn [result events fst snd] in Hdet.
  rewrite locateSchemaFile_unfold. cbv zeta.
  rewrite (autoDetectSchema_unresolved _ _ _ _ _ Hapi Hlogin Hremote)
    by (by rewrite Hdet).
  rewrite Hdet. cbn [result final events fst snd].
  pose proof (getRemoteUrl_logs env workspaceFolder s) as Hlogs.
  pose proof (staticFallback_logs env context workspaceFolder) as Hafter.
  split; [done|]. split; [done|]. split; [|split].
  - unfold count. cbn [List.filter isMessage]. rewrite !List.filter_app.
    rewrite (filter_logs isMessage _ (fun _ => eq_refl) Hlogs).
    cbn [List.filter isMessage app].
    rewrite (filter_logs isMessage _ (fun _ => eq_refl) Hafter).
    by rewrite filter_queries_dropped.
  - cbn [List.filter isNetworkCall]. rewrite !List.filter_app.
    rewrite (filter_logs isNetworkCall _ (fun _ => eq_refl) Hlogs).
    cbn [List.filter isNetworkCall app].
    rewrite (filter_logs isNetworkCall _ (fun _ => eq_refl) Hafter).
    rewrite filter_queries_kept by done. by rewrite app_nil_r.
  - apply elem_of_cons. right. apply elem_of_app. right. by left.
Qed.

Lemma failing_query_falls_back_silently_witness :
  let env := override
               (Sample.env "" [Sample.bob; Sample.alice]
                  (Some "https://dev.azure.com/contoso/project/_git/repo") None None)
               (Ok true) (Ok tt)
               (fun _ => Throw (Failure "The request timed out")) (Ok tt) in
  let resolution :=
    locateSchemaFile env Sample.context (Some (Sample.folder "repo-a")) initialState in
  count isMessage (events resolution) = 0
  /\ List.filter isNetworkCall (events resolution) = [ListOrganizations Sample.bob].
Proof.
  intros env resolution.
  destruct (failing_query_falls_back_silently env Sample.context
              (Sample.folder "repo-a") initialState
              (Some "https://dev.azure.com/contoso/project/_git/repo")
              "https://dev.azure.com/contoso/project/_git/repo" "contoso"
              [] [Sample.alice] Sample.bob (Failure "The request timed out")
              eq_refl eq_refl eq_refl eq_refl eq_refl eq_refl)
    as (_ & _ & Hmessage & Hnet & _).
  - constructor.
  - reflexivity.
  - split; assumption.
Defined.

(** ** Messages *)

Lemma determineOrganization_messages env workspaceFolder remoteUrl s :
  count isMessage (events (determineOrganization env workspaceFolder remoteUrl s)) = 0
  \/ (count isMessage (events (determineOrganization env workspaceFolder remoteUrl s)) = 1
      /\ result (determineOrganization env workspaceFolder remoteUrl s) = Ok None).
Proof.
  destruct (azureReposUrl env remoteUrl) as [url|] eqn:Hurl.
  - left. apply count_zero. revert s.
    change (emits (fun e => isMessage e = false)
              (determineOrganization env workspaceFolder remoteUrl)).
    unfold determineOrganization. rewrite Hurl. walk; try done.
    by apply findSession_emits_queries.
  - destruct (azurePipelinesDetails s
              ≫= (fun d => d !! WorkspaceFolder.name workspaceFolder))
      as [details|] eqn:Hd.
    + left. rewrite (determineOrganization_persisted _ _ _ _ _ Hurl Hd).
      by destruct (List.find _ _).
    + destruct (inheritedProperty (azurePipelinesDetails s)
                  (WorkspaceFolder.name workspaceFolder)) eqn:Hin.
      * left. by rewrite (determineOrganization_inherited _ _ _ _ Hurl Hd Hin).
      * right. by rewrite (determineOrganization_prompt _ _ _ _ Hurl Hd Hin).
Qed.

Lemma fetchSchema_messages env context workspaceFolder organizationName session s :
  count isMessage
    (events (fetchSchema env context workspaceFolder organizationName session s)) <= 1.
Proof.
  destruct session as [session|]; [|by rewrite fetchSchema_no_session].
  rewrite count_zero; [lia|]. revert s.
  change (emits (fun e => isMessage e = false)
            (fetchSchema env context workspaceFolder organizationName (Some session))).
  unfold fetchSchema. walk; done.
Qed.

Lemma count_append (f : Event -> bool) (evs1 evs2 : list Event) :
  count f (evs1 ++ evs2) = count f evs1 + count f evs2.
Proof. unfold count. by rewrite List.filter_app, length_app. Qed.

Lemma count_log (f : Event -> bool) m (evs : list Event) :
  (forall m, f (Log m) = false) -> count f (Log m :: evs) = count f evs.
Proof. intros Hf. unfold count. simpl. by rewrite Hf. Qed.

(** X9.  A resolution shows at most one message to the user, whatever
    the world answers, and opens at most one prompt. *)
Theorem resolution_shows_at_most_one_message
    (env : Env) (context : ExtensionContext.t)
    (workspaceFolder : option WorkspaceFolder.t) (s : State) :
  count isMessage (events (locateSchemaFile env context workspaceFolder s)) <= 1
  /\ length (detached (final (locateSchemaFile env context workspaceFolder s)))
     <= S (length (detached s)).
Proof.
  destruct workspaceFolder as [workspaceFolder|];
    [|rewrite locateSchemaFile_undefined; unfold count, events, final; simpl; lia].
  rewrite locateSchemaFile_final.
  destruct (locateSchemaFile_events env context workspaceFolder s)
    as (after & -> & Hafter).
  rewrite count_log, count_append by done.
  rewrite (count_logs isMessage after) by done.
  enough (count isMessage (events (autoDetectSchema env context workspaceFolder s)) <= 1
          /\ length (detached (final (autoDetectSchema env context workspaceFolder s)))
             <= S (length (detached s))) by lia.
  destruct (getAzureAccountExtensionApi env) as [[]|e] eqn:Hapi;
    [|unfold autoDetectSchema, bind, lift; rewrite Hapi;
      unfold count, events, final; simpl; lia].
  destruct (waitForSubscriptions env) as [[|]|e] eqn:Hlogin;
    [| unfold autoDetectSchema; run; rewrite Hapi, Hlogin;
       unfold count, events, final; simpl; rewrite length_app; simpl; lia
     | unfold autoDetectSchema, bind, lift; rewrite Hapi, Hlogin;
       unfold count, events, final; simpl; lia ].
  destruct (getRemoteUrl_total env workspaceFolder s) as (r & logs & Hr & Hlogs).
  assert (result (getRemoteUrl env workspaceFolder s) = Ok r) as Hremote
    by (by rewrite Hr).
  assert (length (detached (final (determineOrganization env workspaceFolder r s)))
          <= S (length (detached s))) as Hspawn.
  { destruct (azureReposUrl env r) as [url|] eqn:Hurl.
    - assert (keeps detached (determineOrganization env workspaceFolder r)) as ->;
        [|lia].
      unfold determineOrganization. rewrite Hurl. walk; try done.
      apply findSession_keeps.
    - destruct (azurePipelinesDetails s
                ≫= (fun d => d !! WorkspaceFolder.name workspaceFolder))
        as [details|] eqn:Hd.
      + rewrite (determineOrganization_persisted _ _ _ _ _ Hurl Hd).
        destruct (List.find _ _); unfold final; simpl; lia.
      + destruct (inheritedProperty (azurePipelinesDetails s)
                    (WorkspaceFolder.name workspaceFolder)) eqn:Hin.
        * rewrite (determineOrganization_inherited _ _ _ _ Hurl Hd Hin).
          unfold final. simpl. lia.
        * rewrite (determineOrganization_prompt _ _ _ _ Hurl Hd Hin).
          unfold final. simpl. rewrite length_app. simpl. lia. }
  destruct (result (determineOrganization env workspaceFolder r s))
    as [[[organizationName session]|]|e] eqn:Hfound.
  - rewrite (autoDetectSchema_resolved env context workspaceFolder s r
               organizationName session) by done.
    cbn [events final fst snd]. rewrite Hr. cbn [events snd].
    rewrite !count_append, (count_logs isMessage logs) by done.
    pose proof (fetchSchema_messages env context workspaceFolder organizationName
                  session s) as Hfetch.
    rewrite fetchSchema_keeps_detached.
    destruct (determineOrganization_messages env workspaceFolder r s)
      as [->|[_ Hnone]]; [lia|]. by rewrite Hnone in Hfound.
  - rewrite (autoDetectSchema_unresolved _ _ _ _ _ Hapi Hlogin Hremote)
      by (intros found; by rewrite Hfound).
    cbn [events final fst snd]. rewrite Hr. cbn [events snd].
    rewrite count_append, (count_logs isMessage logs) by done.
    destruct (determineOrganization_messages env workspaceFolder r s)
      as [->|[-> _]]; lia.
  - rewrite (autoDetectSchema_unresolved _ _ _ _ _ Hapi Hlogin Hremote)
      by (intros found; by rewrite Hfound).
    cbn [events final fst snd]. rewrite Hr. cbn [events snd].
    rewrite count_append, (count_logs isMessage logs) by done.
    destruct (determineOrganization_messages env workspaceFolder r s)
      as [->|[-> _]]; lia.
Qed.

(** ** The quick pick and what it persists *)

Lemma organizationAndSessions_final env sessions s :
  final (organizationAndSessions env sessions s) = s.
Proof. apply (organizationAndSessions_keeps id). Qed.

Lemma organizationAndSessions_answer env session rest s organizations :
  listOrganizations env session = Ok organizations ->
  organizationAndSessions env (session :: rest) s
  = (match result (organizationAndSessions env rest s) with
     | Ok more =>
         Ok (map (fun organization =>
                    {| label := Organization.accountName organization;
                       data := session |}) organizations ++ more)
     | Throw e => Throw e
     end, s,
     ListOrganizations session :: events (organizationAndSessions env rest s)).
Proof.
  intros Hq. pose proof (organizationAndSessions_final env rest s) as Hs.
  destruct (organizationAndSessions env rest s) as [[r s1] evs] eqn:Hrun.
  unfold final in Hs. simpl in Hs. subst s1.
  change (organizationAndSessions env (session :: rest))
    with (let* organizations :=
            call (ListOrganizations session) (listOrganizations env session) in
          let* more := organizationAndSessions env rest in
          ret (map (fun organization =>
                      {| label := Organization.accountName organization;
                         data := session |}) organizations ++ more)).
  run. rewrite Hq. simpl. rewrite Hrun.
  destruct r; simpl; by rewrite ?app_nil_r.
Qed.

(** X10.  The list offered by the quick pick.  When the query of every
    session answers, each session has been queried once, in order, and
    the entries are the organizations of the first session, then those
    of the second, and so on, each entry carrying the session that
    listed it.  When a query throws, the sessions after it are not
    queried and no list is produced. *)
Theorem organizationAndSessions_lists_every_session
    (env : Env) (sessions : list AzureSession.t) (s : State) :
  (Forall (fun session => isOk (listOrganizations env session) = true) sessions ->
   organizationAndSessions env sessions s
   = (Ok (entries env sessions), s, ListOrganizations <$> sessions))
  /\ (forall before session after e,
        sessions = before ++ session :: after ->
        Forall (fun session => isOk (listOrganizations env session) = true) before ->
        listOrganizations env session = Throw e ->
        organizationAndSessions env sessions s
        = (Throw e, s, ListOrganizations <$> (before ++ [session]))).
Proof.
  split.
  - induction 1 as [|session rest Hq _ IH]; [done|].
    destruct (listOrganizations env session) as [organizations|e] eqn:Hlist; [|done].
    rewrite (organizationAndSessions_answer _ _ _ _ _ Hlist), IH.
    unfold entries. simpl. by rewrite Hlist.
  - intros before session after e -> Hbefore Hq.
    induction Hbefore as [|x before Hx _ IH]; simpl app.
    + simpl. run. by rewrite Hq.
    + destruct (listOrganizations env x) as [organizations|e'] eqn:Hlist; [|done].
      rewrite (organizationAndSessions_answer _ _ _ _ _ Hlist), IH. done.
Qed.

Lemma organizationAndSessions_lists_every_session_witness :
  organizationAndSessions (Sample.env "" [] None None None)
    [Sample.alice; Sample.bob] initialState
  = (Ok [ {| label := "Contoso"; data := Sample.alice |};
          {| label := "Fabrikam"; data := Sample.bob |} ],
     initialState,
     [ListOrganizations Sample.alice; ListOrganizations Sample.bob]).
Proof.
  destruct (organizationAndSessions_lists_every_session
              (Sample.env "" [] None None None) [Sample.alice; Sample.bob]
              initialState) as [Hall _].
  rewrite Hall; [reflexivity|]. by repeat constructor.
Defined.

Lemma organizationAndSessions_ok env sessions s items :
  result (organizationAndSessions env sessions s) = Ok items ->
  items = entries env sessions.
Proof.
  revert items. induction sessions as [|session rest IH]; intros items.
  - simpl. by intros [= <-].
  - destruct (listOrganizations env session) as [organizations|e] eqn:Hlist.
    + rewrite (organizationAndSessions_answer _ _ _ _ _ Hlist).
      cbn [result fst].
      destruct (result (organizationAndSessions env rest s)) as [more|e]; [|done].
      intros [= <-]. unfold entries. simpl. rewrite Hlist.
      by rewrite (IH more eq_refl).
    + simpl. run. by rewrite Hlist.
Qed.

Lemma organizationAndSessions_fails env sessions s session e :
  session ∈ sessions ->
  listOrganizations env session = Throw e ->
  exists e', result (organizationAndSessions env sessions s) = Throw e'.
Proof.
  intros Hin Hq. induction sessions as [|x rest IH]; [by apply elem_of_nil in Hin|].
  destruct (listOrganizations env x) as [organizations|e'] eqn:Hlist.
  - rewrite (organizationAndSessions_answer _ _ _ _ _ Hlist). cbn [result fst].
    apply elem_of_cons in Hin as [->|Hin]; [congruence|].
    destruct (IH Hin) as [e' ->]. by exists e'.
  - exists e'. simpl. run. by rewrite Hlist.
Qed.

Lemma equalIgnoringCase_refl a : equalIgnoringCase a a = true.
Proof.
  induction a as [|c a IH]; [done|]. simpl. rewrite IH.
  by rewrite Ascii.eqb_refl.
Qed.

Lemma entries_offered env sessions item :
  item ∈ entries env sessions ->
  data item ∈ sessions
  /\ exists organizations organization,
       listOrganizations env (data item) = Ok organizations
       /\ organization ∈ organizations
       /\ Organization.accountName organization = label item.
Proof.
  unfold entries. intros Hin. apply list_elem_of_In, in_flat_map in Hin
    as (session & Hsession & Hitem).
  destruct (listOrganizations env session) as [organizations|e] eqn:Hlist;
    [|by destruct Hitem].
  apply in_map_iff in Hitem as (organization & <- & Horg). simpl.
  split; [by apply list_elem_of_In|].
  exists organizations, organization.
  split; [done|]. split; [by apply list_elem_of_In|done].
Qed.

(** X11.  Whatever gets persisted was offered: the persisted
    organization is in the list that the persisted session's own query
    returned, so that session is one the session matcher would accept
    for it. *)
Theorem persisted_choice_was_offered
    (env : Env) (s : State) (selected : QuickPickItemWithData) :
  persists env s selected ->
  data selected ∈ sessions env
  /\ (exists organizations organization,
        listOrganizations env (data selected) = Ok organizations
        /\ organization ∈ organizations
        /\ Organization.accountName organization = label selected)
  /\ grants env (label selected) (data selected).
Proof.
  intros (_ & _ & items & i & Hitems & _ & Hpick).
  apply organizationAndSessions_ok in Hitems as ->.
  apply list_elem_of_lookup_2 in Hpick.
  destruct (entries_offered _ _ _ Hpick)
    as (Hsession & organizations & organization & Hlist & Horg & Hname).
  split; [done|]. split; [by exists organizations, organization|].
  exists organizations. split; [done|].
  unfold hasOrganization. apply existsb_exists. exists organization.
  split; [by apply list_elem_of_In|].
  rewrite Hname. apply equalIgnoringCase_refl.
Qed.

Lemma persisted_choice_was_offered_witness :
  grants
    (Sample.env "" [Sample.alice; Sample.bob] None
       (Some Messages.selectOrganizationLabel) (Some 1))
    "Fabrikam" Sample.bob.
Proof.
  destruct (persisted_choice_was_offered
              (Sample.env "" [Sample.alice; Sample.bob] None
                 (Some Messages.selectOrganizationLabel) (Some 1))
              initialState {| label := "Fabrikam"; data := Sample.bob |})
    as (_ & _ & Hgrants); [|exact Hgrants].
  split; [reflexivity|]. split; [reflexivity|].
  exists [ {| label := "Contoso"; data := Sample.alice |};
           {| label := "Fabrikam"; data := Sample.bob |} ], 1.
  repeat split; reflexivity.
Defined.

(** X12.  When the organization query of any session throws while the
    list is built, the prompt persists nothing and fires nothing,
    whatever the user clicks or picks. *)
Theorem failed_listing_persists_nothing
    (env : Env) (workspaceFolder : WorkspaceFolder.t)
    (snapshot : option (gmap string Details)) (s : State)
    (session : AzureSession.t) (e : Error) :
  session ∈ sessions env ->
  listOrganizations env session = Throw e ->
  let answered :=
    runTask env (SelectOrganizationPrompt workspaceFolder snapshot) s in
  final answered = s /\ count isFire (events answered) = 0.
Proof.
  intros Hin Hq answered. subst answered. simpl.
  destruct (organizationAndSessions_fails env (sessions env) s session e Hin Hq)
    as [e' Hfail].
  pose proof (organizationAndSessions_final env (sessions env) s) as Hs.
  pose proof (organizationAndSessions_emits env (sessions env) s) as Hev.
  unfold selectOrganization, showQuickPick.
  destruct (informationMessageAction env) as [[|]|]; try done.
  run.
  destruct (organizationAndSessions env (sessions env) s) as [[r s1] evs].
  unfold result, final, events in *. simpl in *. subst r s1. simpl.
  split; [done|]. apply count_zero.
  rewrite app_nil_r. apply Forall_app. split; [done|]. by repeat constructor.
Qed.

Lemma failed_listing_persists_nothing_witness :
  let env := override
               (Sample.env "" [Sample.alice; Sample.bob] None
                  (Some Messages.selectOrganizationLabel) (Some 0))
               (Ok true) (Ok tt)
               (fun session =>
                  if AzureSession.userId session =? "bob"
                  then Throw (Failure "The request timed out")
                  else Ok [Organization.make "Contoso"])
               (Ok tt) in
  let answered :=
    runTask env (SelectOrganizationPrompt (Sample.folder "repo-b") None) initialState in
  final answered = initialState /\ count isFire (events answered) = 0.
Proof.
  intros env answered.
  apply (failed_listing_persists_nothing env (Sample.folder "repo-b") None
           initialState Sample.bob (Failure "The request timed out")).
  - apply elem_of_cons. right. apply elem_of_cons. by left.
  - reflexivity.
Defined.

(** X13.  The [onDidSelectOrganization] event is fired for a folder only
    by the continuation of that folder's prompt, and only once the
    user's pick among the offered entries has been written to the
    workspace state: the state then holds the snapshot of the prompt
    with the folder's entry set to the pick. *)
Theorem fire_only_after_persisting
    (env : Env) (task : Task) (s : State) (workspaceFolder : WorkspaceFolder.t) :
  FireSelectOrganization workspaceFolder ∈ events (runTask env task s) ->
  exists snapshot selected,
    task = SelectOrganizationPrompt workspaceFolder snapshot
    /\ persists env s selected
    /\ final (runTask env task s)
       = setAzurePipelinesDetails (persisted workspaceFolder snapshot selected) s.
Proof.
  destruct task as [|folder snapshot]; simpl.
  - unfold signIn. destruct (informationMessageAction env) as [[|]|]; run;
      try (by intros ?%elem_of_nil).
    destruct (executeCommand env _); simpl; intros Hin;
      apply elem_of_cons in Hin as [?|?%elem_of_nil]; done.
  - pose proof (organizationAndSessions_final env (sessions env) s) as Hs.
    pose proof (organizationAndSessions_emits env (sessions env) s) as Hev.
    unfold selectOrganization, showQuickPick.
    destruct (informationMessageAction env) as [[|]|] eqn:Haction;
      try (by intros ?%elem_of_nil).
    run.
    destruct (organizationAndSessions env (sessions env) s) as [[r s1] evs] eqn:Hrun.
    unfold final, events in Hs, Hev. simpl in Hs, Hev. subst s1.
    assert (forall tail,
              FireSelectOrganization workspaceFolder ∈ evs ++ tail ->
              FireSelectOrganization workspaceFolder ∈ tail) as Htail.
    { intros tail [Hin|Hin]%elem_of_app; [|done].
      rewrite Forall_forall in Hev. by specialize (Hev _ Hin). }
    destruct r as [items|e]; simpl.
    + destruct (quickPickChoice env) as [i|] eqn:Hchoice; simpl.
      * destruct (items !! i) as [selected|] eqn:Hpick; simpl.
        -- destruct (updateWorkspaceState env) as [[]|e] eqn:Hupdate; simpl.
           ++ rewrite app_nil_r. intros Hin%Htail.
              apply elem_of_cons in Hin as [?|Hin]; [done|].
              apply elem_of_cons in Hin as [?|Hin]; [done|].
              apply elem_of_cons in Hin as [[= ->]|?%elem_of_nil]; [|done].
              exists snapshot, selected. split; [done|]. split; [|done].
              split; [done|]. split; [done|]. exists items, i.
              by rewrite Hrun.
           ++ rewrite app_nil_r. intros Hin%Htail.
              apply elem_of_cons in Hin as [?|Hin]; [done|].
              by apply elem_of_cons in Hin as [?|?%elem_of_nil].
        -- rewrite app_nil_r. intros Hin%Htail.
           by apply elem_of_cons in Hin as [?|?%elem_of_nil].
      * rewrite app_nil_r. intros Hin%Htail.
        by apply elem_of_cons in Hin as [?|?%elem_of_nil].
    + rewrite app_nil_r. intros Hin%Htail.
      by apply elem_of_cons in Hin as [?|?%elem_of_nil].
Qed.

Lemma fire_only_after_persisting_witness :
  let env := Sample.env "" [Sample.alice; Sample.bob] None
               (Some Messages.selectOrganizationLabel) (Some 1) in
  let task := SelectOrganizationPrompt (Sample.folder "repo-b") None in
  exists snapshot selected,
    task = SelectOrganizationPrompt (Sample.folder "repo-b") snapshot
    /\ persists env initialState selected
    /\ final (runTask env task initialState)
       = setAzurePipelinesDetails
           (persisted (Sample.folder "repo-b") snapshot selected) initialState.
Proof.
  intros env task.
  apply (fire_only_after_persisting env task initialState (Sample.folder "repo-b")).
  vm_compute. apply elem_of_cons. right. apply elem_of_cons. right.
  apply elem_of_cons. right. apply elem_of_cons. right. apply elem_of_cons. by left.
Defined.

(** ** The session cache and the documents over the life of the process *)

Lemma determineOrganization_keeps {B} (f : State -> B) env workspaceFolder remoteUrl :
  (forall t st, f (withTask t st) = f st) ->
  keeps f (determineOrganization env workspaceFolder remoteUrl).
Proof.
  intros Hf. unfold determineOrganization. walk; try done.
  - apply findSession_keeps.
  - apply Hf.
Qed.

(** What a resolution does to the cache and to the documents: nothing,
    or one organization added together with its document. *)
Lemma locateSchemaFile_store env context workspaceFolder s :
  let s' := final (locateSchemaFile env context workspaceFolder s) in
  (seenOrganizations s' = seenOrganizations s /\ files s' = files s)
  \/ exists organizationName u schema,
       (organizationName ∉ seenOrganizations s)
       /\ schemaLocation context organizationName = Ok u
       /\ seenOrganizations s' = {[organizationName]} ∪ seenOrganizations s
       /\ files s' = <[u := schema]> (files s).
Proof.
  cbv zeta. destruct workspaceFolder as [workspaceFolder|];
    [|left; by rewrite locateSchemaFile_undefined].
  rewrite locateSchemaFile_final.
  destruct (getAzureAccountExtensionApi env) as [[]|e] eqn:Hapi;
    [|left; unfold autoDetectSchema, bind, lift; by rewrite Hapi].
  destruct (waitForSubscriptions env) as [[|]|e] eqn:Hlogin;
    [| left; unfold autoDetectSchema; run; by rewrite Hapi, Hlogin
     | left; unfold autoDetectSchema, bind, lift; by rewrite Hapi, Hlogin ].
  destruct (getRemoteUrl_total env workspaceFolder s) as (r & logs & Hr & _).
  assert (result (getRemoteUrl env workspaceFolder s) = Ok r) as Hremote
    by (by rewrite Hr).
  destruct (result (determineOrganization env workspaceFolder r s))
    as [[[organizationName session]|]|e] eqn:Hfound.
  - rewrite (autoDetectSchema_resolved env context workspaceFolder s r
               organizationName session) by done.
    cbn [final fst snd].
    destruct (fetchSchema_cases env context workspaceFolder organizationName session s)
      as [->|(azureSession & u & token & schema & -> & Hseen & Hok)]; [by left|].
    rewrite (fetchSchema_miss _ _ _ _ _ _ _ _ _ Hseen Hok).
    right. exists organizationName, u, schema.
    by destruct Hok as (_ & Hloc & _).
  - left. rewrite (autoDetectSchema_unresolved _ _ _ _ _ Hapi Hlogin Hremote)
      by (intros found; by rewrite Hfound).
    cbn [final fst snd]. split; by apply determineOrganization_keeps.
  - left. rewrite (autoDetectSchema_unresolved _ _ _ _ _ Hapi Hlogin Hremote)
      by (intros found; by rewrite Hfound).
    cbn [final fst snd]. split; by apply determineOrganization_keeps.
Qed.

Lemma respond_files env i s : files (final (respond env i s)) = files s.
Proof.
  unfold respond. destruct (detached s !! i) as [task|]; [|done].
  assert (keeps files (runTask env task)) as ->; [|done].
  destruct task; unfold runTask, signIn, selectOrganization, showQuickPick;
    walk; try done. apply organizationAndSessions_keeps.
Qed.

(** X14.  Over any sequence of resolutions and answered prompts, the
    session cache only grows and no stored document disappears. *)
Theorem cache_and_documents_only_grow
    (context : ExtensionContext.t) (s s' : State) :
  rtc (step context) s s' ->
  seenOrganizations s ⊆ seenOrganizations s'
  /\ dom (files s) ⊆ dom (files s').
Proof.
  induction 1 as [|s1 s2 s3 Hstep _ [IHseen IHfiles]]; [done|].
  enough (seenOrganizations s1 ⊆ seenOrganizations s2
          /\ dom (files s1) ⊆ dom (files s2)) as [H1 H2].
  { split; etrans; done. }
  inversion Hstep; subst.
  - destruct (locateSchemaFile_store env context workspaceFolder s1)
      as [[-> ->]|(o & u & schema & _ & _ & -> & ->)]; [done|].
    rewrite dom_insert_L. set_solver.
  - by rewrite respond_seen, respond_files.
Qed.

Lemma cache_and_documents_only_grow_witness :
  let env := Sample.env "" [Sample.alice]
               (Some "https://dev.azure.com/contoso/project/_git/repo") None None in
  let s' := final (locateSchemaFile env Sample.context
                     (Some (Sample.folder "repo-a")) revokedState) in
  seenOrganizations revokedState ⊆ seenOrganizations s'
  /\ dom (files revokedState) ⊆ dom (files s').
Proof.
  intros env s'.
  apply (cache_and_documents_only_grow Sample.context revokedState s').
  apply rtc_once. apply step_resolve.
Defined.

(** X15.  If every organization in the session cache has a document at
    its deterministic location, this is still so after any sequence of
    resolutions and answered prompts: a cache hit never returns a
    location that the process has not written. *)
Theorem cached_organizations_have_documents
    (context : ExtensionContext.t) (s s' : State) :
  cacheBacked context s ->
  rtc (step context) s s' ->
  cacheBacked context s'.
Proof.
  intros Hs Hsteps. induction Hsteps as [|s1 s2 s3 Hstep _ IH]; [done|].
  apply IH. clear IH. inversion Hstep; subst.
  - destruct (locateSchemaFile_store env context workspaceFolder s1)
      as [[Hseen Hfiles]|(o & u & schema & _ & Hloc & Hseen & Hfiles)];
      intros organizationName; rewrite Hseen, Hfiles.
    + apply Hs.
    + intros [->%elem_of_singleton|Hin]%elem_of_union.
      * exists u, schema. split; [done|]. apply lookup_insert_eq.
      * destruct (Hs _ Hin) as (u' & schema' & Hloc' & Hfile').
        destruct (decide (u = u')) as [->|Hne].
        -- exists u', schema. split; [done|]. apply lookup_insert_eq.
        -- exists u', schema'. split; [done|]. by rewrite lookup_insert_ne.
  - intros organizationName. rewrite respond_seen, respond_files. apply Hs.
Qed.

Lemma cached_organizations_have_documents_witness :
  let env := Sample.env "" [Sample.alice]
               (Some "https://dev.azure.com/contoso/project/_git/repo") None None in
  cacheBacked Sample.context
    (final (locateSchemaFile env Sample.context
              (Some (Sample.folder "repo-a")) initialState)).
Proof.
  intros env.
  apply (cached_organizations_have_documents Sample.context initialState).
  - intros organizationName Hin. by apply not_elem_of_empty in Hin.
  - apply rtc_once. apply step_resolve.
Defined.

(** ** The static fallback never fails on joined paths *)

(** X16.  With the default (blank) configuration and an extension
    installed at an absolute path, a resolution for a workspace folder
    never throws, whatever happens during auto-detection; when
    auto-detection produces no location, the result is the bundled
    [service-schema.json] under the installation root. *)
Theorem default_configuration_never_throws
    (env : Env) (context : ExtensionContext.t)
    (workspaceFolder : WorkspaceFolder.t) (s : State) :
  path.isAbsolute (ExtensionContext.extensionPath context) = true ->
  isBlank (customSchemaFile env) = true ->
  exists location,
    result (locateSchemaFile env context (Some workspaceFolder) s) = Ok location
    /\ ((forall detected,
           result (autoDetectSchema env context workspaceFolder s)
           <> Ok (Some detected)) ->
        location = bundledSchemaPath context).
Proof.
  intros Habs Hblank.
  assert (alternateSchemaUri env context (Some workspaceFolder)
          = Ok (Uri.make "file" "" (bundledSchemaPath context) "" "")) as Halt.
  { unfold alternateSchemaUri. cbv zeta.
    fold (isBlank (customSchemaFile env)). rewrite Hblank.
    fold (bundledSchemaPath context).
    pose proof (bundledSchemaPath_absolute context Habs) as Hb.
    pose proof (absolute_not_http _ Hb) as Hh. unfold isHttpUrl in Hh.
    rewrite Hh, Hb. by apply join_file. }
  rewrite locateSchemaFile_result. unfold staticFallback. rewrite Halt.
  destruct (result (autoDetectSchema env context workspaceFolder s))
    as [[detected|]|e]; eexists; (split; [reflexivity|]); try done.
  intros Hnone. by destruct (Hnone detected).
Qed.

Lemma default_configuration_never_throws_witness :
  exists location,
    result (locateSchemaFile
              (Sample.withoutToken
                 (Sample.env "  " [Sample.alice]
                    (Some "https://dev.azure.com/contoso/project/_git/repo") None None))
              Sample.context (Some (Sample.folder "repo-a")) initialState)
    = Ok location
    /\ location = "/ext/service-schema.json".
Proof.
  destruct (default_configuration_never_throws
              (Sample.withoutToken
                 (Sample.env "  " [Sample.alice]
                    (Some "https://dev.azure.com/contoso/project/_git/repo") None None))
              Sample.context (Sample.folder "repo-a") initialState eq_refl eq_refl)
    as (location & Hresult & Hfallback).
  exists location. split; [exact Hresult|].
  rewrite Hfallback; [reflexivity|].
  intros detected. vm_compute. discriminate.
Defined.

(** X17.  A configured value that is not blank, has no [http(s)://]
    prefix and is not an absolute path, for a workspace folder whose
    root is an absolute path: the resolution never throws, and when
    auto-detection produces no location the result is the value joined
    to the workspace root and normalized. *)
Theorem relative_configuration_resolves_in_workspace
    (env : Env) (context : ExtensionContext.t)
    (workspaceFolder : WorkspaceFolder.t) (s : State) :
  path.isAbsolute (Uri.fsPath (WorkspaceFolder.uri workspaceFolder)) = true ->
  isBlank (customSchemaFile env) = false ->
  isHttpUrl (customSchemaFile env) = false ->
  path.isAbsolute (customSchemaFile env) = false ->
  exists location,
    result (locateSchemaFile env context (Some workspaceFolder) s) = Ok location
    /\ ((forall detected,
           result (autoDetectSchema env context workspaceFolder s)
           <> Ok (Some detected)) ->
        location
        = path.join [Uri.fsPath (WorkspaceFolder.uri workspaceFolder);
                     customSchemaFile env]).
Proof.
  intros Hroot Hblank Hhttp Habs.
  assert (customSchemaFile env <> "") as Hne.
  { intros Hempty. by rewrite Hempty in Hblank. }
  assert (alternateSchemaUri env context (Some workspaceFolder)
          = Ok (Uri.make "file" ""
                  (path.join [Uri.fsPath (WorkspaceFolder.uri workspaceFolder);
                              customSchemaFile env]) "" "")) as Halt.
  { unfold alternateSchemaUri. cbv zeta.
    fold (isBlank (customSchemaFile env)). rewrite Hblank.
    fold (isHttpUrl (customSchemaFile env)). rewrite Hhttp, Habs.
    by apply join_file. }
  rewrite locateSchemaFile_result. unfold staticFallback. rewrite Halt.
  destruct (result (autoDetectSchema env context workspaceFolder s))
    as [[detected|]|e]; eexists; (split; [reflexivity|]); try done.
  intros Hnone. by destruct (Hnone detected).
Qed.

Lemma relative_configuration_resolves_in_workspace_witness :
  exists location,
    result (locateSchemaFile
              (Sample.env "schemas/../my.json" [Sample.alice] None None None)
              Sample.context (Some (Sample.folder "repo-b")) initialState)
    = Ok location
    /\ location = "/work/repo-b/my.json".
Proof.
  destruct (relative_configuration_resolves_in_workspace
              (Sample.env "schemas/../my.json" [Sample.alice] None None None)
              Sample.context (Sample.folder "repo-b") initialState
              eq_refl eq_refl eq_refl eq_refl)
    as (location & Hresult & Hfallback).
  exists location. split; [exact Hresult|].
  rewrite Hfallback; [reflexivity|].
  intros detected. vm_compute. discriminate.
Defined.

(** ** Errors of auto-detection *)

(** X18.  No error of auto-detection reaches the caller of a resolution
    for a workspace folder.  When auto-detection throws, the error is
    logged and the outcome is that of the static fallback; the
    resolution itself throws only when no location was detected and the
    static URI cannot be built, and then with the error of that URI. *)
Theorem detection_errors_are_contained
    (env : Env) (context : ExtensionContext.t)
    (workspaceFolder : WorkspaceFolder.t) (s : State) :
  let detection := autoDetectSchema env context workspaceFolder s in
  let resolution := locateSchemaFile env context (Some workspaceFolder) s in
  (forall e,
      result detection = Throw e ->
      result resolution = (staticFallback env context workspaceFolder).1
      /\ final resolution = final detection
      /\ Log ("Error auto-detecting schema for workspace folder "
              +:+ WorkspaceFolder.name workspaceFolder +:+ ": " +:+ Error_toString e)
         ∈ events resolution)
  /\ (forall e,
      result resolution = Throw e ->
      alternateSchemaUri env context (Some workspaceFolder) = Throw e
      /\ forall detected, result detection <> Ok (Some detected)).
Proof.
  cbv zeta. split.
  - intros e He. rewrite locateSchemaFile_unfold. cbv zeta. rewrite He.
    cbn [result final events fst snd]. split; [done|]. split; [done|].
    apply elem_of_cons. right. apply elem_of_app. right. by left.
  - intros e. rewrite locateSchemaFile_result. unfold staticFallback.
    destruct (result (autoDetectSchema env context workspaceFolder s))
      as [[detected|]|e']; [done| |];
      destruct (alternateSchemaUri env context (Some workspaceFolder)) as [u|e''];
      simpl; try done; by intros [= ->].
Qed.

Lemma detection_errors_are_contained_witness :
  let env := Sample.withoutToken
               (Sample.env "" [Sample.alice]
                  (Some "https://dev.azure.com/contoso/project/_git/repo") None None) in
  let resolution :=
    locateSchemaFile env Sample.context (Some (Sample.folder "repo-a")) initialState in
  result resolution = Ok "/ext/service-schema.json"
  /\ Log "Error auto-detecting schema for workspace folder repo-a: Error: Unable to acquire a token"
     ∈ events resolution.
Proof.
  intros env resolution.
  destruct (detection_errors_are_contained env Sample.context
              (Sample.folder "repo-a") initialState) as [Hcaught _].
  destruct (Hcaught (Failure "Unable to acquire a token")) as (Hresult & _ & Hlog).
  - vm_compute. reflexivity.
  - split; [|exact Hlog]. subst resolution. rewrite Hresult. vm_compute. reflexivity.
Defined.

(** ** The persisted choices *)

(** X19.  What a persisted pick does to the workspace state, relative to
    the value that the prompt read when it was started: the entry of the
    folder becomes the picked organization with the tenant of the
    picked session, replacing an earlier entry of that folder, and every
    other entry is the one of that value. *)
Theorem persisting_sets_one_entry_of_the_snapshot
    (env : Env) (workspaceFolder : WorkspaceFolder.t)
    (snapshot : option (gmap string Details)) (s : State)
    (selected : QuickPickItemWithData) :
  persists env s selected ->
  let stored :=
    azurePipelinesDetails (final (selectOrganization env workspaceFolder snapshot s)) in
  stored ≫= (fun d => d !! WorkspaceFolder.name workspaceFolder)
  = Some {| organization := label selected;
            tenant := AzureSession.tenantId (data selected) |}
  /\ forall other,
       other <> WorkspaceFolder.name workspaceFolder ->
       stored ≫= (fun d => d !! other) = snapshot ≫= (fun d => d !! other).
Proof.
  intros Hp stored. subst stored.
  rewrite (selectOrganization_persists _ _ _ _ _ Hp). cbn [final fst snd].
  unfold setAzurePipelinesDetails, persisted. simpl. split.
  - apply lookup_insert_eq.
  - intros other Hne. rewrite lookup_insert_ne by done. by destruct snapshot.
Qed.

Lemma persisting_sets_one_entry_of_the_snapshot_witness :
  let env := Sample.env "" [Sample.alice; Sample.bob] None
               (Some Messages.selectOrganizationLabel) (Some 1) in
  let stored :=
    azurePipelinesDetails
      (final (selectOrganization env (Sample.folder "repo-c")
                (azurePipelinesDetails revokedState) revokedState)) in
  stored ≫= (fun d => d !! "repo-c")
  = Some {| organization := "Fabrikam"; tenant := "tenant-2" |}.
Proof.
  intros env stored.
  destruct (persisting_sets_one_entry_of_the_snapshot env (Sample.folder "repo-c")
              (azurePipelinesDetails revokedState) revokedState
              {| label := "Fabrikam"; data := Sample.bob |}) as [Hown _];
    [|exact Hown].
  split; [reflexivity|]. split; [reflexivity|].
  exists [ {| label := "Contoso"; data := Sample.alice |};
           {| label := "Fabrikam"; data := Sample.bob |} ], 1.
  repeat split; reflexivity.
Defined.

(** ** Letter case *)

Lemma equalIgnoringCase_toLowerCase a b :
  equalIgnoringCase a b = true -> JS.toLowerCase a = JS.toLowerCase b.
Proof.
  intros H. rewrite <- toLowerCase_eqb in H. by apply String.eqb_eq.
Qed.

(** X20.  The session matcher does not depend on the letter case of the
    organization name it is given: two names that differ only in case
    give the same session, the same queries and the same errors. *)
Theorem findSession_ignores_case
    (env : Env) (a b : string) (sessions : list AzureSession.t) (s : State) :
  equalIgnoringCase a b = true ->
  findSession env a sessions s = findSession env b sessions s.
Proof.
  intros Heq%equalIgnoringCase_toLowerCase. revert s.
  induction sessions as [|session rest IH]; intros s; [done|].
  cbn [findSession]. rewrite Heq. unfold bind.
  destruct (call (ListOrganizations session) (listOrganizations env session) s)
    as [[[organizations|e] s1] evs]; [|done].
  destruct (List.find _ organizations); [done|].
  by rewrite IH.
Qed.

Lemma findSession_ignores_case_witness :
  findSession (Sample.env "" [] None None None) "CONTOSO"
    [Sample.bob; Sample.alice] initialState
  = findSession (Sample.env "" [] None None None) "contoso"
      [Sample.bob; Sample.alice] initialState.
Proof.
  apply (findSession_ignores_case (Sample.env "" [] None None None)
           "CONTOSO" "contoso" [Sample.bob; Sample.alice] initialState).
  reflexivity.
Defined.

(** ** Folders named as an inherited property *)

(** X21.  Signed in, no recognized remote URL, some choices stored but
    none for this folder, and a folder named as a property that every
    object inherits (such as [constructor]): line 167 takes the
    inherited property for a persisted choice and line 174 throws.  The
    error is logged, no message is shown and no prompt is opened, the
    state is untouched, nothing goes over the network, and the static
    fallback is returned. *)
Theorem inherited_folder_name_never_prompts
    (env : Env) (context : ExtensionContext.t)
    (workspaceFolder : WorkspaceFolder.t) (s : State)
    (remoteUrl : option string) (stored : gmap string Details) :
  getAzureAccountExtensionApi env = Ok tt ->
  waitForSubscriptions env = Ok true ->
  result (getRemoteUrl env workspaceFolder s) = Ok remoteUrl ->
  azureReposUrl env remoteUrl = None ->
  azurePipelinesDetails s = Some stored ->
  stored !! WorkspaceFolder.name workspaceFolder = None ->
  In (WorkspaceFolder.name workspaceFolder) objectPrototype ->
  let resolution := locateSchemaFile env context (Some workspaceFolder) s in
  result resolution = (staticFallback env context workspaceFolder).1
  /\ final resolution = s
  /\ count isMessage (events resolution) = 0
  /\ count isNetworkCall (events resolution) = 0
  /\ Log ("Error auto-detecting schema for workspace folder "
          +:+ WorkspaceFolder.name workspaceFolder
          +:+ ": TypeError: Cannot read properties of undefined (reading 'tenantId')")
     ∈ events resolution.
Proof.
  intros Hapi Hlogin Hremote Hurl Hstored Hown Hname resolution. subst resolution.
  assert (azurePipelinesDetails s
          ≫= (fun d => d !! WorkspaceFolder.name workspaceFolder) = None) as Hd
    by (by rewrite Hstored).
  assert (inheritedProperty (azurePipelinesDetails s)
            (WorkspaceFolder.name workspaceFolder) = true) as Hin.
  { rewrite Hstored. apply existsb_exists.
    exists (WorkspaceFolder.name workspaceFolder). split; [done|].
    apply String.eqb_refl. }
  pose proof (determineOrganization_inherited _ workspaceFolder _ _ Hurl Hd Hin) as Hdet.
  rewrite locateSchemaFile_unfold. cbv zeta.
  rewrite (autoDetectSchema_unresolved _ _ _ _ _ Hapi Hlogin Hremote)
    by (by rewrite Hdet).
  rewrite Hdet. cbn [result final events fst snd].
  pose proof (getRemoteUrl_logs env workspaceFolder s) as Hlogs.
  pose proof (staticFallback_logs env context workspaceFolder) as Hafter.
  split; [done|]. split; [done|]. split; [|split].
  - apply count_zero. constructor; [done|].
    repeat (apply Forall_app; split).
    + by apply Forall_logs.
    + by repeat constructor.
    + constructor; [done|]. by apply Forall_logs.
  - apply count_zero. constructor; [done|].
    repeat (apply Forall_app; split).
    + by apply Forall_logs.
    + by repeat constructor.
    + constructor; [done|]. by apply Forall_logs.
  - apply elem_of_cons. right. apply elem_of_app. right.
    apply elem_of_cons. by left.
Qed.

Lemma inherited_folder_name_never_prompts_witness :
  let env := Sample.env "" [Sample.alice] None None None in
  let stored : gmap string Details :=
    {[ "repo-a" := {| organization := "contoso"; tenant := "tenant-1" |} ]} in
  let s := {| seenOrganizations := ∅; azurePipelinesDetails := Some stored;
              files := ∅; detached := [] |} in
  let resolution :=
    locateSchemaFile env Sample.context (Some (Sample.folder "constructor")) s in
  result resolution = Ok "/ext/service-schema.json"
  /\ final resolution = s
  /\ count isMessage (events resolution) = 0.
Proof.
  intros env stored s resolution.
  destruct (inherited_folder_name_never_prompts env Sample.context
              (Sample.folder "constructor") s None stored
              eq_refl eq_refl eq_refl eq_refl eq_refl eq_refl)
    as (Hresult & Hfinal & Hmessages & _).
  { simpl. tauto. }
  split; [|split].
  - subst resolution. rewrite Hresult. vm_compute. reflexivity.
  - exact Hfinal.
  - exact Hmessages.
Defined.
